(** * The research pipeline of [main_graph.py]

    A shallow embedding of the five LangGraph nodes of [main_graph.py]
    (search, download and parse, summarize, compare, report) together with
    the state they thread, of the paragraphs [add_text_with_bullets] makes
    for the report, and of the background task and the polling endpoint of
    [api_server.py], with the properties proved on them.

    Python values are modelled as follows.
    - [str] is [string]; a character is a code point below 256.
    - A dictionary read with [.get] is a record of [option] fields, [None]
      standing for a missing key as well as for the value [None].
    - The outside world (search providers, HTTP, the PDF library, the
      language model, the file system, the document library) is a record of
      outcomes handed to each node; every call the node makes is recorded in
      a trace of events. *)

From Stdlib Require Import ZArith List String Ascii Bool Lia.
From stdpp Require Import base option list gmap strings pretty.
Import ListNotations.

Local Open Scope string_scope.
Local Open Scope Z_scope.

Set Warnings "-clear-no-such-hyp".

(** ** Python string primitives *)

Module PyStr.

(** [s[n:]] and [s[:n]] for a natural number [n]. *)
Fixpoint drop (n : nat) (s : string) : string :=
  match n, s with
  | O, _ => s
  | S n', EmptyString => EmptyString
  | S n', String _ s' => drop n' s'
  end.

Fixpoint take (n : nat) (s : string) : string :=
  match n, s with
  | O, _ => EmptyString
  | S n', EmptyString => EmptyString
  | S n', String c s' => String c (take n' s')
  end.

Definition len (s : string) : Z := Z.of_nat (String.length s).

(** [s.startswith(p)]. *)
Definition startswith (p s : string) : bool := String.prefix p s.

(** Position of the first occurrence of [sep] in [s], counted from [i]. *)
Fixpoint find_from (sep s : string) (i : nat) : option nat :=
  if startswith sep s then Some i
  else match s with
       | EmptyString => None
       | String _ s' => find_from sep s' (S i)
       end.

(** [s.find(sep)]: the lowest index of [sep] in [s], or [-1]. *)
Definition find (sep s : string) : Z :=
  match find_from sep s 0 with
  | Some i => Z.of_nat i
  | None => -1
  end.

(** Normalisation of one slice bound, as CPython's [PySlice_AdjustIndices]
    does for a step of 1: a negative bound counts from the end, and the
    result is clamped to [0 .. len]. *)
Definition adjust (n : Z) (i : Z) : Z :=
  if i <? 0 then Z.max 0 (i + n) else Z.min i n.

(** [s[a:b]]; a missing bound is [None]. *)
Definition slice (a b : option Z) (s : string) : string :=
  let n := len s in
  let lo := match a with Some a => adjust n a | None => 0 end in
  let hi := match b with Some b => adjust n b | None => n end in
  take (Z.to_nat (hi - lo)) (drop (Z.to_nat lo) s).

(** [s.split(sep)] for a non-empty [sep]: scan from the left, cut at every
    match and resume after it.  [k] counts the characters of the current
    match that are still to be skipped; a character that is read goes to
    the front of the piece that the rest of the scan starts with. *)
Definition cons_first (c : ascii) (l : list string) : list string :=
  match l with
  | p :: ps => String c p :: ps
  | [] => [String c EmptyString]
  end.

Fixpoint split_aux (sep : string) (k : nat) (s : string) : list string :=
  match s with
  | EmptyString => [EmptyString]
  | String c s' =>
      match k with
      | S k' => split_aux sep k' s'
      | O =>
          if startswith sep s
          then EmptyString :: split_aux sep (String.length sep - 1) s'
          else cons_first c (split_aux sep O s')
      end
  end.

Definition split (sep s : string) : list string := split_aux sep O s.

(** [l[0]] and [l[-1]] of a list that [split] returned (never empty). *)
Definition first (l : list string) : string := List.hd EmptyString l.
Definition last (l : list string) : string := List.last l EmptyString.

(** [s.replace(old, new)] for a non-empty [old]. *)
Fixpoint replace_aux (old new : string) (k : nat) (s : string) : string :=
  match s with
  | EmptyString => EmptyString
  | String c s' =>
      match k with
      | S k' => replace_aux old new k' s'
      | O =>
          if startswith old s
          then new ++ replace_aux old new (String.length old - 1) s'
          else String c (replace_aux old new O s')
      end
  end.

Definition replace (old new s : string) : string := replace_aux old new O s.

(** [c.isspace()] on the code points below 256: TAB, LF, VT, FF, CR, the
    four separators FS, GS, RS, US, the space, NEL and the no-break space. *)
Definition isspace (c : ascii) : bool :=
  let n := nat_of_ascii c in
  ((9 <=? n) && (n <=? 13) || (28 <=? n) && (n <=? 32)
   || (n =? 133) || (n =? 160))%nat.

Fixpoint lstrip (s : string) : string :=
  match s with
  | EmptyString => EmptyString
  | String c s' => if isspace c then lstrip s' else s
  end.

Fixpoint rstrip (s : string) : string :=
  match s with
  | EmptyString => EmptyString
  | String c s' =>
      match rstrip s' with
      | EmptyString => if isspace c then EmptyString else String c EmptyString
      | r => String c r
      end
  end.

(** [s.strip()]. *)
Definition strip (s : string) : string := rstrip (lstrip s).

(** [c.lower()] on the code points below 256: the ASCII capitals and the
    Latin-1 capitals (all of 192..222 but the multiplication sign 215) move
    up by 32. *)
Definition lower_char (c : ascii) : ascii :=
  let n := nat_of_ascii c in
  if ((65 <=? n) && (n <=? 90)
      || (192 <=? n) && (n <=? 222) && negb (n =? 215))%nat
  then ascii_of_nat (n + 32) else c.

Fixpoint lower (s : string) : string :=
  match s with
  | EmptyString => EmptyString
  | String c s' => String (lower_char c) (lower s')
  end.

(** [c.isalnum()] on the code points below 256. *)
Definition isalnum (c : ascii) : bool :=
  let n := nat_of_ascii c in
  ((48 <=? n) && (n <=? 57) || (65 <=? n) && (n <=? 90)
   || (97 <=? n) && (n <=? 122)
   || (n =? 170) || (n =? 178) || (n =? 179) || (n =? 181)
   || (n =? 185) || (n =? 186) || (188 <=? n) && (n <=? 190)
   || (192 <=? n) && (n <=? 255) && negb (n =? 215) && negb (n =? 247))%nat.

(** Truthiness of a string: [bool(s)]. *)
Definition truthy (s : string) : bool :=
  match s with EmptyString => false | _ => true end.

End PyStr.

Arguments PyStr.startswith : simpl never.

(** Truthiness of an optional string: neither [None] nor [""]. *)
Definition truthy_opt (o : option string) : bool :=
  match o with Some s => PyStr.truthy s | None => false end.

(** ** Configuration constants *)

Definition SEMANTIC_SCHOLAR_API_URL : string :=
  "https://api.semanticscholar.org/graph/v1/paper/search".
Definition PDF_DOWNLOAD_DIR : string := "downloaded_pdfs".
Definition OUTPUT_REPORT_NAME : string :=
  "AI_Generated_Research_Report_Reverted_Enhanced.docx".

(** ** Data model *)

(** An entry of [papers_to_process] or of [parsed_papers]: a dictionary
    with some of the keys [paperId], [title], [pdf_url] and [text]. *)
Record Item := {
  paperId : option string;
  title : option string;
  pdf_url : option string;
  text : option string
}.

(** An entry of [all_analyses]. *)
Record Analysis := {
  a_title : option string;
  a_pdf_url : option string;
  summary : option string;
  methodology : option string;
  key_findings : option string
}.

(** [ResearchState]: every key may be missing or [None]. *)
Record ResearchState := {
  topic : option string;
  paper_limit : option Z;
  papers_to_process : option (list Item);
  parsed_papers : option (list Item);
  all_analyses : option (list Analysis);
  topic_overview : option string;
  comparison_result : option string;
  report_path : option string;
  error : option string
}.

(** The dictionary a node returns: for each key, [None] when the key is not
    in the dictionary.  [report_path] and [error] can be present with the
    value [None]. *)
Record Update := {
  u_papers_to_process : option (list Item);
  u_parsed_papers : option (list Item);
  u_all_analyses : option (list Analysis);
  u_topic_overview : option string;
  u_comparison_result : option string;
  u_report_path : option (option string);
  u_error : option (option string)
}.

Definition no_update : Update :=
  {| u_papers_to_process := None; u_parsed_papers := None;
     u_all_analyses := None; u_topic_overview := None;
     u_comparison_result := None; u_report_path := None; u_error := None |}.

(** What the graph does with a node's dictionary: every returned key
    overwrites the state's. *)
Definition overwrite {A} (old : option A) (new : option (option A)) : option A :=
  match new with Some v => v | None => old end.

Definition apply_update (s : ResearchState) (u : Update) : ResearchState :=
  {| topic := topic s;
     paper_limit := paper_limit s;
     papers_to_process := overwrite (papers_to_process s) (Some <$> u_papers_to_process u);
     parsed_papers := overwrite (parsed_papers s) (Some <$> u_parsed_papers u);
     all_analyses := overwrite (all_analyses s) (Some <$> u_all_analyses u);
     topic_overview := overwrite (topic_overview s) (Some <$> u_topic_overview u);
     comparison_result := overwrite (comparison_result s) (Some <$> u_comparison_result u);
     report_path := overwrite (report_path s) (u_report_path u);
     error := overwrite (error s) (u_error u) |}.

(** The calls a node makes to the outside. *)
Inductive Event :=
| SemanticScholarQuery (query : string) (limit : Z)
| ArxivQuery (query : string) (max_results : Z)
| HttpGet (url : string)
| FileWrite (path : string)
| FileRemove (path : string)
| LlmRequest (prompt : string) (timeout : Z)
| DocSave (path : string).

(** [os.path.join(a, b)] on POSIX. *)
Definition path_join (a b : string) : string :=
  if PyStr.startswith "/" b then b
  else if negb (PyStr.truthy a) || PyStr.startswith "/" (String.rev a) then a ++ b
  else a ++ "/" ++ b.

(** ** Search agent *)

(** A record of the Semantic Scholar answer: [openAccessPdf] is the [url]
    under that key and [arxiv_ext] the [ArXiv] entry of [externalIds], each
    [None] when the outer or the inner key is missing. *)
Record S2Paper := {
  s2_paperId : option string;
  s2_title : option string;
  openAccessPdf : option string;
  arxiv_ext : option string
}.

(** A result of the arXiv client. *)
Record ArxivResult := {
  entry_id : string;
  ar_title : string;
  ar_pdf_url : option string
}.

(** The two providers.  [None] is a raised exception; an exception raised
    while the results are being read ends the reading as exhaustion does,
    the handler only logs it. *)
Record SearchEnv := {
  semantic_scholar : string -> Z -> option (list S2Paper);
  arxiv : string -> Z -> option (list ArxivResult)
}.

Definition mk_paper (id ttl url : string) : Item :=
  {| paperId := Some id; title := Some ttl; pdf_url := Some url; text := None |}.

(** The link of a Semantic Scholar candidate: the open-access link, else
    the link built from the arXiv identifier, else none. *)
Definition s2_pdf_url (paper : S2Paper) : option string :=
  if truthy_opt (openAccessPdf paper) then openAccessPdf paper
  else if truthy_opt (arxiv_ext paper)
       then Some ("https://arxiv.org/pdf/" ++ default "" (arxiv_ext paper) ++ ".pdf")
       else None.

(** [any(p.get('paperId') == paper_id for p in found if p.get('paperId'))] *)
Definition id_known (found : list Item) (paper_id : string) : bool :=
  existsb (fun p => truthy_opt (paperId p) && bool_decide (paperId p = Some paper_id)) found.

(** One turn of the loop over the Semantic Scholar data. *)
Definition s2_step (limit : Z) (found : list Item) (paper : S2Paper) : list Item :=
  let pdf := s2_pdf_url paper in
  if truthy_opt (s2_paperId paper) && truthy_opt (s2_title paper) && truthy_opt pdf
     && (Z.of_nat (length found) <? limit)
  then if negb (id_known found (default "" (s2_paperId paper)))
       then found ++ [mk_paper (default "" (s2_paperId paper))
                               (default "" (s2_title paper)) (default "" pdf)]
       else found
  else found.

(** The first 50 characters of the lower-cased title. *)
Definition title_key (t : string) : string :=
  PyStr.slice None (Some 50) (PyStr.lower t).

(** [any(p['title'].lower()[:50] == title.lower()[:50] for p in found)] *)
Definition is_duplicate (found : list Item) (ttl : string) : bool :=
  existsb (fun p => bool_decide (title_key (default "" (title p)) = title_key ttl)) found.

Definition arxiv_paper (result : ArxivResult) : Item :=
  let arxiv_id := PyStr.last (PyStr.split "/" (entry_id result)) in
  mk_paper ("arXiv:" ++ arxiv_id) (ar_title result) (default "" (ar_pdf_url result)).

(** The body of the loop over the arXiv results, after the [break] test. *)
Definition arxiv_step (found : list Item) (result : ArxivResult) : list Item :=
  if truthy_opt (ar_pdf_url result) && negb (is_duplicate found (ar_title result))
  then found ++ [arxiv_paper result]
  else found.

(** The loop over the arXiv results; it breaks once [limit] is reached. *)
Fixpoint arxiv_collect (limit : Z) (results : list ArxivResult) (found : list Item)
  : list Item :=
  match results with
  | [] => found
  | result :: rest =>
      if limit <=? Z.of_nat (length found) then found
      else arxiv_collect limit rest (arxiv_step found result)
  end.

Section Nodes.

(** The two keys are left open: the source ships them empty and asks the
    operator to fill them in. *)
Variable GEMINI_API_KEY : string.
Variable SEMANTIC_SCHOLAR_API_KEY : string.

(** Part 1 of the search: the Semantic Scholar query. *)
Definition semantic_scholar_phase (env : SearchEnv) (tpc : string) (limit : Z)
  : list Item * list Event :=
  if String.eqb SEMANTIC_SCHOLAR_API_KEY "YOUR_SEMANTIC_SCHOLAR_API_KEY"
  then ([], [])
  else
    match semantic_scholar env tpc (limit * 2) with
    | Some data => (fold_left (s2_step limit) data [], [SemanticScholarQuery tpc (limit * 2)])
    | None => ([], [SemanticScholarQuery tpc (limit * 2)])
    end.

(** Part 2 of the search: the arXiv query, made when the target is not
    reached. *)
Definition arxiv_phase (env : SearchEnv) (tpc : string) (limit : Z) (found : list Item)
  : list Item * list Event :=
  if Z.of_nat (length found) <? limit
  then
    let needed := limit - Z.of_nat (length found) in
    match arxiv env tpc (needed * 2) with
    | Some results => (arxiv_collect limit results found, [ArxivQuery tpc (needed * 2)])
    | None => (found, [ArxivQuery tpc (needed * 2)])
    end
  else (found, []).

Definition search_academic_papers_node (env : SearchEnv) (state : ResearchState)
  : Update * list Event :=
  let limit := default 3 (paper_limit state) in
  if negb (truthy_opt (topic state))
  then ({| u_papers_to_process := Some []; u_parsed_papers := None;
           u_all_analyses := None; u_topic_overview := None;
           u_comparison_result := None; u_report_path := None;
           u_error := Some (Some "Topic missing") |}, [])
  else
    let tpc := default "" (topic state) in
    let '(found1, ev1) := semantic_scholar_phase env tpc limit in
    let '(found2, ev2) := arxiv_phase env tpc limit found1 in
    match found2 with
    | [] => ({| u_papers_to_process := Some []; u_parsed_papers := None;
                u_all_analyses := None; u_topic_overview := None;
                u_comparison_result := None; u_report_path := None;
                u_error := Some (Some "No papers with PDF links found") |},
             (ev1 ++ ev2)%list)
    | _ => ({| u_papers_to_process := Some found2; u_parsed_papers := None;
               u_all_analyses := None; u_topic_overview := None;
               u_comparison_result := None; u_report_path := None;
               u_error := Some None |},
            (ev1 ++ ev2)%list)
    end.

(** ** Download and parse agent *)

(** What happens to one paper between the download and the end of the
    parsing: the exception that sends control to the handler, or the text
    that [extract_text] returns for each page. *)
Inductive ItemOutcome :=
| GetRaises      (* requests.get or raise_for_status raised *)
| OpenRaises     (* open(pdf_filepath, 'wb') raised: no file was created *)
| WriteRaises    (* iter_content or f.write raised: the file exists *)
| PdfRaises      (* pdfplumber.open or extract_text raised: the file exists *)
| Pages (texts : list (option string)).

(** The outcomes for the paper at each position of [papers_to_process],
    and whether [os.remove] raises [OSError] while that paper is handled. *)
Record DownloadEnv := {
  item_outcome : nat -> ItemOutcome;
  remove_raises : nat -> bool
}.

(** The variables of the loop, with the files on disk and the calls made. *)
Record LoopState := {
  parsed : list Item;
  failed_count : Z;
  files : gset string;
  trace : list Event
}.

Definition count_failure (st : LoopState) : LoopState :=
  {| parsed := parsed st; failed_count := failed_count st + 1;
     files := files st; trace := trace st |}.

Definition append_parsed (p : Item) (st : LoopState) : LoopState :=
  {| parsed := parsed st ++ [p]; failed_count := failed_count st;
     files := files st; trace := trace st |}.

Definition log (evs : list Event) (st : LoopState) : LoopState :=
  {| parsed := parsed st; failed_count := failed_count st;
     files := files st; trace := trace st ++ evs |}.

(** [open(path, 'wb')]: the file exists from then on. *)
Definition create_file (path : string) (st : LoopState) : LoopState :=
  {| parsed := parsed st; failed_count := failed_count st;
     files := {[path]} ∪ files st; trace := trace st ++ [FileWrite path] |}.

(** [os.remove(path)] inside [try ... except OSError]: the file is gone
    unless the call raises. *)
Definition remove_file (env : DownloadEnv) (i : nat) (path : string) (st : LoopState)
  : LoopState :=
  {| parsed := parsed st; failed_count := failed_count st;
     files := if remove_raises env i then files st else files st ∖ {[path]};
     trace := trace st ++ [FileRemove path] |}.

(** ["".join(c if c.isalnum() else "_" for c in s)] *)
Fixpoint safe_chars (s : string) : string :=
  match s with
  | EmptyString => EmptyString
  | String c s' => String (if PyStr.isalnum c then c else "_"%char) (safe_chars s')
  end.

Definition paper_id_of (paper : Item) : string := default "unknown_id" (paperId paper).
Definition title_of (paper : Item) : string := default "Unknown Title" (title paper).

Definition pdf_filepath (paper : Item) : string :=
  let safe_title := safe_chars (PyStr.slice None (Some 50) (title_of paper)) in
  let pdf_filename :=
    safe_title ++ "_"
    ++ PyStr.replace ":" "_" (PyStr.slice None (Some 8) (paper_id_of paper)) ++ ".pdf" in
  path_join PDF_DOWNLOAD_DIR pdf_filename.

(** The text of a document: the non-empty page texts, each followed by a
    newline. *)
Fixpoint full_text (texts : list (option string)) : string :=
  match texts with
  | [] => EmptyString
  | page_text :: rest =>
      (if truthy_opt page_text then default "" page_text ++ String "010"%char EmptyString
       else EmptyString) ++ full_text rest
  end.

(** The handler [except Exception]: count the failure and remove the file
    if it is there. *)
Definition on_exception (env : DownloadEnv) (i : nat) (path : string) (st : LoopState)
  : LoopState :=
  let st' := count_failure st in
  if bool_decide (path ∈ files st') then remove_file env i path st' else st'.

(** The body of the loop for the paper at position [i]. *)
Definition process_paper (env : DownloadEnv) (i : nat) (paper : Item) (st : LoopState)
  : LoopState :=
  let paper_id := paper_id_of paper in
  let path := pdf_filepath paper in
  if negb (truthy_opt (pdf_url paper)) then count_failure st
  else
    let st1 := log [HttpGet (default "" (pdf_url paper))] st in
    match item_outcome env i with
    | GetRaises => on_exception env i path st1
    | OpenRaises => on_exception env i path st1
    | WriteRaises => on_exception env i path (create_file path st1)
    | PdfRaises => on_exception env i path (create_file path st1)
    | Pages texts =>
        let st2 := create_file path st1 in
        let paper_text := full_text texts in
        let st3 :=
          if PyStr.truthy paper_text
          then append_parsed {| paperId := Some paper_id; title := Some (title_of paper);
                                pdf_url := None; text := Some paper_text |} st2
          else count_failure st2 in
        remove_file env i path st3
    end.

(** [for paper in papers_to_process], the first paper being at position [i]. *)
Fixpoint download_loop (env : DownloadEnv) (i : nat) (papers : list Item) (st : LoopState)
  : LoopState :=
  match papers with
  | [] => st
  | paper :: rest => download_loop env (S i) rest (process_paper env i paper st)
  end.

Definition list_truthy {A} (o : option (list A)) : bool :=
  match o with Some (_ :: _) => true | _ => false end.

Definition parsed_update (l : list Item) (e : option string) : Update :=
  {| u_papers_to_process := None; u_parsed_papers := Some l;
     u_all_analyses := None; u_topic_overview := None;
     u_comparison_result := None; u_report_path := None; u_error := Some e |}.

(** The node, once [os.makedirs] has returned; [disk] holds the files
    present when it starts.  The call in which [os.makedirs] raises is
    [download_and_parse_pdfs_node_call] below. *)
Definition download_and_parse_pdfs_node (env : DownloadEnv) (disk : gset string)
    (state : ResearchState) : Update * LoopState :=
  let papers := default [] (papers_to_process state) in
  let final_error := error state in
  let st0 := {| parsed := []; failed_count := 0; files := disk; trace := [] |} in
  if negb (list_truthy (papers_to_process state))
  then
    if truthy_opt final_error then (parsed_update [] final_error, st0)
    else (parsed_update [] (Some "Search Agent found no processable papers."), st0)
  else
    let st := download_loop env 0 papers st0 in
    let final_error :=
      if (length (parsed st) =? 0)%nat && (0 <? length papers)%nat
         && negb (truthy_opt final_error)
      then Some "Failed to download or parse any valid PDFs."
      else final_error in
    (parsed_update (parsed st) final_error, st).

(** ** Summarizer agent *)

(** The double quote, as a string. *)
Definition dq : string := String (ascii_of_nat 34) EmptyString.

(** The newline, as a string. *)
Definition nl : string := String (ascii_of_nat 10) EmptyString.

(** What [model.generate_content] does: a response with parts, whose
    [text] is given; a response without parts but with [prompt_feedback],
    whose [block_reason] is given; a response with neither; an exception,
    with its message. *)
Inductive LlmResponse :=
| Parts (response_text : string)
| Blocked (block_reason : string)
| Empty
| LlmRaises (msg : string).

(** [sum_configure] is [Some e] when [genai.configure] or the construction
    of the model raises [e]; [sum_response i] answers the request for the
    paper at position [i]. *)
Record SummarizeEnv := {
  sum_configure : option string;
  sum_response : nat -> LlmResponse
}.

Definition summarize_prompt (paper_text : string) : string :=
  "Analyze the research paper text provided below. Extract the following information and present it clearly under the specified headings.

**Summary:**
Provide a concise summary (3-5 sentences) covering the paper's main objectives, methods, and key conclusions.

**Methodology:**
Briefly describe the core methodology, algorithms, or experimental approach used.

**Key Findings:**
List the 2-3 most significant findings, results, or outcomes reported in the paper.

--- START OF PAPER TEXT ---
"
  +:+ PyStr.slice None (Some 40000) paper_text
  +:+ "
--- END OF PAPER TEXT ---

Provide the output clearly structured under the headings "
  +:+ dq
  +:+ "Summary:"
  +:+ dq
  +:+ ", "
  +:+ dq
  +:+ "Methodology:"
  +:+ dq
  +:+ ", and "
  +:+ dq
  +:+ "Key Findings:"
  +:+ dq
  +:+ ". Ensure each section is clearly separated. Do NOT use markdown formatting like asterisks for bolding in your response text.
".

(** The three fields cut out of the generated text. *)
Definition parse_summary (generated_text : string) : string :=
  PyStr.strip (PyStr.replace "Summary:" ""
                 (PyStr.first (PyStr.split "Methodology:" generated_text))).

Definition parse_methodology (generated_text : string) : string :=
  PyStr.strip (PyStr.last (PyStr.split "Methodology:"
                 (PyStr.first (PyStr.split "Key Findings:" generated_text)))).

Definition parse_key_findings (generated_text : string) : string :=
  PyStr.strip (PyStr.last (PyStr.split "Key Findings:" generated_text)).

Definition analysis_of (paper : Item) (generated_text : string) : Analysis :=
  {| a_title := Some (default "N/A" (title paper));
     a_pdf_url := Some (default "N/A" (pdf_url paper));
     summary := Some (parse_summary generated_text);
     methodology := Some (parse_methodology generated_text);
     key_findings := Some (parse_key_findings generated_text) |}.

(** The variables of the summarizing loop and the requests sent. *)
Record SumState := {
  analyses : list Analysis;
  summarization_failures : Z;
  requests : list Event
}.

(** The body of the loop for the paper at position [i]. *)
Definition summarize_paper (env : SummarizeEnv) (i : nat) (paper : Item) (st : SumState)
  : SumState :=
  let paper_text := default "" (text paper) in
  if negb (PyStr.truthy paper_text)
  then {| analyses := analyses st;
          summarization_failures := summarization_failures st + 1;
          requests := requests st |}
  else
    let sent := (requests st ++ [LlmRequest (summarize_prompt paper_text) 180])%list in
    match sum_response env i with
    | Parts generated_text =>
        {| analyses := analyses st ++ [analysis_of paper generated_text];
           summarization_failures := summarization_failures st;
           requests := sent |}
    | Blocked _ | Empty | LlmRaises _ =>
        {| analyses := analyses st;
           summarization_failures := summarization_failures st + 1;
           requests := sent |}
    end.

Fixpoint summarize_loop (env : SummarizeEnv) (i : nat) (papers : list Item) (st : SumState)
  : SumState :=
  match papers with
  | [] => st
  | paper :: rest => summarize_loop env (S i) rest (summarize_paper env i paper st)
  end.

Definition error_update (e : string) : Update :=
  {| u_papers_to_process := None; u_parsed_papers := None;
     u_all_analyses := None; u_topic_overview := None;
     u_comparison_result := None; u_report_path := None; u_error := Some (Some e) |}.

Definition analyses_update (l : list Analysis) (e : option string) : Update :=
  {| u_papers_to_process := None; u_parsed_papers := None;
     u_all_analyses := Some l; u_topic_overview := None;
     u_comparison_result := None; u_report_path := None; u_error := Some e |}.

Definition summarize_papers_node (env : SummarizeEnv) (state : ResearchState)
  : Update * list Event :=
  let papers := default [] (parsed_papers state) in
  let final_error := error state in
  if negb (list_truthy (parsed_papers state))
  then
    if truthy_opt final_error then (analyses_update [] final_error, [])
    else (analyses_update [] (Some "Parsing step yielded no text."), [])
  else if String.eqb GEMINI_API_KEY "YOUR_GEMINI_API_KEY"
  then (error_update "Gemini API Key missing", [])
  else
    match sum_configure env with
    | Some e => (error_update ("Gemini configuration failed: " ++ e), [])
    | None =>
        let st := summarize_loop env 0 papers
                    {| analyses := []; summarization_failures := 0; requests := [] |} in
        let final_error :=
          if (length (analyses st) =? 0)%nat && (0 <? length papers)%nat
             && negb (truthy_opt final_error)
          then Some "Summarization failed for all parsed papers."
          else final_error in
        (analyses_update (analyses st) final_error, requests st)
    end.

(** ** Comparator agent *)

Record CompareEnv := {
  cmp_configure : option string;
  cmp_response : LlmResponse
}.

(** The text listing every analysis; [i] is the position of the first one. *)
Fixpoint analysis_lines (i : nat) (l : list Analysis) : string :=
  match l with
  | [] => EmptyString
  | analysis :: rest =>
      "--- Paper " ++ pretty (i + 1)%nat ++ " (" ++ default "N/A" (a_title analysis)
      ++ ") ---" ++ nl
      ++ "Summary: " ++ default "N/A" (summary analysis) ++ nl
      ++ "Methodology: " ++ default "N/A" (methodology analysis) ++ nl
      ++ "Key Findings: " ++ default "N/A" (key_findings analysis) ++ nl ++ nl
      ++ analysis_lines (S i) rest
  end.

Definition analysis_input_of (l : list Analysis) : string :=
  "Analysis details from the retrieved papers:" ++ nl ++ nl ++ analysis_lines 0 l.

Definition compare_prompt (analysis_input tpc : string) : string :=
  "Based *only* on the provided analysis details from the retrieved papers below, generate two distinct sections: "
  +:+ dq
  +:+ "Topic Overview"
  +:+ dq
  +:+ " and "
  +:+ dq
  +:+ "Detailed Comparative Analysis"
  +:+ dq
  +:+ ".

"
  +:+ analysis_input
  +:+ "
--- Analysis Tasks ---

**1. Topic Overview:**
Synthesize insights from ALL provided papers to give a high-level overview of the research topic '"
  +:+ tpc
  +:+ "'. Use bullet points for lists where appropriate (e.g., for methods, findings, future work). Address:
    * Current State/Focus: General status or recent focus.
    * Methods Used: Common techniques, algorithms, frameworks.
    * Performance/Accuracy: Key quantitative results or KPIs mentioned.
    * Accomplishments/Key Findings: Significant findings highlighted collectively.
    * Future Work/Directions: Common limitations or future research suggestions.

**2. Detailed Comparative Analysis:** (Only generate meaningful content here if more than one paper was provided)
Provide a point-by-point comparison *between* the papers (if more than one). Use bullet points within each comparison category where appropriate. Analyze and highlight:
    * Core Objective & Scope: Compare goals and focus.
    * Methodology & Approach: Compare specific methods, novelty, complexity, tools.
    * Key Findings & Performance: Compare quantitative results and qualitative findings.
    * Advancements & Relation to State-of-the-Art: Compare novelty or improvements.
    * Limitations & Future Work: Compare stated limitations or future directions.
    * Overall Contribution & Theme: Compare their main contributions.

Structure your entire response clearly with the exact headings "
  +:+ dq
  +:+ "Topic Overview:"
  +:+ dq
  +:+ " followed by its content, and then "
  +:+ dq
  +:+ "Detailed Comparative Analysis:"
  +:+ dq
  +:+ " followed by its content. Do NOT use markdown formatting like asterisks for bolding within the generated text content itself. Ensure lists naturally use bullet points or numbered formats.
".

Definition overview_marker : string := "Topic Overview:".
Definition comparison_marker : string := "Detailed Comparative Analysis:".
Definition comparison_skipped : string :=
  "Comparison skipped: Only one paper was successfully analyzed.".

(** The two sections cut out of the generated text; [n] is the number of
    analyses and [comparison_result] the value the variable has before. *)
Definition parse_sections (n : nat) (comparison_result generated_text : string)
  : string * string :=
  let overview_start_index := PyStr.find overview_marker generated_text in
  let comparison_start_index := PyStr.find comparison_marker generated_text in
  let '(topic_overview_result, comparison_result) :=
    if negb (overview_start_index =? -1) && negb (comparison_start_index =? -1)
    then
      (PyStr.strip (PyStr.slice (Some (overview_start_index + PyStr.len overview_marker))
                      (Some comparison_start_index) generated_text),
       PyStr.strip (PyStr.slice (Some (comparison_start_index + PyStr.len comparison_marker))
                      None generated_text))
    else if negb (overview_start_index =? -1)
    then
      (PyStr.strip (PyStr.slice (Some (overview_start_index + PyStr.len overview_marker))
                      None generated_text),
       if (1 <? n)%nat then "Could not parse detailed comparison section."
       else comparison_result)
    else (generated_text, "Parsing failed.") in
  (topic_overview_result, if (n =? 1)%nat then comparison_skipped else comparison_result).

Definition sections_update (overview comparison : string) (e : option string) : Update :=
  {| u_papers_to_process := None; u_parsed_papers := None;
     u_all_analyses := None; u_topic_overview := Some overview;
     u_comparison_result := Some comparison; u_report_path := None; u_error := Some e |}.

Definition compare_analyses_node (env : CompareEnv) (state : ResearchState)
  : Update * list Event :=
  let l := default [] (all_analyses state) in
  let tpc := default "the research field" (topic state) in
  let final_error := error state in
  if negb (list_truthy (all_analyses state))
  then
    if truthy_opt final_error then (sections_update "" "" final_error, [])
    else (sections_update "N/A - No papers analyzed." "N/A - No papers analyzed."
            (Some "No summaries available"), [])
  else
    let comparison_result :=
      if (length l =? 1)%nat then comparison_skipped
      else "Detailed comparison could not be generated." in
    if String.eqb GEMINI_API_KEY "YOUR_GEMINI_API_KEY"
    then (error_update "Gemini API Key missing", [])
    else
      let failed (e : string) :=
        "Comparison/Overview generation failed due to error: " ++ e in
      match cmp_configure env with
      | Some e => (sections_update (failed e) (failed e) final_error, [])
      | None =>
          let sent := [LlmRequest (compare_prompt (analysis_input_of l) tpc) 300] in
          match cmp_response env with
          | Parts generated_text =>
              let '(overview, comparison) :=
                parse_sections (length l) comparison_result generated_text in
              (sections_update overview comparison final_error, sent)
          | Blocked reason =>
              let error_msg := "Gemini request blocked (" ++ reason ++ ")" in
              (sections_update error_msg error_msg final_error, sent)
          | Empty =>
              (sections_update "Overview failed: Empty response"
                 "Comparison failed: Empty response" final_error, sent)
          | LlmRaises e => (sections_update (failed e) (failed e) final_error, sent)
          end
      end.

(** ** Report generator agent *)

(** What the document library does between [Document()] and the end of
    [document.save]: an exception before the save (with its message), an
    exception in the save, or a saved file.  The content of the document
    is not modelled. *)
Inductive DocxOutcome :=
| BuildRaises (msg : string)
| SaveRaises (msg : string)
| Saved.

(** [getcwd] is what [os.getcwd()] returns. *)
Record ReportEnv := {
  getcwd : string;
  docx_outcome : DocxOutcome
}.

Definition report_update (path e : option string) : Update :=
  {| u_papers_to_process := None; u_parsed_papers := None;
     u_all_analyses := None; u_topic_overview := None;
     u_comparison_result := None; u_report_path := Some path; u_error := Some e |}.

(** [final_error or msg] *)
Definition or_else (final_error : option string) (msg : string) : option string :=
  if truthy_opt final_error then final_error else Some msg.

Definition generate_report_node (env : ReportEnv) (state : ResearchState)
  : Update * list Event :=
  let final_error := error state in
  if negb (list_truthy (all_analyses state)) && negb (truthy_opt final_error)
  then (report_update None (Some "Cannot generate report without successful summaries"), [])
  else if negb (list_truthy (all_analyses state)) && truthy_opt final_error
  then (report_update None final_error, [])
  else
    let path := path_join (getcwd env) OUTPUT_REPORT_NAME in
    match docx_outcome env with
    | BuildRaises e =>
        (report_update None (or_else final_error ("Report generation failed: " ++ e)), [])
    | SaveRaises e =>
        (report_update None (or_else final_error ("Report generation failed: " ++ e)),
         [DocSave path])
    | Saved => (report_update (Some path) final_error, [DocSave path])
    end.

(** ** The graph *)

(** Everything outside the program that one run meets. *)
Record World := {
  search_env : SearchEnv;
  download_env : DownloadEnv;
  disk : gset string;
  summarize_env : SummarizeEnv;
  compare_env : CompareEnv;
  report_env : ReportEnv
}.

(** [inputs = {"topic": topic, "paper_limit": paper_limit}] *)
Definition inputs (tpc : string) (limit : Z) : ResearchState :=
  {| topic := Some tpc; paper_limit := Some limit;
     papers_to_process := None; parsed_papers := None; all_analyses := None;
     topic_overview := None; comparison_result := None;
     report_path := None; error := None |}.

(** The state after each node of one run, with the calls made and the
    files left on disk. *)
Record Run := {
  after_search : ResearchState;
  after_download : ResearchState;
  after_summarize : ResearchState;
  after_compare : ResearchState;
  after_report : ResearchState;
  calls : list Event;
  files_left : gset string
}.

(** The edges of the workflow: search_papers, download_parse,
    summarize_papers, compare_analyses, generate_report, in this order.
    This is the run in which every node returns; [app_invoke] below is
    the call of the graph, which raises when a node does. *)
Definition invoke (w : World) (s0 : ResearchState) : Run :=
  let '(u1, ev1) := search_academic_papers_node (search_env w) s0 in
  let s1 := apply_update s0 u1 in
  let '(u2, st2) := download_and_parse_pdfs_node (download_env w) (disk w) s1 in
  let s2 := apply_update s1 u2 in
  let '(u3, ev3) := summarize_papers_node (summarize_env w) s2 in
  let s3 := apply_update s2 u3 in
  let '(u4, ev4) := compare_analyses_node (compare_env w) s3 in
  let s4 := apply_update s3 u4 in
  let '(u5, ev5) := generate_report_node (report_env w) s4 in
  let s5 := apply_update s4 u5 in
  {| after_search := s1; after_download := s2; after_summarize := s3;
     after_compare := s4; after_report := s5;
     calls := (ev1 ++ trace st2 ++ ev3 ++ ev4 ++ ev5)%list;
     files_left := files st2 |}.

End Nodes.

(** ** Download and parse agent: what each paper contributes *)

Definition parsed_item (paper : Item) (paper_text : string) : Item :=
  {| paperId := Some (paper_id_of paper); title := Some (title_of paper);
     pdf_url := None; text := Some paper_text |}.

(** What the paper at position [i] adds to [parsed_papers]: itself with its
    text when it has a link and the pages give a non-empty text, nothing
    otherwise. *)
Definition extracted (env : DownloadEnv) (i : nat) (paper : Item) : list Item :=
  if truthy_opt (pdf_url paper)
  then match item_outcome env i with
       | Pages texts =>
           if PyStr.truthy (full_text texts) then [parsed_item paper (full_text texts)]
           else []
       | _ => []
       end
  else [].

Fixpoint extracted_from (env : DownloadEnv) (i : nat) (papers : list Item) : list Item :=
  match papers with
  | [] => []
  | paper :: rest => extracted env i paper ++ extracted_from env (S i) rest
  end.

(** The number of papers, from position [i] on, that add nothing. *)
Fixpoint failures_from (env : DownloadEnv) (i : nat) (papers : list Item) : Z :=
  match papers with
  | [] => 0
  | paper :: rest =>
      (match extracted env i paper with [] => 1 | _ => 0 end)
      + failures_from env (S i) rest
  end.

(** ** Vocabulary of the statements *)

(** [sep] occurs in [s] at position [i] and nowhere else. *)
Definition occurs_only_at (sep s : string) (i : nat) : Prop :=
  forall k, PyStr.startswith sep (PyStr.drop k s) = true <-> k = i.

Definition no_papers_placeholder : string := "N/A - No papers analyzed.".

(** A state as the comparator meets it: a topic, the analyses, an error. *)
Definition state_of_analyses (tpc : string) (l : list Analysis) (e : option string)
  : ResearchState :=
  {| topic := Some tpc; paper_limit := Some 3;
     papers_to_process := None; parsed_papers := None; all_analyses := Some l;
     topic_overview := None; comparison_result := None;
     report_path := None; error := e |}.

Definition sample_analysis (t : string) : Analysis :=
  {| a_title := Some t; a_pdf_url := Some "N/A"; summary := Some "s";
     methodology := Some "m"; key_findings := Some "k" |}.

Definition answering (r : LlmResponse) : CompareEnv :=
  {| cmp_configure := None; cmp_response := r |}.


(** Sample inputs of the download and parse agent. *)
Definition empty_loop_state : LoopState :=
  {| parsed := []; failed_count := 0; files := ∅; trace := [] |}.

Definition state_of_papers (l : list Item) (e : option string) : ResearchState :=
  {| topic := Some "t"; paper_limit := Some 3;
     papers_to_process := Some l; parsed_papers := None; all_analyses := None;
     topic_overview := None; comparison_result := None;
     report_path := None; error := e |}.

(** Every paper parses to one page of text; [os.remove] raises or not. *)
Definition all_parse (raises : bool) : DownloadEnv :=
  {| item_outcome := fun _ => Pages [Some "text"]; remove_raises := fun _ => raises |}.

(** The download of the second paper fails, the others parse. *)
Definition second_fails : DownloadEnv :=
  {| item_outcome := fun i => match i with 1%nat => GetRaises | _ => Pages [Some "text"] end;
     remove_raises := fun _ => false |}.

(** A process whose working directory is [cwd] and whose document is saved. *)
Definition saving_in (cwd : string) : ReportEnv :=
  {| getcwd := cwd; docx_outcome := Saved |}.

(** Two titles have the same 50-character prefix once lower-cased. *)
Definition same_title_prefix (t1 t2 : string) : Prop :=
  PyStr.take 50 (PyStr.lower t1) = PyStr.take 50 (PyStr.lower t2).

(** Sample inputs of the search agent: two linked papers from Semantic
    Scholar, and an arXiv answer whose first result repeats a title. *)
Definition s2_sample (id ttl : string) : S2Paper :=
  {| s2_paperId := Some id; s2_title := Some ttl;
     openAccessPdf := Some ("https://x/" ++ id); arxiv_ext := None |}.

Definition two_then_arxiv : SearchEnv :=
  {| semantic_scholar := fun _ _ => Some [s2_sample "a" "Graph Agents"; s2_sample "b" "Tool Use"];
     arxiv := fun _ _ =>
       Some [ {| entry_id := "http://arxiv.org/abs/1"; ar_title := "GRAPH AGENTS";
                 ar_pdf_url := Some "https://arxiv.org/pdf/1" |};
              {| entry_id := "http://arxiv.org/abs/2"; ar_title := "Planning";
                 ar_pdf_url := Some "https://arxiv.org/pdf/2" |} ] |}.

(** A world in which the search finds papers and every download fails. *)
Definition downloads_fail : World :=
  {| search_env := two_then_arxiv;
     download_env := {| item_outcome := fun _ => GetRaises; remove_raises := fun _ => false |};
     disk := ∅;
     summarize_env := {| sum_configure := None; sum_response := fun _ => Empty |};
     compare_env := answering Empty;
     report_env := saving_in "/app" |}.

(** The paper carries an identifier under [paperId]. *)
Definition has_id (p : Item) : Prop := paperId p = Some (paper_id_of p).

(** ** Vocabulary of the further statements *)

(** The paper has an identifier and a link that are not empty, and a title. *)
Definition linked (p : Item) : Prop :=
  truthy_opt (paperId p) = true /\ is_Some (title p) /\ truthy_opt (pdf_url p) = true.

(** A search in which Semantic Scholar raises and arXiv answers. *)
Definition primary_down : SearchEnv :=
  {| semantic_scholar := fun _ _ => None;
     arxiv := arxiv two_then_arxiv |}.

(** The character [c] occurs in [s]. *)
Definition has_char (c : ascii) (s : string) : Prop := In c (list_ascii_of_string s).

(** The links that a trace downloads from, in order. *)
Definition http_gets (evs : list Event) : list string :=
  omap (fun e => match e with HttpGet url => Some url | _ => None end) evs.

(** The prompts that a trace sends to the language model, in order. *)
Definition llm_prompts (evs : list Event) : list string :=
  omap (fun e => match e with LlmRequest prompt _ => Some prompt | _ => None end) evs.

(** What the paper at position [i] adds to [all_analyses]: its analysis
    when it has a text and the response has parts, nothing otherwise. *)
Definition analysed (env : SummarizeEnv) (i : nat) (paper : Item) : list Analysis :=
  if PyStr.truthy (default "" (text paper))
  then match sum_response env i with
       | Parts generated_text => [analysis_of paper generated_text]
       | _ => []
       end
  else [].

Fixpoint analysed_from (env : SummarizeEnv) (i : nat) (papers : list Item)
  : list Analysis :=
  match papers with
  | [] => []
  | paper :: rest => analysed env i paper ++ analysed_from env (S i) rest
  end.

(** The request made for a paper: one when it has a text. *)
Definition request_for (paper : Item) : list Event :=
  if PyStr.truthy (default "" (text paper))
  then [LlmRequest (summarize_prompt (default "" (text paper))) 180]
  else [].

(** A summarizer whose model answers every request with the same text. *)
Definition always_answers (generated_text : string) : SummarizeEnv :=
  {| sum_configure := None; sum_response := fun _ => Parts generated_text |}.

Definition state_of_parsed (l : list Item) (e : option string) : ResearchState :=
  {| topic := Some "t"; paper_limit := Some 3;
     papers_to_process := None; parsed_papers := Some l; all_analyses := None;
     topic_overview := None; comparison_result := None;
     report_path := None; error := e |}.

(** [sep] does not occur in [s]. *)
Definition absent (sep s : string) : Prop :=
  forall k, PyStr.startswith sep (PyStr.drop k s) = false.

(** The first occurrence of [sep] in [s] is at position [i]. *)
Definition first_at (sep s : string) (i : nat) : Prop :=
  PyStr.startswith sep (PyStr.drop i s) = true
  /\ forall k, (k < i)%nat -> PyStr.startswith sep (PyStr.drop k s) = false.

(** A world in which everything works: two papers from Semantic Scholar
    and one from arXiv, each parsed, analysed and compared. *)
Definition all_works : World :=
  {| search_env := two_then_arxiv;
     download_env := all_parse false;
     disk := ∅;
     summarize_env := always_answers "Summary: A. Methodology: B. Key Findings: C.";
     compare_env := answering (Parts "Topic Overview: X Detailed Comparative Analysis: Y");
     report_env := saving_in "/app" |}.

(** ** Paragraphs of the report *)

(** A paragraph added to the document: its text and the style it is added
    with, [None] when [add_paragraph] is given no style. *)
Record Paragraph := {
  p_text : string;
  p_style : option string
}.

(** [\d] on the code points below 256. *)
Definition isdigit (c : ascii) : bool :=
  let n := nat_of_ascii c in ((48 <=? n) && (n <=? 57))%nat.

(** The number of digits that [s] starts with. *)
Fixpoint leading_digits (s : string) : nat :=
  match s with
  | EmptyString => O
  | String c s' => if isdigit c then S (leading_digits s') else O
  end.

(** [re.match(r'^(\*|-|\d+\.\s)', s)]: the length of what is matched, or
    [None].  The digits are matched greedily; giving some back cannot
    help, since a digit would then stand where the dot must. *)
Definition list_marker (s : string) : option nat :=
  match s with
  | EmptyString => None
  | String c _ =>
      if Ascii.eqb c "*" || Ascii.eqb c "-" then Some 1%nat
      else
        let n := leading_digits s in
        if (0 <? n)%nat
        then match PyStr.drop n s with
             | String d (String e _) =>
                 if Ascii.eqb d "." && PyStr.isspace e then Some (n + 2)%nat else None
             | _ => None
             end
        else None
  end.

(** [re.sub(r'^(\*|-|\d+\.\s)\s*', '', s)]: the marker and the white space
    after it are removed, at the start only. *)
Definition remove_marker (s : string) : string :=
  match list_marker s with
  | Some m => PyStr.lstrip (PyStr.drop m s)
  | None => s
  end.

(** The body of the loop over the lines. *)
Definition add_line (style : string) (line : string) : list Paragraph :=
  let stripped_line := PyStr.strip line in
  match list_marker stripped_line with
  | Some _ => [ {| p_text := remove_marker stripped_line; p_style := Some style |} ]
  | None =>
      if PyStr.truthy stripped_line
      then [ {| p_text := stripped_line; p_style := Some "Normal" |} ]
      else []
  end.

(** [add_text_with_bullets(document, text_block, style)]: the paragraphs
    it adds to the document. *)
Definition add_text_with_bullets (text_block : option string) (style : string)
  : list Paragraph :=
  if negb (truthy_opt text_block)
  then [ {| p_text := "N/A"; p_style := None |} ]
  else flat_map (add_line style) (PyStr.split nl (PyStr.strip (default "" text_block))).

(** A text of decimal digits only. *)
Fixpoint digits_only (s : string) : bool :=
  match s with
  | EmptyString => true
  | String c s' => isdigit c && digits_only s'
  end.

(** ** The API server *)

(** An entry of [task_results]. *)
Record TaskResult := {
  status : string;
  tr_report_path : option string;
  error_message : option string
}.

(** What [langgraph_app.invoke] does: it raises an exception of some type
    with some message, or returns the final state ([None] for a return
    value that is [None] or empty). *)
Inductive AppOutcome :=
| AppRaises (type_name msg : string)
| AppReturns (final_state : option ResearchState).

(** [run_research_workflow(task_id, topic, paper_limit)]: what it makes of
    [task_results].  [langgraph_app] is [None] when the import of the graph
    failed; [path_exists] is [os.path.exists]. *)
Definition run_research_workflow (langgraph_app : option (ResearchState -> AppOutcome))
    (path_exists : string -> bool) (task_id tpc : string) (limit : Z)
    (task_results : gmap string TaskResult) : gmap string TaskResult :=
  match langgraph_app with
  | None =>
      <[task_id := {| status := "error"; tr_report_path := None;
                      error_message := Some "LangGraph app not loaded." |}]> task_results
  | Some app =>
      let task_results :=
        <[task_id := {| status := "running"; tr_report_path := None;
                        error_message := None |}]> task_results in
      match app (inputs tpc limit) with
      | AppReturns (Some final_state) =>
          let path := report_path final_state in
          let error_state := error final_state in
          if truthy_opt path && path_exists (default "" path)
          then <[task_id := {| status := "completed"; tr_report_path := path;
                               error_message := error_state |}]> task_results
          else
            <[task_id := {| status := "error"; tr_report_path := None;
                            error_message :=
                              or_else error_state
                                "Workflow finished but report path missing or invalid." |}]>
              task_results
      | AppReturns None =>
          <[task_id := {| status := "error"; tr_report_path := None;
                          error_message := Some "Workflow invocation returned None." |}]>
            task_results
      | AppRaises type_name e =>
          <[task_id := {| status := "error"; tr_report_path := None;
                          error_message :=
                            Some ("Critical error during workflow execution: "
                                  ++ type_name ++ " - " ++ e) |}]> task_results
      end
  end.

(** What an endpoint answers: an [HTTPException], a [FileResponse], or a
    JSON body with its fields [status] and [message]. *)
Inductive Response :=
| HTTPException (status_code : Z) (detail : string)
| FileResponse (path filename : string)
| Json (status_code : Z) (status_field : string) (message : option string).

(** [os.path.basename] on POSIX: what follows the last slash. *)
Definition basename (p : string) : string := PyStr.last (PyStr.split "/" p).

(** [get_results(task_id)]: the answer, and what it makes of
    [task_results]. *)
Definition get_results (path_exists : string -> bool) (task_id : string)
    (task_results : gmap string TaskResult) : Response * gmap string TaskResult :=
  match task_results !! task_id with
  | None => (HTTPException 404 "Task ID not found.", task_results)
  | Some result =>
      if String.eqb (status result) "completed"
      then
        if truthy_opt (tr_report_path result)
           && path_exists (default "" (tr_report_path result))
        then (FileResponse (default "" (tr_report_path result))
                (basename (default "" (tr_report_path result))), task_results)
        else
          let msg := "Task marked completed but report file is missing or invalid." in
          (HTTPException 500 msg,
           <[task_id := {| status := "error"; tr_report_path := tr_report_path result;
                           error_message := Some msg |}]> task_results)
      else if String.eqb (status result) "running"
      then (Json 200 "running" (Some "Research workflow is still in progress."),
            task_results)
      else if String.eqb (status result) "error"
      then (Json 500 "error" (error_message result), task_results)
      else (HTTPException 500 "Unknown task status.", task_results)
  end.

(** ** The graph when a node raises *)

(** What a call of a node does: it raises an exception of some type with
    some message, or returns. *)
Inductive NodeOutcome (A : Type) :=
| NodeRaises (type_name msg : string)
| NodeReturns (a : A).

Arguments NodeRaises {A} type_name msg.
Arguments NodeReturns {A} a.

(** A call of the download node.  [os.makedirs(PDF_DOWNLOAD_DIR,
    exist_ok=True)] is called once the list of papers is known not to be
    empty, outside any [try]: what it raises leaves the node.  [makedirs]
    is the type and the message of the exception, [None] when the call
    returns; [download_and_parse_pdfs_node] is the rest of the node. *)
Definition download_and_parse_pdfs_node_call (makedirs : option (string * string))
    (env : DownloadEnv) (disk : gset string) (state : ResearchState)
  : NodeOutcome (Update * LoopState) :=
  if negb (list_truthy (papers_to_process state))
  then NodeReturns (download_and_parse_pdfs_node env disk state)
  else
    match makedirs with
    | Some (type_name, msg) => NodeRaises type_name msg
    | None => NodeReturns (download_and_parse_pdfs_node env disk state)
    end.

(** What [app.invoke(inputs)] does: an exception that leaves a node leaves
    the graph, after the calls made so far; otherwise the run is the one
    that [invoke] describes. *)
Inductive RunOutcome :=
| RunRaises (type_name msg : string) (calls_made : list Event)
| RunReturns (r : Run).

Definition app_invoke (makedirs : option (string * string)) (gk sk : string)
    (w : World) (s0 : ResearchState) : RunOutcome :=
  let '(u1, ev1) := search_academic_papers_node sk (search_env w) s0 in
  let s1 := apply_update s0 u1 in
  match download_and_parse_pdfs_node_call makedirs (download_env w) (disk w) s1 with
  | NodeRaises type_name msg => RunRaises type_name msg ev1
  | NodeReturns _ => RunReturns (invoke gk sk w s0)
  end.

(** The compiled graph as the server calls it. *)
Definition graph_app (makedirs : option (string * string)) (gk sk : string)
    (w : World) (s0 : ResearchState) : AppOutcome :=
  match app_invoke makedirs gk sk w s0 with
  | RunRaises type_name msg _ => AppRaises type_name msg
  | RunReturns r => AppReturns (Some (after_report r))
  end.

(** * Properties *)

(** ** Examples *)

Example parse_example :
  let t := "Summary: A. Methodology: B. Key Findings: C." in
  (parse_summary t, parse_methodology t, parse_key_findings t) = ("A.", "B.", "C.").
Proof. reflexivity. Qed.

Example sections_in_order :
  parse_sections 2 "d" "Topic Overview: X Detailed Comparative Analysis: Y"
  = ("X", "Y").
Proof. reflexivity. Qed.

Example sections_out_of_order :
  parse_sections 2 "d" "Detailed Comparative Analysis: Y Topic Overview: X"
  = ("", "Y Topic Overview: X").
Proof. reflexivity. Qed.

Example filepath_example :
  pdf_filepath (mk_paper "arXiv:2401.1" "A b" "u") = "downloaded_pdfs/A_b_arXiv_24.pdf".
Proof. reflexivity. Qed.

Example split_example :
  PyStr.split "Methodology:" "Summary: A. Methodology: B. Key Findings: C."
  = ["Summary: A. "; " B. Key Findings: C."].
Proof. reflexivity. Qed.

(** ** Download and parse agent: the loop *)

Lemma process_paper_parsed env i paper st :
  parsed (process_paper env i paper st) = (parsed st ++ extracted env i paper)%list.
Proof.
  unfold process_paper, extracted.
  destruct (truthy_opt (pdf_url paper)); simpl.
  - destruct (item_outcome env i); simpl;
      try (unfold on_exception; case_bool_decide; simpl; by rewrite app_nil_r).
    destruct (PyStr.truthy (full_text texts)); simpl; [done | by rewrite app_nil_r].
  - by rewrite app_nil_r.
Qed.

Lemma process_paper_failed env i paper st :
  failed_count (process_paper env i paper st)
  = failed_count st + match extracted env i paper with [] => 1 | _ => 0 end.
Proof.
  unfold process_paper, extracted.
  destruct (truthy_opt (pdf_url paper)); simpl; [| done].
  destruct (item_outcome env i); simpl;
    try (unfold on_exception; case_bool_decide; simpl; done).
  destruct (PyStr.truthy (full_text texts)); simpl; lia.
Qed.

Lemma download_loop_parsed env papers : forall i st,
  parsed (download_loop env i papers st) = (parsed st ++ extracted_from env i papers)%list.
Proof.
  induction papers as [| paper rest IH]; intros i st; simpl.
  - by rewrite app_nil_r.
  - rewrite IH, process_paper_parsed. by rewrite <- app_assoc.
Qed.

Lemma download_loop_failed env papers : forall i st,
  failed_count (download_loop env i papers st)
  = failed_count st + failures_from env i papers.
Proof.
  induction papers as [| paper rest IH]; intros i st; simpl.
  - lia.
  - rewrite IH, process_paper_failed. lia.
Qed.

Lemma extracted_ids env i paper :
  Forall (fun q => paperId q = Some (paper_id_of paper)) (extracted env i paper).
Proof.
  unfold extracted.
  destruct (truthy_opt (pdf_url paper)); [| constructor].
  destruct (item_outcome env i); try constructor.
  destruct (PyStr.truthy (full_text texts)); repeat constructor.
Qed.

Lemma extracted_short env i paper : (length (extracted env i paper) <= 1)%nat.
Proof.
  unfold extracted.
  destruct (truthy_opt (pdf_url paper)); simpl; [| lia].
  destruct (item_outcome env i); simpl; try lia.
  destruct (PyStr.truthy (full_text texts)); simpl; lia.
Qed.

Lemma extracted_from_sublist env papers : forall i,
  sublist (paper_id_of <$> extracted_from env i papers) (paper_id_of <$> papers).
Proof.
  induction papers as [| paper rest IH]; intros i; csimpl; [constructor |].
  pose proof (extracted_ids env i paper) as Hid.
  pose proof (extracted_short env i paper) as Hlen.
  destruct (extracted env i paper) as [| q [| q' l]]; csimpl in *.
  - apply sublist_cons, IH.
  - inversion Hid as [| ? ? Hq _]; subst.
    unfold paper_id_of at 1. rewrite Hq. simpl.
    apply sublist_skip, IH.
  - lia.
Qed.

(** An extracted paper carries its identifier under [paperId]. *)
Lemma extracted_from_has_id env papers : forall i,
  Forall (fun q => paperId q = Some (paper_id_of q)) (extracted_from env i papers).
Proof.
  induction papers as [| paper rest IH]; intros i; simpl; [constructor |].
  apply Forall_app; split; [| apply IH].
  eapply Forall_impl; [apply extracted_ids |].
  intros q Hq. unfold paper_id_of at 1. by rewrite Hq.
Qed.

Lemma paperId_fmap (l : list Item) :
  Forall (fun q => paperId q = Some (paper_id_of q)) l ->
  paperId <$> l = Some <$> (paper_id_of <$> l).
Proof.
  induction 1 as [| q l Hq _ IH]; csimpl; [done |]. by rewrite Hq, IH.
Qed.

Lemma extracted_from_origin env papers : forall i,
  Forall (fun q => exists p, p ∈ papers /\ paperId q = Some (paper_id_of p))
    (extracted_from env i papers).
Proof.
  induction papers as [| paper rest IH]; intros i; simpl; [constructor |].
  apply Forall_app; split.
  - eapply Forall_impl; [apply extracted_ids |].
    intros q Hq. exists paper. split; [left | done].
  - eapply Forall_impl; [apply IH |].
    intros q (p & Hp & Hq). exists p. split; [by right | done].
Qed.

(** ** Facts about the string primitives *)

Section StringFacts.

Local Open Scope nat_scope.

Lemma drop_empty n : PyStr.drop n "" = "".
Proof. by destruct n. Qed.

Lemma take_empty n : PyStr.take n "" = "".
Proof. by destruct n. Qed.

Lemma drop_drop a : forall b s, PyStr.drop a (PyStr.drop b s) = PyStr.drop (b + a) s.
Proof.
  intros b. induction b as [| b IH]; intros s; simpl; [done |].
  destruct s as [| c s]; [by rewrite drop_empty | apply IH].
Qed.

Lemma drop_take i : forall j s,
  PyStr.drop i (PyStr.take j s) = PyStr.take (j - i) (PyStr.drop i s).
Proof.
  induction i as [| i IH]; intros j s; simpl.
  - by rewrite Nat.sub_0_r.
  - destruct j as [| j]; simpl; [by destruct s |].
    destruct s as [| c s]; simpl; [by rewrite take_empty | apply IH].
Qed.

Lemma take_all n : forall s, String.length s <= n -> PyStr.take n s = s.
Proof.
  induction n as [| n IH]; intros [| c s] Hlen; simpl in *; try done; try lia.
  f_equal. apply IH. lia.
Qed.

Lemma startswith_length p : forall s,
  PyStr.startswith p s = true -> String.length p <= String.length s.
Proof.
  unfold PyStr.startswith.
  induction p as [| a p IH]; intros [| b s] H; simpl in *; try done; try lia.
  destruct (ascii_dec a b); [| done]. apply IH in H. lia.
Qed.

Lemma startswith_empty p : p <> "" -> PyStr.startswith p "" = false.
Proof. by destruct p. Qed.

(** A prefix of a prefix of [s] is a prefix of [s]. *)
Lemma startswith_take p : forall n s,
  PyStr.startswith p (PyStr.take n s) = true -> PyStr.startswith p s = true.
Proof.
  unfold PyStr.startswith.
  induction p as [| a p IH]; intros n s H; [by destruct s |].
  destruct n as [| n]; simpl in H; [done |].
  destruct s as [| b s]; simpl in *; [done |].
  destruct (ascii_dec a b); [| done]. by apply (IH n).
Qed.

Lemma startswith_take_ge p : forall n s,
  String.length p <= n ->
  PyStr.startswith p s = true -> PyStr.startswith p (PyStr.take n s) = true.
Proof.
  unfold PyStr.startswith.
  induction p as [| a p IH]; intros n s Hn H; [by destruct (PyStr.take n s) |].
  destruct s as [| b s]; simpl in *; [done |].
  destruct n as [| n]; [lia |]. simpl.
  destruct (ascii_dec a b); [| done]. apply IH; [lia | done].
Qed.

(** Skipping [k] characters is dropping them. *)
Lemma split_aux_skip sep k : forall s,
  k <= String.length s ->
  PyStr.split_aux sep k s = PyStr.split_aux sep 0 (PyStr.drop k s).
Proof.
  induction k as [| k IH]; intros s Hk; [by destruct s |].
  destruct s as [| c s]; simpl in *; [lia |]. apply IH. lia.
Qed.

(** Without an occurrence of [sep] the text is one piece. *)
Lemma split_no_occurrence sep : forall s,
  (forall k, PyStr.startswith sep (PyStr.drop k s) = false) ->
  PyStr.split sep s = [s].
Proof.
  unfold PyStr.split.
  induction s as [| c s IH]; intros Hno; simpl; [done |].
  pose proof (Hno 0) as H0. simpl in H0. rewrite H0.
  rewrite IH; [done |]. intros k. apply (Hno (S k)).
Qed.

(** With a first occurrence of [sep] at position [i], the first piece is
    what is before it, and the scan goes on after it. *)
Lemma split_first_occurrence sep : sep <> "" -> forall i s,
  (forall k, k < i -> PyStr.startswith sep (PyStr.drop k s) = false) ->
  PyStr.startswith sep (PyStr.drop i s) = true ->
  PyStr.split sep s
  = PyStr.take i s :: PyStr.split sep (PyStr.drop (i + String.length sep) s).
Proof.
  intros Hsep. unfold PyStr.split.
  induction i as [| i IH]; intros s Hbefore Hat.
  - simpl in Hat. destruct s as [| c s]; [by rewrite startswith_empty in Hat |].
    simpl PyStr.split_aux. rewrite Hat. simpl PyStr.take. f_equal.
    apply startswith_length in Hat. simpl in Hat.
    destruct sep as [| a sep]; [done |]. simpl in *.
    rewrite Nat.sub_0_r. apply split_aux_skip. lia.
  - destruct s as [| c s]; [by rewrite drop_empty, startswith_empty in Hat |].
    simpl in Hat. simpl PyStr.split_aux.
    pose proof (Hbefore 0 ltac:(lia)) as H0. simpl in H0. rewrite H0.
    rewrite (IH s); [done | | done].
    intros k Hk. apply (Hbefore (S k)). lia.
Qed.

End StringFacts.

(** ** Summarizer agent: the parser *)

Section Parser.

Local Open Scope nat_scope.

(** A text in which [sep] occurs once, at [i], is cut in two by [split]. *)
Lemma split_single sep s i :
  sep <> "" -> occurs_only_at sep s i ->
  PyStr.split sep s = [PyStr.take i s; PyStr.drop (i + String.length sep) s].
Proof.
  intros Hsep Hocc.
  rewrite (split_first_occurrence sep Hsep i).
  - f_equal. apply split_no_occurrence. intros k.
    rewrite drop_drop. apply not_true_is_false. intros H.
    apply Hocc in H. destruct sep; simpl in *; [done | lia].
  - intros k Hk. apply not_true_is_false. intros H. apply Hocc in H. lia.
  - by apply Hocc.
Qed.

(** Cutting the text at [j] keeps the one occurrence at [i] when the
    label ends before [j]. *)
Lemma occurs_only_at_take sep s i j :
  occurs_only_at sep s i -> i + String.length sep <= j ->
  occurs_only_at sep (PyStr.take j s) i.
Proof.
  intros Hocc Hij k. split.
  - rewrite drop_take. intros H. apply startswith_take in H. by apply Hocc.
  - intros ->. rewrite drop_take. apply startswith_take_ge; [lia | by apply Hocc].
Qed.

End Parser.

(** C7. The parser of the summarizer cuts the generated text at the
    labels, in the order of the labels: when "Methodology:" occurs once,
    at [i], and "Key Findings:" once, at [j], after it, the summary is the
    text before [i] without "Summary:", the methodology the text between
    the two labels and the key findings the text after the second label,
    each stripped of the white space around it.  The text
    "Summary: A. Methodology: B. Key Findings: C." gives "A.", "B." and
    "C.". *)
Theorem parser_slices_by_labels (generated_text : string) (i j : nat) :
  occurs_only_at "Methodology:" generated_text i ->
  occurs_only_at "Key Findings:" generated_text j ->
  (i + 12 <= j)%nat ->
  parse_summary generated_text
  = PyStr.strip (PyStr.replace "Summary:" "" (PyStr.take i generated_text))
  /\ parse_methodology generated_text
     = PyStr.strip (PyStr.take (j - (i + 12)) (PyStr.drop (i + 12) generated_text))
  /\ parse_key_findings generated_text
     = PyStr.strip (PyStr.drop (j + 13) generated_text)
  /\ (generated_text = "Summary: A. Methodology: B. Key Findings: C." ->
      parse_summary generated_text = "A."
      /\ parse_methodology generated_text = "B."
      /\ parse_key_findings generated_text = "C.").
Proof.
  intros Hm Hk Hij.
  assert (PyStr.split "Methodology:" generated_text
          = [PyStr.take i generated_text; PyStr.drop (i + 12) generated_text]) as Hsm
    by (by apply split_single).
  assert (PyStr.split "Key Findings:" generated_text
          = [PyStr.take j generated_text; PyStr.drop (j + 13) generated_text]) as Hsk
    by (by apply split_single).
  split; [| split; [| split]].
  - unfold parse_summary. by rewrite Hsm.
  - unfold parse_methodology. rewrite Hsk. simpl PyStr.first.
    rewrite (split_single "Methodology:" (PyStr.take j generated_text) i);
      [| done | by apply occurs_only_at_take].
    simpl PyStr.last. by rewrite drop_take.
  - unfold parse_key_findings. by rewrite Hsk.
  - intros ->. by vm_compute.
Qed.

(** The positions of a label in a given text, found by trying each one. *)
Tactic Notation "try_positions" integer(n) :=
  let k := fresh "k" in
  let H := fresh "H" in
  intros k; split;
  [ do n (destruct k as [| k];
          [ vm_compute; intros H; first [ reflexivity | discriminate H ] | ]);
    vm_compute; intros H; discriminate H
  | intros ->; reflexivity ].

Lemma example_methodology_at :
  occurs_only_at "Methodology:" "Summary: A. Methodology: B. Key Findings: C." 12.
Proof. try_positions 45. Qed.

Lemma example_key_findings_at :
  occurs_only_at "Key Findings:" "Summary: A. Methodology: B. Key Findings: C." 28.
Proof. try_positions 45. Qed.

Lemma parser_slices_by_labels_witness :
  occurs_only_at "Methodology:" "Summary: A. Methodology: B. Key Findings: C." 12
  /\ occurs_only_at "Key Findings:" "Summary: A. Methodology: B. Key Findings: C." 28
  /\ (12 + 12 <= 28)%nat
  /\ parse_summary "Summary: A. Methodology: B. Key Findings: C." = "A."
  /\ parse_methodology "Summary: A. Methodology: B. Key Findings: C." = "B."
  /\ parse_key_findings "Summary: A. Methodology: B. Key Findings: C." = "C.".
Proof.
  split; [exact example_methodology_at |].
  split; [exact example_key_findings_at |].
  split; [lia |].
  apply (parser_slices_by_labels "Summary: A. Methodology: B. Key Findings: C." 12 28
           example_methodology_at example_key_findings_at); [lia | reflexivity].
Defined.

(** ** Comparator agent *)

Lemma slice_backwards (a b : Z) (s : string) :
  0 <= b -> b <= a -> PyStr.slice (Some a) (Some b) s = "".
Proof.
  intros Hb Hab. unfold PyStr.slice, PyStr.adjust.
  destruct (a <? 0) eqn:Ha; [lia |]. destruct (b <? 0) eqn:Hb'; [lia |].
  replace (Z.to_nat (Z.min b (PyStr.len s) - Z.min a (PyStr.len s))) with 0%nat by lia.
  reflexivity.
Qed.

(** C4, as amended. With no analysis the comparator sends no request.
    When no error is recorded it returns "N/A - No papers analyzed." in
    both fields and records "No summaries available"; when an error is
    recorded it returns the empty string in both fields and the error as
    it is. *)
Theorem comparator_without_analyses (GEMINI_API_KEY : string) (env : CompareEnv)
    (state : ResearchState) :
  list_truthy (all_analyses state) = false ->
  (compare_analyses_node GEMINI_API_KEY env state).2 = []
  /\ (truthy_opt (error state) = false ->
      compare_analyses_node GEMINI_API_KEY env state
      = (sections_update no_papers_placeholder no_papers_placeholder
           (Some "No summaries available"), []))
  /\ (truthy_opt (error state) = true ->
      compare_analyses_node GEMINI_API_KEY env state
      = (sections_update "" "" (error state), [])).
Proof.
  intros Hempty. unfold compare_analyses_node. rewrite Hempty. simpl.
  destruct (truthy_opt (error state)); repeat split; intros; done.
Qed.

Lemma comparator_without_analyses_witness :
  list_truthy (all_analyses (state_of_analyses "t" [] (Some "Topic missing"))) = false
  /\ compare_analyses_node "" (answering Empty)
       (state_of_analyses "t" [] (Some "Topic missing"))
     = (sections_update "" "" (Some "Topic missing"), []).
Proof.
  split; [reflexivity |].
  apply (comparator_without_analyses "" (answering Empty)
           (state_of_analyses "t" [] (Some "Topic missing")));
    reflexivity.
Defined.

(** C4 as stated fails: with an error already recorded, the two fields are
    empty strings, not the placeholder. *)
Lemma empty_fields_after_error :
  let u := (compare_analyses_node "" (answering Empty)
              (state_of_analyses "t" [] (Some "Topic missing"))).1 in
  u_topic_overview u = Some ""
  /\ u_comparison_result u = Some ""
  /\ u_topic_overview u <> Some no_papers_placeholder
  /\ u_comparison_result u <> Some no_papers_placeholder.
Proof. repeat split; discriminate. Qed.


Section Containment.

Local Arguments String.append : simpl nomatch.




End Containment.


(** C6. The code does not do what the claim asks.  With two or more
    analyses, a response in which both labels occur and the comparison
    label comes first gives an empty overview: the overview is the slice
    from after the overview label to the comparison label, which is empty
    when the comparison label is to the left. *)
Theorem labels_out_of_order_empty_overview (GEMINI_API_KEY : string) (env : CompareEnv)
    (state : ResearchState) (l : list Analysis) (generated_text : string) :
  GEMINI_API_KEY <> "YOUR_GEMINI_API_KEY" ->
  all_analyses state = Some l ->
  (2 <= length l)%nat ->
  cmp_configure env = None ->
  cmp_response env = Parts generated_text ->
  0 <= PyStr.find comparison_marker generated_text
    < PyStr.find overview_marker generated_text ->
  u_topic_overview (compare_analyses_node GEMINI_API_KEY env state).1 = Some "".
Proof.
  intros Hkey Hl Hlen Hconf Hresp [Hc Hco].
  apply String.eqb_neq in Hkey.
  unfold compare_analyses_node. rewrite Hl, Hconf, Hkey, Hresp.
  destruct l as [| a1 [| a2 l']]; simpl in Hlen; [lia | lia |].
  change (list_truthy (Some (a1 :: a2 :: l'))) with true.
  cbv iota beta. change (negb true) with false. cbv iota.
  unfold parse_sections.
  destruct (PyStr.find overview_marker generated_text =? -1) eqn:Ho; [lia |].
  destruct (PyStr.find comparison_marker generated_text =? -1) eqn:Hc'; [lia |].
  cbv iota beta. change (negb false && negb false) with true. cbv iota beta.
  rewrite slice_backwards; [reflexivity | lia |].
  unfold PyStr.len. lia.
Qed.

Lemma labels_out_of_order_empty_overview_witness :
  let env := answering (Parts "Detailed Comparative Analysis: Y Topic Overview: X") in
  let state := state_of_analyses "t" [sample_analysis "P"; sample_analysis "Q"] None in
  (0 <= PyStr.find comparison_marker "Detailed Comparative Analysis: Y Topic Overview: X"
     < PyStr.find overview_marker "Detailed Comparative Analysis: Y Topic Overview: X")
  /\ u_topic_overview (compare_analyses_node "" env state).1 = Some ""
  /\ u_comparison_result (compare_analyses_node "" env state).1
     = Some "Y Topic Overview: X".
Proof.
  intros env state.
  split; [vm_compute; split; [intros H; discriminate H | reflexivity] |].
  split; [| reflexivity].
  apply (labels_out_of_order_empty_overview "" env state
           [sample_analysis "P"; sample_analysis "Q"]
           "Detailed Comparative Analysis: Y Topic Overview: X");
    [discriminate | reflexivity | simpl; lia | reflexivity | reflexivity
    | vm_compute; split; [intros H; discriminate H | reflexivity]].
Defined.

(** ** Download and parse agent: the transient file *)

(** The files on disk after one paper, according to [os.remove]. *)
Lemma process_paper_files env i paper st :
  truthy_opt (pdf_url paper) = true ->
  files (process_paper env i paper st)
  = if remove_raises env i
    then match item_outcome env i with
         | GetRaises | OpenRaises => files st
         | _ => {[pdf_filepath paper]} ∪ files st
         end
    else files st ∖ {[pdf_filepath paper]}.
Proof.
  intros Hurl. unfold process_paper. rewrite Hurl.
  change (negb true) with false. cbv iota.
  destruct (item_outcome env i) eqn:Hout; unfold on_exception, remove_file;
    try case_bool_decide; try destruct (PyStr.truthy _);
    simpl in *; destruct (remove_raises env i); set_solver.
Qed.

(** A file that is still there after its paper was handled is one whose
    removal was attempted. *)
Lemma process_paper_attempts env i paper st :
  truthy_opt (pdf_url paper) = true ->
  pdf_filepath paper ∈ files (process_paper env i paper st) ->
  FileRemove (pdf_filepath paper) ∈ trace (process_paper env i paper st).
Proof.
  intros Hurl. unfold process_paper. rewrite Hurl.
  change (negb true) with false. cbv iota.
  destruct (item_outcome env i) eqn:Hout; unfold on_exception, remove_file;
    try case_bool_decide; try destruct (PyStr.truthy _);
    simpl in *; intros Hin; set_solver.
Qed.

(** C9, as amended. For every paper that has a link, the agent attempts to
    delete the transient file on every path, and when [os.remove] does not
    raise, the file is gone when the next paper is taken: the files left
    are those there before, without the file of this paper.  The file is
    still there only when its removal was attempted and raised. *)
Theorem transient_file_removed (env : DownloadEnv) (i : nat) (paper : Item)
    (st : LoopState) :
  truthy_opt (pdf_url paper) = true ->
  (remove_raises env i = false ->
   (pdf_filepath paper ∉ files (process_paper env i paper st))
   /\ files (process_paper env i paper st) = files st ∖ {[pdf_filepath paper]})
  /\ (pdf_filepath paper ∈ files (process_paper env i paper st) ->
      remove_raises env i = true
      /\ FileRemove (pdf_filepath paper) ∈ trace (process_paper env i paper st)).
Proof.
  intros Hurl. split.
  - intros Hrm. rewrite process_paper_files, Hrm by done. set_solver.
  - intros Hin. split; [| by apply process_paper_attempts].
    rewrite process_paper_files in Hin by done.
    destruct (remove_raises env i); [done | set_solver].
Qed.

Lemma transient_file_removed_witness :
  truthy_opt (pdf_url (mk_paper "id1" "T" "http://x")) = true
  /\ remove_raises (all_parse false) 0 = false
  /\ pdf_filepath (mk_paper "id1" "T" "http://x")
     ∉ files (process_paper (all_parse false) 0 (mk_paper "id1" "T" "http://x")
                empty_loop_state).
Proof.
  split; [reflexivity |]. split; [reflexivity |].
  apply (transient_file_removed (all_parse false) 0 (mk_paper "id1" "T" "http://x")
           empty_loop_state); reflexivity.
Defined.

(** C9 as stated fails: when [os.remove] raises, the handler only logs it
    and the file is still there when the next paper is taken. *)
Lemma remove_failure_leaves_file :
  pdf_filepath (mk_paper "id1" "T" "http://x")
  ∈ files (process_paper (all_parse true) 0 (mk_paper "id1" "T" "http://x")
             empty_loop_state).
Proof. rewrite process_paper_files by reflexivity. simpl. set_solver. Qed.

(** When [os.remove] never raises, the whole loop leaves no new file. *)
Lemma download_loop_files env papers : forall i st,
  (forall k, remove_raises env k = false) ->
  files (download_loop env i papers st) ⊆ files st.
Proof.
  induction papers as [| paper rest IH]; intros i st Hrm; simpl; [done |].
  etrans; [by apply IH |].
  destruct (truthy_opt (pdf_url paper)) eqn:Hurl.
  - rewrite process_paper_files, Hrm by done. set_solver.
  - unfold process_paper. by rewrite Hurl.
Qed.

(** ** Download and parse agent: the node *)

Lemma download_node_parsed env d state :
  u_parsed_papers (download_and_parse_pdfs_node env d state).1
  = Some (extracted_from env 0 (default [] (papers_to_process state))).
Proof.
  unfold download_and_parse_pdfs_node.
  destruct (papers_to_process state) as [[| paper rest] |]; simpl;
    try (by destruct (truthy_opt (error state))).
  by rewrite download_loop_parsed, process_paper_parsed.
Qed.

Lemma download_node_failed env d state papers :
  papers_to_process state = Some papers -> papers <> [] ->
  failed_count (download_and_parse_pdfs_node env d state).2 = failures_from env 0 papers.
Proof.
  intros Hp Hne. unfold download_and_parse_pdfs_node. rewrite Hp.
  destruct papers as [| paper rest]; [done |]. simpl.
  rewrite download_loop_failed, process_paper_failed. simpl. lia.
Qed.

(** A recorded error goes through the node as it is. *)
Lemma download_node_keeps_error env d state :
  truthy_opt (error state) = true ->
  u_error (download_and_parse_pdfs_node env d state).1 = Some (error state).
Proof.
  intros He. unfold download_and_parse_pdfs_node. rewrite He.
  destruct (list_truthy (papers_to_process state)); simpl; [| done].
  by rewrite andb_false_r.
Qed.

(** With a paper extracted, the node records nothing. *)
Lemma download_node_no_error env d state :
  extracted_from env 0 (default [] (papers_to_process state)) <> [] ->
  u_error (download_and_parse_pdfs_node env d state).1 = Some (error state).
Proof.
  intros Hne. unfold download_and_parse_pdfs_node.
  destruct (papers_to_process state) as [[| paper rest] |]; simpl in *; try done.
  rewrite download_loop_parsed, process_paper_parsed. simpl.
  destruct (extracted env 0 paper ++ extracted_from env 1 rest)%list; done.
Qed.

(** C3. The agent handles each paper on its own.  A paper whose download,
    writing or parsing raises adds nothing and is counted, and the loop
    goes on: the extracted papers are what each paper contributes, in
    order, and the failures are counted one by one.  With three papers of
    which only the second fails to download, the extracted papers are the
    first and the third, in this order; and whenever a paper is extracted
    the node returns the error slot as it found it, so none is recorded
    when none was there. *)
Theorem acquisition_isolates_failures (env : DownloadEnv) (d : gset string)
    (state : ResearchState) (papers : list Item) :
  papers_to_process state = Some papers ->
  papers <> [] ->
  let r := download_and_parse_pdfs_node env d state in
  u_parsed_papers r.1 = Some (extracted_from env 0 papers)
  /\ failed_count r.2 = failures_from env 0 papers
  /\ (forall i paper st,
        (forall texts, item_outcome env i <> Pages texts) ->
        parsed (process_paper env i paper st) = parsed st
        /\ failed_count (process_paper env i paper st) = failed_count st + 1)
  /\ (extracted_from env 0 papers <> [] -> u_error r.1 = Some (error state))
  /\ (forall p1 p2 p3 t1 t3,
        papers = [p1; p2; p3] ->
        truthy_opt (pdf_url p1) = true -> truthy_opt (pdf_url p3) = true ->
        item_outcome env 0 = Pages t1 -> PyStr.truthy (full_text t1) = true ->
        item_outcome env 1 = GetRaises ->
        item_outcome env 2 = Pages t3 -> PyStr.truthy (full_text t3) = true ->
        u_parsed_papers r.1
        = Some [parsed_item p1 (full_text t1); parsed_item p3 (full_text t3)]
        /\ u_error r.1 = Some (error state)).
Proof.
  intros Hp Hne r.
  assert (u_parsed_papers r.1 = Some (extracted_from env 0 papers)) as Hparsed.
  { unfold r. by rewrite download_node_parsed, Hp. }
  assert (extracted_from env 0 papers <> [] -> u_error r.1 = Some (error state)) as Herr.
  { intros Hex. apply download_node_no_error. by rewrite Hp. }
  split; [done |]. split; [by apply download_node_failed |].
  split; [| split; [done |]].
  - intros i paper st Hfail.
    rewrite process_paper_parsed, process_paper_failed. unfold extracted.
    destruct (truthy_opt (pdf_url paper)); [| by rewrite app_nil_r].
    destruct (item_outcome env i) as [| | | | texts] eqn:Hout;
      try (by rewrite app_nil_r). by destruct (Hfail texts).
  - intros p1 p2 p3 t1 t3 -> Hu1 Hu3 Ho1 Ht1 Ho2 Ho3 Ht3.
    assert (extracted_from env 0 [p1; p2; p3]
            = [parsed_item p1 (full_text t1); parsed_item p3 (full_text t3)]) as Hex.
    { simpl. unfold extracted. rewrite Hu1, Hu3, Ho1, Ho2, Ho3, Ht1, Ht3.
      by destruct (truthy_opt (pdf_url p2)). }
    split; [by rewrite Hparsed, Hex |]. apply Herr. by rewrite Hex.
Qed.

Lemma acquisition_isolates_failures_witness :
  let papers := [mk_paper "id1" "T1" "u1"; mk_paper "id2" "T2" "u2";
                 mk_paper "id3" "T3" "u3"] in
  let r := download_and_parse_pdfs_node second_fails ∅ (state_of_papers papers None) in
  papers_to_process (state_of_papers papers None) = Some papers
  /\ papers <> []
  /\ u_parsed_papers r.1
     = Some [parsed_item (mk_paper "id1" "T1" "u1") (full_text [Some "text"]);
             parsed_item (mk_paper "id3" "T3" "u3") (full_text [Some "text"])]
  /\ u_error r.1 = Some None.
Proof.
  intros papers r.
  split; [reflexivity |]. split; [discriminate |].
  destruct (acquisition_isolates_failures second_fails ∅ (state_of_papers papers None)
              papers eq_refl ltac:(discriminate)) as (_ & _ & _ & _ & H).
  apply (H (mk_paper "id1" "T1" "u1") (mk_paper "id2" "T2" "u2")
           (mk_paper "id3" "T3" "u3") [Some "text"] [Some "text"]); reflexivity.
Defined.

(** ** Report generator agent *)

Lemma report_node_success env state p :
  u_report_path (generate_report_node env state).1 = Some (Some p) ->
  p = path_join (getcwd env) OUTPUT_REPORT_NAME
  /\ (generate_report_node env state).2 = [DocSave p].
Proof.
  unfold generate_report_node.
  destruct (negb (list_truthy (all_analyses state)) && negb (truthy_opt (error state)));
    [discriminate |].
  destruct (negb (list_truthy (all_analyses state)) && truthy_opt (error state));
    [discriminate |].
  destruct (docx_outcome env); simpl; intros [=]. by subst.
Qed.

(** C10. Whenever the report agent succeeds, the path it returns is the
    working directory joined with the constant file name, whatever the
    state holds, and it is the path the document was saved to.  So two
    successful runs of one process, with one working directory, return
    the same path and save to the same file. *)
Theorem report_path_is_fixed (env1 env2 : ReportEnv) (s1 s2 : ResearchState)
    (p1 p2 : string) :
  u_report_path (generate_report_node env1 s1).1 = Some (Some p1) ->
  u_report_path (generate_report_node env2 s2).1 = Some (Some p2) ->
  p1 = path_join (getcwd env1) OUTPUT_REPORT_NAME
  /\ (generate_report_node env1 s1).2 = [DocSave p1]
  /\ (generate_report_node env2 s2).2 = [DocSave p2]
  /\ (getcwd env1 = getcwd env2 -> p1 = p2).
Proof.
  intros [-> H1]%report_node_success [-> H2]%report_node_success.
  repeat split; try done. by intros ->.
Qed.

Lemma report_path_is_fixed_witness :
  let s1 := state_of_analyses "t" [sample_analysis "P"] None in
  let s2 := state_of_analyses "u" [sample_analysis "Q"; sample_analysis "R"] None in
  let p := "/app/AI_Generated_Research_Report_Reverted_Enhanced.docx" in
  u_report_path (generate_report_node (saving_in "/app") s1).1 = Some (Some p)
  /\ u_report_path (generate_report_node (saving_in "/app") s2).1 = Some (Some p)
  /\ (generate_report_node (saving_in "/app") s1).2 = [DocSave p]
  /\ (generate_report_node (saving_in "/app") s2).2 = [DocSave p].
Proof.
  intros s1 s2 p.
  split; [reflexivity |]. split; [reflexivity |].
  destruct (report_path_is_fixed (saving_in "/app") (saving_in "/app") s1 s2 p p
              eq_refl eq_refl) as (_ & H1 & H2 & _).
  split; [exact H1 | exact H2].
Defined.

(** ** Search agent *)

Lemma take_min (s : string) (k : nat) :
  PyStr.take (Nat.min k (String.length s)) s = PyStr.take k s.
Proof.
  destruct (Nat.le_ge_cases k (String.length s)) as [H | H].
  - by rewrite Nat.min_l.
  - rewrite Nat.min_r by done. by rewrite !take_all by lia.
Qed.

(** [s[:k]] is the prefix of length [k]. *)
Lemma slice_prefix (k : Z) (s : string) :
  0 <= k -> PyStr.slice None (Some k) s = PyStr.take (Z.to_nat k) s.
Proof.
  intros Hk. unfold PyStr.slice, PyStr.adjust, PyStr.len.
  destruct (k <? 0) eqn:Hneg; [lia |].
  rewrite <- (take_min s (Z.to_nat k)). simpl PyStr.drop. f_equal. lia.
Qed.

Lemma title_key_prefix (t : string) : title_key t = PyStr.take 50 (PyStr.lower t).
Proof. unfold title_key. by rewrite slice_prefix. Qed.

Lemma is_duplicate_spec (found : list Item) (ttl : string) :
  is_duplicate found ttl = true
  <-> exists p, p ∈ found /\ same_title_prefix (default "" (title p)) ttl.
Proof.
  unfold is_duplicate, same_title_prefix. rewrite existsb_exists.
  split; intros (p & Hin & Heq); exists p.
  - apply list_elem_of_In in Hin. apply bool_decide_eq_true in Heq.
    by rewrite <- !title_key_prefix.
  - apply list_elem_of_In in Hin. split; [done |].
    apply bool_decide_eq_true. by rewrite !title_key_prefix.
Qed.

Lemma s2_step_length limit found paper :
  Z.of_nat (length found) <= Z.max 0 limit ->
  Z.of_nat (length (s2_step limit found paper)) <= Z.max 0 limit.
Proof.
  intros H. unfold s2_step.
  destruct (_ && (Z.of_nat (length found) <? limit)) eqn:Hc; [| done].
  destruct (negb _); [| done].
  apply andb_true_iff in Hc as [_ Hlt]. rewrite length_app. simpl. lia.
Qed.

Lemma s2_fold_length limit data : forall found,
  Z.of_nat (length found) <= Z.max 0 limit ->
  Z.of_nat (length (fold_left (s2_step limit) data found)) <= Z.max 0 limit.
Proof.
  induction data as [| paper rest IH]; intros found H; simpl; [done |].
  by apply IH, s2_step_length.
Qed.

Lemma arxiv_step_length found result :
  (length (arxiv_step found result) <= S (length found))%nat.
Proof.
  unfold arxiv_step. destruct (_ && _); [| lia].
  rewrite length_app. simpl. lia.
Qed.

Lemma arxiv_collect_length limit results : forall found,
  Z.of_nat (length found) <= Z.max 0 limit ->
  Z.of_nat (length (arxiv_collect limit results found)) <= Z.max 0 limit.
Proof.
  induction results as [| result rest IH]; intros found H; simpl; [done |].
  destruct (limit <=? Z.of_nat (length found)) eqn:Hstop; [done |].
  apply IH. pose proof (arxiv_step_length found result). lia.
Qed.

(** Once the target is reached, the loop over the arXiv results adds
    nothing. *)
Lemma arxiv_collect_stops limit results found :
  limit <= Z.of_nat (length found) -> arxiv_collect limit results found = found.
Proof.
  intros H. destruct results as [| result rest]; simpl; [done |].
  destruct (limit <=? Z.of_nat (length found)) eqn:Hstop; [done | lia].
Qed.

Lemma semantic_scholar_phase_length key env tpc limit :
  Z.of_nat (length (semantic_scholar_phase key env tpc limit).1) <= Z.max 0 limit.
Proof.
  unfold semantic_scholar_phase.
  destruct (String.eqb key _); simpl; [lia |].
  destruct (semantic_scholar env tpc (limit * 2)); simpl; [| lia].
  apply s2_fold_length. simpl. lia.
Qed.

(** The search node, once the topic is there, in terms of its two parts. *)
Lemma search_node_unfold key env state tpc :
  topic state = Some tpc -> PyStr.truthy tpc = true ->
  let limit := default 3 (paper_limit state) in
  let part1 := semantic_scholar_phase key env tpc limit in
  let part2 := arxiv_phase env tpc limit part1.1 in
  default [] (u_papers_to_process (search_academic_papers_node key env state).1) = part2.1
  /\ (search_academic_papers_node key env state).2 = (part1.2 ++ part2.2)%list.
Proof.
  intros Ht Htr limit part1 part2. unfold search_academic_papers_node.
  rewrite Ht. simpl. rewrite Htr. simpl. fold limit. fold part1.
  destruct part1 as [found1 ev1] eqn:H1. simpl in part2. fold part2.
  destruct part2 as [found2 ev2] eqn:H2. by destruct found2.
Qed.

(** C8. When Semantic Scholar gives fewer linked papers than the target,
    the node asks arXiv once, for (target - found) * 2 results.  A result
    with a link is dropped as a duplicate exactly when its lower-cased
    title has the same 50-character prefix as a paper already collected,
    and is appended otherwise.  Once the target is reached nothing is
    added, so at most the target is returned.  With 2 papers found and a
    target of 3, arXiv is asked for 2 results. *)
Theorem secondary_provider_query (SEMANTIC_SCHOLAR_API_KEY : string) (env : SearchEnv)
    (state : ResearchState) (tpc : string) :
  topic state = Some tpc ->
  PyStr.truthy tpc = true ->
  let limit := default 3 (paper_limit state) in
  let found := (semantic_scholar_phase SEMANTIC_SCHOLAR_API_KEY env tpc limit).1 in
  let asked := (semantic_scholar_phase SEMANTIC_SCHOLAR_API_KEY env tpc limit).2 in
  let needed := limit - Z.of_nat (length found) in
  let r := search_academic_papers_node SEMANTIC_SCHOLAR_API_KEY env state in
  Z.of_nat (length found) < limit ->
  r.2 = (asked ++ [ArxivQuery tpc (needed * 2)])%list
  /\ Forall (fun e => forall q n, e <> ArxivQuery q n) asked
  /\ default [] (u_papers_to_process r.1)
     = match arxiv env tpc (needed * 2) with
       | Some results => arxiv_collect limit results found
       | None => found
       end
  /\ (forall acc result, truthy_opt (ar_pdf_url result) = true ->
        ((exists p, p ∈ acc /\ same_title_prefix (default "" (title p)) (ar_title result))
           -> arxiv_step acc result = acc)
        /\ (~ (exists p, p ∈ acc
                 /\ same_title_prefix (default "" (title p)) (ar_title result))
           -> arxiv_step acc result = (acc ++ [arxiv_paper result])%list))
  /\ (forall acc results, limit <= Z.of_nat (length acc) ->
        arxiv_collect limit results acc = acc)
  /\ Z.of_nat (length (default [] (u_papers_to_process r.1))) <= limit
  /\ (limit = 3 -> length found = 2%nat -> ArxivQuery tpc 2 ∈ r.2).
Proof.
  intros Ht Htr limit found asked needed r Hlt.
  destruct (search_node_unfold SEMANTIC_SCHOLAR_API_KEY env state tpc Ht Htr)
    as [Hpapers Hcalls].
  fold limit in Hpapers, Hcalls. fold found in Hpapers, Hcalls.
  fold asked in Hcalls. fold r in Hpapers, Hcalls.
  assert (arxiv_phase env tpc limit found
          = (match arxiv env tpc (needed * 2) with
             | Some results => arxiv_collect limit results found
             | None => found
             end, [ArxivQuery tpc (needed * 2)])) as Hphase.
  { unfold arxiv_phase. apply Z.ltb_lt in Hlt. rewrite Hlt. fold needed.
    by destruct (arxiv env tpc (needed * 2)). }
  rewrite Hphase in Hpapers, Hcalls. simpl in Hpapers, Hcalls.
  split; [done |]. split.
  { unfold asked, semantic_scholar_phase.
    destruct (String.eqb _ _); simpl; [constructor |].
    destruct (semantic_scholar env tpc (limit * 2)); simpl; by repeat constructor. }
  split; [done |]. split.
  { intros acc result Hurl. unfold arxiv_step. rewrite Hurl. simpl.
    split; intros Hdup.
    - apply is_duplicate_spec in Hdup. by rewrite Hdup.
    - destruct (is_duplicate acc (ar_title result)) eqn:Hd; [| done].
      by apply is_duplicate_spec in Hd. }
  split; [intros; by apply arxiv_collect_stops |]. split.
  { rewrite Hpapers.
    assert (Z.of_nat (length found) <= Z.max 0 limit) as Hf by lia.
    destruct (arxiv env tpc (needed * 2)) as [results |]; [| lia].
    pose proof (arxiv_collect_length limit results found Hf). lia. }
  intros Hl3 Hf2. rewrite Hcalls. apply elem_of_app. right.
  unfold needed. rewrite Hl3, Hf2. simpl. left.
Qed.

Lemma secondary_provider_query_witness :
  let state := inputs "agents" 3 in
  let r := search_academic_papers_node "" two_then_arxiv state in
  topic state = Some "agents"
  /\ PyStr.truthy "agents" = true
  /\ Z.of_nat (length (semantic_scholar_phase "" two_then_arxiv "agents" 3).1) < 3
  /\ r.2 = [SemanticScholarQuery "agents" 6; ArxivQuery "agents" 2]
  /\ (title <$> default [] (u_papers_to_process r.1))
     = [Some "Graph Agents"; Some "Tool Use"; Some "Planning"].
Proof.
  intros state r.
  split; [reflexivity |]. split; [reflexivity |]. split; [vm_compute; reflexivity |].
  destruct (secondary_provider_query "" two_then_arxiv state "agents" eq_refl eq_refl)
    as (Hcalls & _ & Hpapers & _); [vm_compute; reflexivity |].
  split; [exact Hcalls |]. fold r in Hpapers. rewrite Hpapers. reflexivity.
Defined.

(** ** The papers the search returns *)

Lemma s2_fold_ids limit data : forall found,
  Forall has_id found -> Forall has_id (fold_left (s2_step limit) data found).
Proof.
  induction data as [| paper rest IH]; intros found H; simpl; [done |].
  apply IH. unfold s2_step.
  destruct (_ && _); [| done]. destruct (negb _); [| done].
  apply Forall_app. split; [done |]. by repeat constructor.
Qed.

Lemma arxiv_collect_ids limit results : forall found,
  Forall has_id found -> Forall has_id (arxiv_collect limit results found).
Proof.
  induction results as [| result rest IH]; intros found H; simpl; [done |].
  destruct (limit <=? _); [done |].
  apply IH. unfold arxiv_step. destruct (_ && _); [| done].
  apply Forall_app. split; [done |]. by repeat constructor.
Qed.

Lemma search_node_ids key env state :
  Forall has_id (default [] (u_papers_to_process (search_academic_papers_node key env state).1)).
Proof.
  destruct (truthy_opt (topic state)) eqn:Htr.
  - destruct (topic state) as [tpc |] eqn:Ht; [| done].
    destruct (search_node_unfold key env state tpc Ht Htr) as [-> _].
    unfold arxiv_phase, semantic_scholar_phase.
    set (limit := default 3 (paper_limit state)).
    assert (Forall has_id
              (if String.eqb key "YOUR_SEMANTIC_SCHOLAR_API_KEY" then ([], [])
               else match semantic_scholar env tpc (limit * 2) with
                    | Some data =>
                        (fold_left (s2_step limit) data [],
                         [SemanticScholarQuery tpc (limit * 2)])
                    | None => ([], [SemanticScholarQuery tpc (limit * 2)])
                    end).1) as H1.
    { destruct (String.eqb _ _); simpl; [constructor |].
      destruct (semantic_scholar _ _ _); simpl; [| constructor].
      apply s2_fold_ids. constructor. }
    destruct (_ <? limit); [| done].
    destruct (arxiv _ _ _); simpl; [| done]. by apply arxiv_collect_ids.
  - unfold search_academic_papers_node. rewrite Htr. simpl. constructor.
Qed.

(** The search node always returns both keys, and an error exactly when
    it returns no paper. *)
Lemma search_node_result key env state :
  exists l e,
    (search_academic_papers_node key env state).1
    = {| u_papers_to_process := Some l; u_parsed_papers := None;
         u_all_analyses := None; u_topic_overview := None;
         u_comparison_result := None; u_report_path := None; u_error := Some e |}
    /\ (l <> [] -> e = None).
Proof.
  unfold search_academic_papers_node.
  destruct (negb (truthy_opt (topic state))); [by eexists _, _ |].
  destruct (semantic_scholar_phase _ _ _ _) as [found1 ev1].
  destruct (arxiv_phase _ _ _ _) as [[| p found2] ev2]; by eexists _, _.
Qed.

(** ** The run *)

Lemma invoke_steps gk sk w s0 :
  let r := invoke gk sk w s0 in
  after_search r = apply_update s0 (search_academic_papers_node sk (search_env w) s0).1
  /\ after_download r
     = apply_update (after_search r)
         (download_and_parse_pdfs_node (download_env w) (disk w) (after_search r)).1
  /\ after_summarize r
     = apply_update (after_download r)
         (summarize_papers_node gk (summarize_env w) (after_download r)).1
  /\ after_compare r
     = apply_update (after_summarize r)
         (compare_analyses_node gk (compare_env w) (after_summarize r)).1
  /\ after_report r
     = apply_update (after_compare r)
         (generate_report_node (report_env w) (after_compare r)).1.
Proof.
  cbv zeta. unfold invoke.
  destruct (search_academic_papers_node _ _ _) as [u1 ev1] eqn:E1.
  destruct (download_and_parse_pdfs_node _ _ _) as [u2 st2] eqn:E2.
  destruct (summarize_papers_node _ _ _) as [u3 ev3] eqn:E3.
  destruct (compare_analyses_node _ _ _) as [u4 ev4] eqn:E4.
  destruct (generate_report_node _ _) as [u5 ev5] eqn:E5.
  cbn [after_search after_download after_summarize after_compare after_report fst].
  by rewrite E2, E3, E4, E5.
Qed.

Lemma download_node_shape env d state :
  exists e,
    (download_and_parse_pdfs_node env d state).1
    = parsed_update (extracted_from env 0 (default [] (papers_to_process state))) e.
Proof.
  pose proof (download_node_parsed env d state) as Hp. revert Hp.
  unfold download_and_parse_pdfs_node.
  destruct (negb (list_truthy (papers_to_process state)));
    [destruct (truthy_opt (error state)) |]; simpl; intros [= <-]; by eexists.
Qed.

(** What the summarizer returns: with no parsed paper, an empty list and
    the recorded error or its own; otherwise either the error key alone or
    the analyses, with the recorded error when there is an analysis. *)
Lemma summarize_node_cases gk env state :
  let u := (summarize_papers_node gk env state).1 in
  (list_truthy (parsed_papers state) = false ->
   u_all_analyses u = Some []
   /\ (truthy_opt (error state) = true -> u_error u = Some (error state)))
  /\ (list_truthy (parsed_papers state) = true ->
      u_all_analyses u = None
      \/ exists l, u_all_analyses u = Some l /\ (l <> [] -> u_error u = Some (error state))).
Proof.
  unfold summarize_papers_node. split; intros Hl; rewrite Hl; simpl.
  - by destruct (truthy_opt (error state)).
  - destruct (String.eqb gk _); [by left |].
    destruct (sum_configure env); [by left |]. right. simpl.
    eexists. split; [done |]. intros Hne.
    destruct (analyses _) as [| a l]; done.
Qed.

(** A recorded error goes through the comparator when there is no analysis. *)
Lemma compare_node_keeps_error gk env state :
  truthy_opt (error state) = true ->
  list_truthy (all_analyses state) = false ->
  u_error (compare_analyses_node gk env state).1 = Some (error state).
Proof.
  intros He Hl. unfold compare_analyses_node. by rewrite Hl, He.
Qed.

(** A recorded error goes through the report generator as it is. *)
Lemma report_node_keeps_error env state :
  truthy_opt (error state) = true ->
  u_error (generate_report_node env state).1 = Some (error state).
Proof.
  intros He. unfold generate_report_node, or_else. rewrite He.
  rewrite andb_false_r.
  destruct (negb (list_truthy (all_analyses state)) && true); [done |].
  by destruct (docx_outcome env).
Qed.

(** The states of a run: a collection that is not empty comes with an
    empty error slot. *)
Lemma run_invariants gk sk w tpc limit :
  let r := invoke gk sk w (inputs tpc limit) in
  (exists l,
      papers_to_process (after_search r) = Some l /\ Forall has_id l
      /\ (l <> [] -> error (after_search r) = None)
      /\ parsed_papers (after_download r) = Some (extracted_from (download_env w) 0 l))
  /\ (list_truthy (parsed_papers (after_download r)) = true ->
      error (after_download r) = None)
  /\ (list_truthy (all_analyses (after_summarize r)) = true ->
      error (after_summarize r) = None).
Proof.
  intros r. destruct (invoke_steps gk sk w (inputs tpc limit)) as (H1 & H2 & H3 & _).
  fold r in H1, H2, H3.
  destruct (search_node_result sk (search_env w) (inputs tpc limit)) as (l & e & Hu1 & He).
  pose proof (search_node_ids sk (search_env w) (inputs tpc limit)) as Hids.
  rewrite Hu1 in H1, Hids. simpl in H1, Hids.
  set (s1 := after_search r) in *. set (s2 := after_download r) in *.
  set (s3 := after_summarize r) in *.
  assert (papers_to_process s1 = Some l) as Hp1 by (by rewrite H1).
  assert (error s1 = e) as He1 by (by rewrite H1).
  assert (all_analyses s1 = None) as Ha1 by (by rewrite H1).
  destruct (download_node_shape (download_env w) (disk w) s1) as [e2 Hu2].
  rewrite Hp1 in Hu2. simpl in Hu2.
  assert (parsed_papers s2 = Some (extracted_from (download_env w) 0 l)) as Hp2
    by (by rewrite H2, Hu2).
  assert (all_analyses s2 = None) as Ha2 by (by rewrite H2, Hu2).
  assert (list_truthy (parsed_papers s2) = true -> error s2 = None) as He2.
  { rewrite Hp2. intros Hne.
    assert (extracted_from (download_env w) 0 l <> []) as Hex
      by (by destruct (extracted_from _ _ _)).
    pose proof (download_node_no_error (download_env w) (disk w) s1) as Hno.
    rewrite Hp1 in Hno. specialize (Hno Hex).
    rewrite H2. unfold apply_update. cbn [error]. rewrite Hno. simpl.
    rewrite He1. apply He. intros ->. by apply Hex. }
  split.
  { exists l. repeat split; try done. intros Hl. rewrite He1. by apply He. }
  split; [done |].
  intros Hne. destruct (summarize_node_cases gk (summarize_env w) s2) as [Hempty Hfull].
  rewrite H3 in Hne |- *. unfold apply_update in *. cbn [all_analyses error] in *.
  destruct (list_truthy (parsed_papers s2)) eqn:Hl2.
  - destruct (Hfull eq_refl) as [Hnone | (la & Hsome & Herr)].
    + by rewrite Hnone, Ha2 in Hne.
    + rewrite Hsome in Hne. simpl in Hne.
      rewrite Herr by (by destruct la). simpl. by apply He2.
  - destruct (Hempty eq_refl) as [Hnil _]. by rewrite Hnil in Hne.
Qed.

Lemma error_after_update (s : ResearchState) (u : Update) :
  u_error u = Some (error s) -> error (apply_update s u) = error s.
Proof. intros H. unfold apply_update. cbn [error]. by rewrite H. Qed.

(** C1. In every run, a stage that finds an error recorded returns it as
    it is: this holds for the download, the summarizer, the comparator and
    the report generator in turn, so the error recorded first is the one
    at the end of the run.  The download agent and the report generator
    do so in any state, and the summarizer and the comparator whenever
    the list they read is empty, which is the case in a run once an error
    is recorded; a stage writes a message of its own only when it finds
    the error slot empty. *)
Theorem first_error_wins (GEMINI_API_KEY SEMANTIC_SCHOLAR_API_KEY : string) (w : World)
    (tpc : string) (limit : Z) :
  let r := invoke GEMINI_API_KEY SEMANTIC_SCHOLAR_API_KEY w (inputs tpc limit) in
  (truthy_opt (error (after_search r)) = true ->
   error (after_download r) = error (after_search r))
  /\ (truthy_opt (error (after_download r)) = true ->
      error (after_summarize r) = error (after_download r))
  /\ (truthy_opt (error (after_summarize r)) = true ->
      error (after_compare r) = error (after_summarize r))
  /\ (truthy_opt (error (after_compare r)) = true ->
      error (after_report r) = error (after_compare r))
  /\ (forall env d state, truthy_opt (error state) = true ->
        u_error (download_and_parse_pdfs_node env d state).1 = Some (error state))
  /\ (forall env state, truthy_opt (error state) = true ->
        list_truthy (parsed_papers state) = false ->
        u_error (summarize_papers_node GEMINI_API_KEY env state).1 = Some (error state))
  /\ (forall env state, truthy_opt (error state) = true ->
        list_truthy (all_analyses state) = false ->
        u_error (compare_analyses_node GEMINI_API_KEY env state).1 = Some (error state))
  /\ (forall env state, truthy_opt (error state) = true ->
        u_error (generate_report_node env state).1 = Some (error state)).
Proof.
  intros r.
  destruct (invoke_steps GEMINI_API_KEY SEMANTIC_SCHOLAR_API_KEY w (inputs tpc limit))
    as (_ & H2 & H3 & H4 & H5).
  destruct (run_invariants GEMINI_API_KEY SEMANTIC_SCHOLAR_API_KEY w tpc limit)
    as (_ & I2 & I3).
  fold r in H2, H3, H4, H5, I2, I3.
  assert (forall env state, truthy_opt (error state) = true ->
            list_truthy (parsed_papers state) = false ->
            u_error (summarize_papers_node GEMINI_API_KEY env state).1
            = Some (error state)) as Hsum.
  { intros env state He Hl.
    destruct (summarize_node_cases GEMINI_API_KEY env state) as [Hempty _].
    by apply Hempty. }
  repeat split.
  - intros He. rewrite H2. by apply error_after_update, download_node_keeps_error.
  - intros He. rewrite H3. apply error_after_update, Hsum; [done |].
    destruct (list_truthy (parsed_papers (after_download r))); [| done].
    by rewrite I2 in He.
  - intros He. rewrite H4. apply error_after_update, compare_node_keeps_error; [done |].
    destruct (list_truthy (all_analyses (after_summarize r))); [| done].
    by rewrite I3 in He.
  - intros He. rewrite H5. by apply error_after_update, report_node_keeps_error.
  - intros. by apply download_node_keeps_error.
  - done.
  - intros. by apply compare_node_keeps_error.
  - intros. by apply report_node_keeps_error.
Qed.

Lemma first_error_wins_witness :
  let r := invoke "" "" downloads_fail (inputs "agents" 3) in
  error (after_search r) = None
  /\ error (after_download r) = Some "Failed to download or parse any valid PDFs."
  /\ truthy_opt (error (after_download r)) = true
  /\ error (after_report r) = Some "Failed to download or parse any valid PDFs.".
Proof.
  intros r.
  assert (error (after_download r) = Some "Failed to download or parse any valid PDFs.")
    as Hd by (vm_compute; reflexivity).
  split; [vm_compute; reflexivity |]. split; [exact Hd |].
  split; [by rewrite Hd |].
  destruct (first_error_wins "" "" downloads_fail "agents" 3) as (_ & H3 & H4 & H5 & _).
  fold r in H3, H4, H5.
  rewrite H5, H4, H3; rewrite ?H4, ?H3, ?Hd; reflexivity.
Defined.

(** C2. The download agent returns, of the papers it is given, those that
    yield a text, in the order in which it is given them: the identifiers
    of the extracted papers are a sublist of the identifiers of the papers
    to process, and every extracted paper has the identifier of one of
    them.  In a run, the [paperId] entries of [parsed_papers] are a sublist
    of those of [papers_to_process]. *)
Theorem extracted_subset_in_order :
  (forall (env : DownloadEnv) (d : gset string) (state : ResearchState),
      let papers := default [] (papers_to_process state) in
      let out := default [] (u_parsed_papers
                               (download_and_parse_pdfs_node env d state).1) in
      sublist (paper_id_of <$> out) (paper_id_of <$> papers)
      /\ Forall (fun q => exists p, p ∈ papers /\ paperId q = Some (paper_id_of p)) out)
  /\ (forall (GEMINI_API_KEY SEMANTIC_SCHOLAR_API_KEY : string) (w : World)
        (tpc : string) (limit : Z),
        let r := invoke GEMINI_API_KEY SEMANTIC_SCHOLAR_API_KEY w (inputs tpc limit) in
        sublist (paperId <$> default [] (parsed_papers (after_download r)))
                (paperId <$> default [] (papers_to_process (after_search r)))).
Proof.
  split.
  - intros env d state papers out. unfold out.
    rewrite download_node_parsed. simpl. fold papers.
    split; [apply extracted_from_sublist | apply extracted_from_origin].
  - intros gk sk w tpc limit r.
    destruct (run_invariants gk sk w tpc limit) as ((l & Hp & Hids & _ & Hx) & _).
    fold r in Hp, Hx. rewrite Hp, Hx. simpl.
    rewrite (paperId_fmap l) by done.
    rewrite paperId_fmap by apply extracted_from_has_id.
    apply fmap_sublist, extracted_from_sublist.
Qed.

(** * Further properties *)

(** ** Search agent: the papers collected *)

Lemma id_known_spec (found : list Item) (paper_id : string) :
  PyStr.truthy paper_id = true ->
  (id_known found paper_id = true <-> Some paper_id ∈ paperId <$> found).
Proof.
  intros Hid. unfold id_known. rewrite existsb_exists. split.
  - intros (p & Hin & Hp). apply andb_true_iff in Hp as [_ Hp].
    apply bool_decide_eq_true in Hp. rewrite <- Hp.
    apply list_elem_of_fmap. exists p. split; [done |]. by apply list_elem_of_In.
  - intros (p & Hp & Hin)%list_elem_of_fmap. exists p.
    split; [by apply list_elem_of_In |].
    rewrite <- Hp. simpl. rewrite Hid. simpl. by apply bool_decide_eq_true.
Qed.

Lemma s2_fold_nodup limit data : forall found,
  NoDup (paperId <$> found) ->
  NoDup (paperId <$> fold_left (s2_step limit) data found).
Proof.
  induction data as [| paper rest IH]; intros found Hnd; simpl; [done |].
  apply IH. unfold s2_step.
  destruct (truthy_opt (s2_paperId paper)) eqn:Hid; simpl; [| done].
  destruct (truthy_opt (s2_title paper) && truthy_opt (s2_pdf_url paper)
            && (Z.of_nat (length found) <? limit)); [| done].
  destruct (id_known found (default "" (s2_paperId paper))) eqn:Hk; simpl; [done |].
  rewrite fmap_app. simpl. apply NoDup_app. split; [done |].
  split; [| apply NoDup_singleton].
  intros x Hx ->%list_elem_of_singleton.
  destruct (s2_paperId paper) as [paper_id |]; [| done]. simpl in *.
  apply (id_known_spec found paper_id Hid) in Hx. by rewrite Hx in Hk.
Qed.

(** X1. The loop over the Semantic Scholar data never collects the same
    [paperId] twice, whatever the provider answers. *)
Theorem primary_ids_distinct (SEMANTIC_SCHOLAR_API_KEY : string) (env : SearchEnv)
    (tpc : string) (limit : Z) :
  NoDup (paperId <$> (semantic_scholar_phase SEMANTIC_SCHOLAR_API_KEY env tpc limit).1).
Proof.
  unfold semantic_scholar_phase.
  destruct (String.eqb _ _); simpl; [constructor |].
  destruct (semantic_scholar env tpc (limit * 2)); simpl; [| constructor].
  apply s2_fold_nodup. constructor.
Qed.

Lemma s2_fold_linked limit data : forall found,
  Forall linked found -> Forall linked (fold_left (s2_step limit) data found).
Proof.
  induction data as [| paper rest IH]; intros found H; simpl; [done |].
  apply IH. unfold s2_step.
  destruct (truthy_opt (s2_paperId paper)) eqn:Hid; simpl; [| done].
  destruct (truthy_opt (s2_title paper)) eqn:Ht; simpl; [| done].
  destruct (truthy_opt (s2_pdf_url paper)) eqn:Hu; simpl; [| done].
  destruct (_ <? limit); [| done]. destruct (negb _); [| done].
  apply Forall_app. split; [done |]. constructor; [| constructor].
  unfold linked. simpl.
  destruct (s2_paperId paper); [| done].
  destruct (s2_pdf_url paper); [| done]. by eauto.
Qed.

Lemma arxiv_collect_linked limit results : forall found,
  Forall linked found -> Forall linked (arxiv_collect limit results found).
Proof.
  induction results as [| result rest IH]; intros found H; simpl; [done |].
  destruct (limit <=? _); [done |].
  apply IH. unfold arxiv_step.
  destruct (truthy_opt (ar_pdf_url result)) eqn:Hu; simpl; [| done].
  destruct (negb _); [| done].
  apply Forall_app. split; [done |]. constructor; [| constructor].
  unfold linked. simpl. destruct (ar_pdf_url result); [| done]. by eauto.
Qed.

Lemma search_phases_linked key env tpc limit :
  Forall linked
    (arxiv_phase env tpc limit (semantic_scholar_phase key env tpc limit).1).1.
Proof.
  assert (Forall linked (semantic_scholar_phase key env tpc limit).1) as H1.
  { unfold semantic_scholar_phase.
    destruct (String.eqb _ _); simpl; [constructor |].
    destruct (semantic_scholar _ _ _); simpl; [| constructor].
    apply s2_fold_linked. constructor. }
  unfold arxiv_phase. destruct (_ <? limit); [| done].
  destruct (arxiv _ _ _); simpl; [| done]. by apply arxiv_collect_linked.
Qed.

(** X2. Every paper the search node returns has a non-empty identifier, a
    title, and a non-empty link: a candidate without a link is never
    returned. *)
Theorem search_returns_linked_papers (SEMANTIC_SCHOLAR_API_KEY : string)
    (env : SearchEnv) (state : ResearchState) :
  Forall linked
    (default [] (u_papers_to_process
                   (search_academic_papers_node SEMANTIC_SCHOLAR_API_KEY env state).1)).
Proof.
  destruct (truthy_opt (topic state)) eqn:Htr.
  - destruct (topic state) as [tpc |] eqn:Ht; [| done].
    destruct (search_node_unfold SEMANTIC_SCHOLAR_API_KEY env state tpc Ht Htr)
      as [-> _].
    apply search_phases_linked.
  - unfold search_academic_papers_node. rewrite Htr. simpl. constructor.
Qed.

(** X3. The search node never returns more papers than the target (none
    when the target is zero or negative), whatever the providers answer. *)
Theorem search_respects_limit (SEMANTIC_SCHOLAR_API_KEY : string) (env : SearchEnv)
    (state : ResearchState) :
  Z.of_nat (length (default [] (u_papers_to_process
              (search_academic_papers_node SEMANTIC_SCHOLAR_API_KEY env state).1)))
  <= Z.max 0 (default 3 (paper_limit state)).
Proof.
  destruct (truthy_opt (topic state)) eqn:Htr.
  - destruct (topic state) as [tpc |] eqn:Ht; [| done].
    destruct (search_node_unfold SEMANTIC_SCHOLAR_API_KEY env state tpc Ht Htr)
      as [-> _].
    set (limit := default 3 (paper_limit state)).
    pose proof (semantic_scholar_phase_length SEMANTIC_SCHOLAR_API_KEY env tpc limit)
      as H1.
    unfold arxiv_phase. destruct (_ <? limit); [| done].
    destruct (arxiv _ _ _); simpl; [| done]. by apply arxiv_collect_length.
  - unfold search_academic_papers_node. rewrite Htr. simpl. lia.
Qed.

(** X4. With a target of zero or less and a topic, the search node asks
    arXiv nothing, returns no paper and records that no paper was found. *)
Theorem search_with_no_target (SEMANTIC_SCHOLAR_API_KEY : string) (env : SearchEnv)
    (state : ResearchState) (tpc : string) :
  topic state = Some tpc ->
  PyStr.truthy tpc = true ->
  default 3 (paper_limit state) <= 0 ->
  let r := search_academic_papers_node SEMANTIC_SCHOLAR_API_KEY env state in
  u_papers_to_process r.1 = Some []
  /\ u_error r.1 = Some (Some "No papers with PDF links found")
  /\ Forall (fun e => forall q n, e <> ArxivQuery q n) r.2.
Proof.
  intros Ht Htr Hlim r.
  destruct (search_node_unfold SEMANTIC_SCHOLAR_API_KEY env state tpc Ht Htr)
    as [Hp Hc].
  fold r in Hp, Hc.
  set (limit := default 3 (paper_limit state)) in *.
  pose proof (semantic_scholar_phase_length SEMANTIC_SCHOLAR_API_KEY env tpc limit)
    as H1.
  assert (arxiv_phase env tpc limit
            (semantic_scholar_phase SEMANTIC_SCHOLAR_API_KEY env tpc limit).1
          = ((semantic_scholar_phase SEMANTIC_SCHOLAR_API_KEY env tpc limit).1, []))
    as Hphase.
  { unfold arxiv_phase. destruct (_ <? limit) eqn:Hlt; [lia | done]. }
  rewrite Hphase in Hp, Hc. simpl in Hp, Hc. rewrite app_nil_r in Hc.
  destruct (semantic_scholar_phase SEMANTIC_SCHOLAR_API_KEY env tpc limit)
    as [[| p found] asked] eqn:Hs; simpl in *; [| lia].
  assert (Forall (fun e => forall q n, e <> ArxivQuery q n) asked) as Hasked.
  { revert Hs. unfold semantic_scholar_phase.
    destruct (String.eqb _ _); [intros [= <-]; constructor |].
    destruct (semantic_scholar env tpc (limit * 2));
      [intros [= _ <-] | intros [= <-]]; by repeat constructor. }
  rewrite Hc. split; [| split; [| done]].
  - unfold r, search_academic_papers_node. rewrite Ht. simpl. rewrite Htr. simpl.
    fold limit. rewrite Hs. cbv beta iota. by rewrite Hphase.
  - unfold r, search_academic_papers_node. rewrite Ht. simpl. rewrite Htr. simpl.
    fold limit. rewrite Hs. cbv beta iota. by rewrite Hphase.
Qed.

Lemma search_with_no_target_witness :
  topic (inputs "agents" 0) = Some "agents"
  /\ PyStr.truthy "agents" = true
  /\ default 3 (paper_limit (inputs "agents" 0)) <= 0
  /\ (search_academic_papers_node "" two_then_arxiv (inputs "agents" 0)).2
     = [SemanticScholarQuery "agents" 0]
  /\ u_papers_to_process (search_academic_papers_node "" two_then_arxiv
                            (inputs "agents" 0)).1 = Some [].
Proof.
  split; [reflexivity |]. split; [reflexivity |]. split; [simpl; lia |].
  split; [reflexivity |].
  apply (search_with_no_target "" two_then_arxiv (inputs "agents" 0) "agents");
    [reflexivity | reflexivity | simpl; lia].
Defined.

(** X5. When Semantic Scholar raises, or its key is the placeholder, the
    search goes on as if it had found nothing: arXiv is asked for twice
    the target and what the node returns is what the arXiv loop collects
    from an empty list. *)
Theorem search_falls_back_to_arxiv (SEMANTIC_SCHOLAR_API_KEY : string) (env : SearchEnv)
    (state : ResearchState) (tpc : string) :
  topic state = Some tpc ->
  PyStr.truthy tpc = true ->
  let limit := default 3 (paper_limit state) in
  0 < limit ->
  SEMANTIC_SCHOLAR_API_KEY = "YOUR_SEMANTIC_SCHOLAR_API_KEY"
  \/ semantic_scholar env tpc (limit * 2) = None ->
  let r := search_academic_papers_node SEMANTIC_SCHOLAR_API_KEY env state in
  default [] (u_papers_to_process r.1)
  = match arxiv env tpc (limit * 2) with
    | Some results => arxiv_collect limit results []
    | None => []
    end
  /\ ArxivQuery tpc (limit * 2) ∈ r.2.
Proof.
  intros Ht Htr limit Hlim Hdown r.
  destruct (search_node_unfold SEMANTIC_SCHOLAR_API_KEY env state tpc Ht Htr)
    as [Hp Hc].
  fold r in Hp, Hc. fold limit in Hp, Hc.
  assert ((semantic_scholar_phase SEMANTIC_SCHOLAR_API_KEY env tpc limit).1 = [])
    as Hs.
  { unfold semantic_scholar_phase. destruct Hdown as [-> | Hnone].
    - by rewrite String.eqb_refl.
    - destruct (String.eqb _ _); [done |]. by rewrite Hnone. }
  assert (arxiv_phase env tpc limit []
          = (match arxiv env tpc (limit * 2) with
             | Some results => arxiv_collect limit results []
             | None => []
             end, [ArxivQuery tpc (limit * 2)])) as Hphase.
  { unfold arxiv_phase. change (Z.of_nat (length (@nil Item))) with 0.
    replace (limit - 0) with limit by lia.
    destruct (0 <? limit) eqn:Hlt; [| lia].
    by destruct (arxiv env tpc (limit * 2)). }
  rewrite Hs, Hphase in Hp, Hc. simpl in Hp, Hc. rewrite Hp, Hc.
  split; [done | apply elem_of_app; right; left].
Qed.

Lemma search_falls_back_to_arxiv_witness :
  topic (inputs "agents" 3) = Some "agents"
  /\ PyStr.truthy "agents" = true
  /\ 0 < default 3 (paper_limit (inputs "agents" 3))
  /\ semantic_scholar primary_down "agents" (3 * 2) = None
  /\ (title <$> default [] (u_papers_to_process
                 (search_academic_papers_node "" primary_down (inputs "agents" 3)).1))
     = [Some "GRAPH AGENTS"; Some "Planning"].
Proof.
  split; [reflexivity |]. split; [reflexivity |]. split; [simpl; lia |].
  split; [reflexivity |].
  destruct (search_falls_back_to_arxiv "" primary_down (inputs "agents" 3) "agents")
    as [Hp _]; [reflexivity | reflexivity | simpl; lia | right; reflexivity |].
  rewrite Hp. reflexivity.
Defined.

(** X6. The search node returns an error exactly when it returns no paper:
    with papers the error slot is reset to [None], without papers it holds
    one of two messages.  Without a topic no provider is asked. *)
Theorem search_error_iff_no_paper (SEMANTIC_SCHOLAR_API_KEY : string) (env : SearchEnv)
    (state : ResearchState) :
  let r := search_academic_papers_node SEMANTIC_SCHOLAR_API_KEY env state in
  (exists l, u_papers_to_process r.1 = Some l
     /\ (l = [] /\ (u_error r.1 = Some (Some "Topic missing")
                    \/ u_error r.1 = Some (Some "No papers with PDF links found"))
         \/ l <> [] /\ u_error r.1 = Some None))
  /\ (truthy_opt (topic state) = false ->
      r.2 = [] /\ u_error r.1 = Some (Some "Topic missing")).
Proof.
  intros r. unfold r, search_academic_papers_node.
  destruct (truthy_opt (topic state)); simpl.
  - split; [| done].
    destruct (semantic_scholar_phase _ _ _ _) as [found1 ev1].
    destruct (arxiv_phase _ _ _ _) as [[| p found2] ev2]; simpl;
      eexists; (split; [done |]); [left | right]; by auto.
  - split; [| done]. exists []. split; [done |]. left. by auto.
Qed.

(** What the arXiv loop adds comes after what was there, in the order of
    the results, and no added paper repeats the title prefix of a paper
    before it. *)
Lemma arxiv_collect_adds limit results : forall found,
  exists extra,
    arxiv_collect limit results found = (found ++ extra)%list
    /\ sublist extra (arxiv_paper <$> results)
    /\ (forall before x after, extra = (before ++ x :: after)%list ->
        forall p, p ∈ (found ++ before)%list ->
        ~ same_title_prefix (default "" (title p)) (default "" (title x))).
Proof.
  induction results as [| result rest IH]; intros found; simpl.
  { exists []. rewrite app_nil_r. split; [done |]. split; [constructor |].
    intros [| ? ?] ? ? ?; discriminate. }
  destruct (limit <=? Z.of_nat (length found)).
  { exists []. rewrite app_nil_r. split; [done |].
    split; [apply sublist_nil_l |]. intros [| ? ?] ? ? ?; discriminate. }
  unfold arxiv_step.
  destruct (truthy_opt (ar_pdf_url result) && negb (is_duplicate found (ar_title result)))
    eqn:Hadd.
  - destruct (IH (found ++ [arxiv_paper result])%list) as (extra & Heq & Hsub & Hnew).
    exists (arxiv_paper result :: extra). rewrite Heq, <- app_assoc. simpl.
    split; [done |]. split; [by apply sublist_skip |].
    intros before x after Hsplit p Hp.
    destruct before as [| b before]; simpl in Hsplit; injection Hsplit as <- ->.
    + rewrite app_nil_r in Hp. simpl.
      apply andb_true_iff in Hadd as [_ Hnd]. apply negb_true_iff in Hnd.
      intros Hsame. assert (is_duplicate found (ar_title result) = true) as Hd
        by (apply is_duplicate_spec; eauto).
      by rewrite Hd in Hnd.
    + apply (Hnew before x after eq_refl). by rewrite <- app_assoc.
  - destruct (IH found) as (extra & Heq & Hsub & Hnew).
    exists extra. split; [done |]. split; [by apply sublist_cons | done].
Qed.

(** X7. The papers from Semantic Scholar come first, in the order in which
    they were collected, and the papers taken from arXiv follow them in
    the order of the arXiv results. *)
Theorem search_keeps_provider_order (SEMANTIC_SCHOLAR_API_KEY : string)
    (env : SearchEnv) (state : ResearchState) (tpc : string) :
  topic state = Some tpc ->
  PyStr.truthy tpc = true ->
  let limit := default 3 (paper_limit state) in
  let found := (semantic_scholar_phase SEMANTIC_SCHOLAR_API_KEY env tpc limit).1 in
  let papers :=
    default [] (u_papers_to_process
                  (search_academic_papers_node SEMANTIC_SCHOLAR_API_KEY env state).1) in
  exists extra,
    papers = (found ++ extra)%list
    /\ sublist extra
         (arxiv_paper <$> default [] (arxiv env tpc ((limit - Z.of_nat (length found)) * 2))).
Proof.
  intros Ht Htr limit found papers.
  destruct (search_node_unfold SEMANTIC_SCHOLAR_API_KEY env state tpc Ht Htr)
    as [Hp _].
  fold limit in Hp. fold found in Hp. fold papers in Hp. rewrite Hp.
  unfold arxiv_phase. destruct (_ <? limit).
  - destruct (arxiv env tpc _) as [results |]; simpl.
    + destruct (arxiv_collect_adds limit results found) as (extra & Heq & Hsub & _).
      by exists extra.
    + exists []. rewrite app_nil_r. split; [done | constructor].
  - exists []. simpl. rewrite app_nil_r. split; [done | apply sublist_nil_l].
Qed.

Lemma search_keeps_provider_order_witness :
  topic (inputs "agents" 3) = Some "agents"
  /\ PyStr.truthy "agents" = true
  /\ exists extra,
       default [] (u_papers_to_process
                     (search_academic_papers_node "" two_then_arxiv (inputs "agents" 3)).1)
       = ((semantic_scholar_phase "" two_then_arxiv "agents" 3).1 ++ extra)%list.
Proof.
  split; [reflexivity |]. split; [reflexivity |].
  destruct (search_keeps_provider_order "" two_then_arxiv (inputs "agents" 3) "agents"
              eq_refl eq_refl) as (extra & Heq & _).
  exists extra. exact Heq.
Defined.

(** X8. No paper taken from arXiv has the same lower-cased 50-character
    title prefix as a paper that precedes it in the returned list, be it
    from Semantic Scholar or from arXiv. *)
Theorem arxiv_additions_have_new_titles (SEMANTIC_SCHOLAR_API_KEY : string)
    (env : SearchEnv) (state : ResearchState) (tpc : string)
    (before after : list Item) (x : Item) :
  topic state = Some tpc ->
  PyStr.truthy tpc = true ->
  let limit := default 3 (paper_limit state) in
  let found := (semantic_scholar_phase SEMANTIC_SCHOLAR_API_KEY env tpc limit).1 in
  default [] (u_papers_to_process
                (search_academic_papers_node SEMANTIC_SCHOLAR_API_KEY env state).1)
  = (before ++ x :: after)%list ->
  (length found <= length before)%nat ->
  forall p, p ∈ before ->
  ~ same_title_prefix (default "" (title p)) (default "" (title x)).
Proof.
  intros Ht Htr limit found Hsplit Hlen p Hp.
  destruct (search_node_unfold SEMANTIC_SCHOLAR_API_KEY env state tpc Ht Htr)
    as [Hpapers _].
  fold limit in Hpapers. fold found in Hpapers. rewrite Hsplit in Hpapers.
  assert (exists extra,
            (arxiv_phase env tpc limit found).1 = (found ++ extra)%list
            /\ (forall b y a, extra = (b ++ y :: a)%list ->
                forall q, q ∈ (found ++ b)%list ->
                ~ same_title_prefix (default "" (title q)) (default "" (title y))))
    as (extra & Heq & Hnew).
  { unfold arxiv_phase. destruct (_ <? limit).
    - destruct (arxiv env tpc _) as [results |]; simpl.
      + destruct (arxiv_collect_adds limit results found) as (extra & ? & _ & ?).
        by exists extra.
      + exists []. rewrite app_nil_r. split; [done |].
        intros [| ? ?] ? ? ?; discriminate.
    - exists []. simpl. rewrite app_nil_r. split; [done |].
      intros [| ? ?] ? ? ?; discriminate. }
  rewrite Heq in Hpapers.
  assert (before = (found ++ drop (length found) before)%list
          /\ extra = (drop (length found) before ++ x :: after)%list) as [Hb He].
  { assert (take (length found) before = found) as Htake.
    { apply (f_equal (take (length found))) in Hpapers.
      rewrite take_app_le in Hpapers by done. by rewrite take_app_length in Hpapers. }
    split; [by rewrite <- Htake at 1; rewrite take_drop |].
    apply (f_equal (drop (length found))) in Hpapers.
    rewrite drop_app_le in Hpapers by done. by rewrite drop_app_length in Hpapers. }
  apply (Hnew _ _ _ He). by rewrite <- Hb.
Qed.

Lemma arxiv_additions_have_new_titles_witness :
  let r := search_academic_papers_node "" two_then_arxiv (inputs "agents" 3) in
  let a := mk_paper "a" "Graph Agents" "https://x/a" in
  let b := mk_paper "b" "Tool Use" "https://x/b" in
  let c := mk_paper "arXiv:2" "Planning" "https://arxiv.org/pdf/2" in
  default [] (u_papers_to_process r.1) = ([a; b] ++ c :: [])%list
  /\ ~ same_title_prefix (default "" (title a)) (default "" (title c)).
Proof.
  intros r a b c.
  assert (default [] (u_papers_to_process r.1) = ([a; b] ++ c :: [])%list) as Heq
    by (vm_compute; reflexivity).
  split; [exact Heq |].
  apply (arxiv_additions_have_new_titles "" two_then_arxiv (inputs "agents" 3) "agents"
           [a; b] [] c eq_refl eq_refl Heq);
    [vm_compute; lia | left].
Defined.

(** ** Download and parse agent: further properties *)

Lemma extracted_accounted env papers : forall i,
  Z.of_nat (length (extracted_from env i papers)) + failures_from env i papers
  = Z.of_nat (length papers).
Proof.
  induction papers as [| paper rest IH]; intros i; simpl; [done |].
  rewrite length_app. specialize (IH (S i)).
  pose proof (extracted_short env i paper).
  destruct (extracted env i paper) as [| q l]; simpl in *; lia.
Qed.

(** X9. Every paper given to the download agent is accounted for once: it
    is either among the extracted papers or counted as a failure. *)
Theorem download_accounts_for_every_paper (env : DownloadEnv) (d : gset string)
    (state : ResearchState) (papers : list Item) :
  papers_to_process state = Some papers ->
  papers <> [] ->
  let st := (download_and_parse_pdfs_node env d state).2 in
  Z.of_nat (length (parsed st)) + failed_count st = Z.of_nat (length papers).
Proof.
  intros Hp Hne st. unfold st, download_and_parse_pdfs_node. rewrite Hp.
  destruct papers as [| paper rest]; [done |].
  change (list_truthy (Some (paper :: rest))) with true.
  cbv beta iota. change (negb true) with false. cbv beta iota.
  change (default [] (Some (paper :: rest))) with (paper :: rest).
  cbn [snd]. rewrite download_loop_parsed, download_loop_failed.
  pose proof (extracted_accounted env (paper :: rest) 0). simpl in *. lia.
Qed.

Lemma download_accounts_for_every_paper_witness :
  let papers := [mk_paper "id1" "T1" "u1"; mk_paper "id2" "T2" "u2";
                 mk_paper "id3" "T3" "u3"] in
  let st := (download_and_parse_pdfs_node second_fails ∅ (state_of_papers papers None)).2 in
  length (parsed st) = 2%nat /\ failed_count st = 1
  /\ Z.of_nat (length (parsed st)) + failed_count st = 3.
Proof.
  intros papers st.
  pose proof (download_accounts_for_every_paper second_fails ∅
                (state_of_papers papers None) papers eq_refl ltac:(discriminate)) as H.
  fold st in H. split; [reflexivity |]. split; [reflexivity | exact H].
Defined.

(** X10. An extracted paper carries its identifier, its title and a text
    that is not empty, and no link: the [pdf_url] of the paper is not
    copied into [parsed_papers]. *)
Theorem extracted_papers_have_text (env : DownloadEnv) (d : gset string)
    (state : ResearchState) :
  Forall (fun q => is_Some (paperId q) /\ is_Some (title q)
                   /\ truthy_opt (text q) = true /\ pdf_url q = None)
    (default [] (u_parsed_papers (download_and_parse_pdfs_node env d state).1)).
Proof.
  rewrite download_node_parsed. simpl.
  generalize 0%nat. induction (default [] (papers_to_process state)) as [| p l IH];
    intros i; simpl; [constructor |].
  apply Forall_app. split; [| apply IH].
  unfold extracted. destruct (truthy_opt (pdf_url p)); [| constructor].
  destruct (item_outcome env i); try constructor.
  destruct (PyStr.truthy (full_text texts)) eqn:Ht; repeat constructor; eauto.
Qed.

(** X11. The error the download agent returns: a recorded error as it is;
    else its own message for an empty list; else its own message when no
    paper gave a text; else the empty slot it found. *)
Theorem download_error_cases (env : DownloadEnv) (d : gset string)
    (state : ResearchState) :
  u_error (download_and_parse_pdfs_node env d state).1
  = Some (if truthy_opt (error state) then error state
          else if negb (list_truthy (papers_to_process state))
               then Some "Search Agent found no processable papers."
               else match extracted_from env 0 (default [] (papers_to_process state)) with
                    | [] => Some "Failed to download or parse any valid PDFs."
                    | _ => error state
                    end).
Proof.
  unfold download_and_parse_pdfs_node.
  destruct (papers_to_process state) as [[| paper rest] |]; simpl;
    try (by destruct (truthy_opt (error state))).
  rewrite download_loop_parsed, process_paper_parsed. simpl.
  destruct (extracted env 0 paper ++ extracted_from env 1 rest)%list; simpl;
    by destruct (truthy_opt (error state)).
Qed.

(** The text of a document is empty exactly when no page gave a text, so
    a document of image-only pages counts as a failure. *)
Lemma full_text_empty_iff (texts : list (option string)) :
  PyStr.truthy (full_text texts) = false
  <-> Forall (fun page_text => truthy_opt page_text = false) texts.
Proof.
  induction texts as [| page_text rest IH]; simpl.
  - split; [constructor | done].
  - destruct (truthy_opt page_text) eqn:Hp.
    + split.
      * destruct page_text as [[| c s] |]; simpl in *; done.
      * intros H. inversion H; congruence.
    + change ("" ++ full_text rest) with (full_text rest). rewrite IH. split.
      * intros H. by constructor.
      * intros H. by inversion H.
Qed.

(** ** Download and parse agent: the name of the transient file *)

Section FileName.

Local Arguments String.append : simpl nomatch.
Local Open Scope nat_scope.

Lemma str_length_app (a b : string) :
  String.length (a ++ b) = String.length a + String.length b.
Proof. induction a as [| c a IH]; simpl; [done | by rewrite IH]. Qed.

Lemma take_length_le n : forall s, String.length (PyStr.take n s) <= n.
Proof.
  induction n as [| n IH]; intros [| c s]; simpl; try lia.
  specialize (IH s). lia.
Qed.

Lemma safe_chars_length s : String.length (safe_chars s) = String.length s.
Proof. induction s as [| c s IH]; simpl; [done | by rewrite IH]. Qed.

Lemma replace_colon_step c s :
  PyStr.replace_aux ":" "_" 0 (String c s)
  = String (if ascii_dec ":" c then "_"%char else c) (PyStr.replace_aux ":" "_" 0 s).
Proof.
  cbn -[ascii_dec]. unfold PyStr.startswith. cbn -[ascii_dec].
  destruct (ascii_dec ":" c); [by destruct s | done].
Qed.

Lemma replace_colon_length s :
  String.length (PyStr.replace ":" "_" s) = String.length s.
Proof.
  unfold PyStr.replace. induction s as [| c s IH]; [done |].
  rewrite replace_colon_step. cbn -[ascii_dec]. by rewrite IH.
Qed.

Lemma has_char_app c a b : has_char c (a ++ b) <-> has_char c a \/ has_char c b.
Proof.
  unfold has_char. induction a as [| x a IH]; simpl; [tauto |].
  rewrite IH. tauto.
Qed.

Lemma has_char_take c n : forall s, has_char c (PyStr.take n s) -> has_char c s.
Proof.
  unfold has_char. induction n as [| n IH]; intros [| x s]; simpl; try tauto.
  intros [-> | H]; [by left | right; by apply IH].
Qed.

Lemma has_char_safe c s :
  has_char c (safe_chars s) -> PyStr.isalnum c = true \/ c = "_"%char.
Proof.
  unfold has_char. induction s as [| x s IH]; simpl; [tauto |].
  intros [<- | H]; [| by apply IH].
  destruct (PyStr.isalnum x) eqn:Hx; [by left | by right].
Qed.

Lemma has_char_replace_colon c s :
  has_char c (PyStr.replace ":" "_" s) -> has_char c s \/ c = "_"%char.
Proof.
  unfold has_char, PyStr.replace. induction s as [| x s IH]; [simpl; tauto |].
  rewrite replace_colon_step. cbn -[ascii_dec].
  intros [<- | H].
  - destruct (ascii_dec ":" x); [by right | left; by left].
  - destruct (IH H) as [? | ?]; [left; by right | by right].
Qed.

End FileName.

(** X12. The transient file of a paper lies in the download directory
    under a name of at most 63 characters, whatever the title and the
    identifier; and the name holds no slash when the first 8 characters
    of the identifier hold none, so the file cannot land elsewhere. *)
Theorem transient_file_name_bounded (paper : Item) :
  exists name,
    pdf_filepath paper = PDF_DOWNLOAD_DIR ++ "/" ++ name
    /\ (String.length name <= 63)%nat
    /\ (~ has_char "/" (PyStr.slice None (Some 8) (paper_id_of paper)) ->
        ~ has_char "/" name).
Proof.
  unfold pdf_filepath.
  set (safe_title := safe_chars (PyStr.slice None (Some 50) (title_of paper))).
  set (id8 := PyStr.slice None (Some 8) (paper_id_of paper)).
  set (name := safe_title ++ "_" ++ PyStr.replace ":" "_" id8 ++ ".pdf").
  exists name.
  assert (~ has_char "/" safe_title) as Hsafe.
  { intros [H | H]%has_char_safe; [by vm_compute in H | discriminate]. }
  split; [| split].
  - unfold path_join.
    assert (PyStr.startswith "/" name = false) as ->.
    { unfold name. destruct safe_title as [| c s] eqn:Hs; [done |].
      change (PyStr.startswith "/"
                (String c (s ++ "_" ++ PyStr.replace ":" "_" id8 ++ ".pdf")) = false).
      unfold PyStr.startswith. cbn -[ascii_dec String.append].
      destruct (ascii_dec "/" c) as [<- |]; [| done].
      exfalso. apply Hsafe. by left. }
    reflexivity.
  - unfold name. rewrite !str_length_app, replace_colon_length.
    unfold safe_title, id8. rewrite safe_chars_length, !slice_prefix by lia.
    pose proof (take_length_le (Z.to_nat 50) (title_of paper)).
    pose proof (take_length_le (Z.to_nat 8) (paper_id_of paper)).
    change (String.length "_") with 1%nat. change (String.length ".pdf") with 4%nat.
    lia.
  - intros Hid. unfold name. rewrite !has_char_app.
    intros [H | [H | [H | H]]].
    + by apply Hsafe.
    + by vm_compute in H; destruct H.
    + apply has_char_replace_colon in H as [H | H]; [by apply Hid | discriminate].
    + vm_compute in H. by repeat destruct H as [H | H].
Qed.

(** ** Summarizer agent: further properties *)

Lemma summarize_paper_analyses env i paper st :
  analyses (summarize_paper env i paper st) = (analyses st ++ analysed env i paper)%list.
Proof.
  unfold summarize_paper, analysed.
  destruct (PyStr.truthy (default "" (text paper))); simpl; [| by rewrite app_nil_r].
  destruct (sum_response env i); simpl; by rewrite ?app_nil_r.
Qed.

Lemma summarize_paper_requests env i paper st :
  requests (summarize_paper env i paper st) = (requests st ++ request_for paper)%list.
Proof.
  unfold summarize_paper, request_for.
  destruct (PyStr.truthy (default "" (text paper))); simpl; [| by rewrite app_nil_r].
  by destruct (sum_response env i).
Qed.

Lemma summarize_paper_failures env i paper st :
  summarization_failures (summarize_paper env i paper st)
  = summarization_failures st + match analysed env i paper with [] => 1 | _ => 0 end.
Proof.
  unfold summarize_paper, analysed.
  destruct (PyStr.truthy (default "" (text paper))); simpl; [| done].
  destruct (sum_response env i); simpl; lia.
Qed.

Lemma summarize_loop_analyses env papers : forall i st,
  analyses (summarize_loop env i papers st)
  = (analyses st ++ analysed_from env i papers)%list.
Proof.
  induction papers as [| paper rest IH]; intros i st; simpl.
  - by rewrite app_nil_r.
  - rewrite IH, summarize_paper_analyses. by rewrite <- app_assoc.
Qed.

Lemma summarize_loop_requests env papers : forall i st,
  requests (summarize_loop env i papers st)
  = (requests st ++ concat (request_for <$> papers))%list.
Proof.
  induction papers as [| paper rest IH]; intros i st; simpl.
  - by rewrite app_nil_r.
  - rewrite IH, summarize_paper_requests. by rewrite <- app_assoc.
Qed.

Lemma summarize_loop_failures env papers : forall i st,
  Z.of_nat (length (analyses (summarize_loop env i papers st)))
  + summarization_failures (summarize_loop env i papers st)
  = Z.of_nat (length (analyses st)) + summarization_failures st
    + Z.of_nat (length papers).
Proof.
  induction papers as [| paper rest IH]; intros i st; simpl; [lia |].
  rewrite IH, summarize_paper_analyses, summarize_paper_failures, length_app.
  assert (length (analysed env i paper) <= 1)%nat as Hlen.
  { unfold analysed. destruct (PyStr.truthy _); simpl; [| lia].
    destruct (sum_response env i); simpl; lia. }
  destruct (analysed env i paper) as [| a l]; simpl in *; lia.
Qed.

(** The summarizer, once it reaches its loop. *)
Lemma summarize_node_loop gk env state paper rest :
  gk <> "YOUR_GEMINI_API_KEY" ->
  sum_configure env = None ->
  parsed_papers state = Some (paper :: rest) ->
  summarize_papers_node gk env state
  = (analyses_update (analysed_from env 0 (paper :: rest))
       (match analysed_from env 0 (paper :: rest) with
        | [] => if truthy_opt (error state) then error state
                else Some "Summarization failed for all parsed papers."
        | _ => error state
        end),
     concat (request_for <$> paper :: rest)).
Proof.
  intros Hkey%String.eqb_neq Hconf Hp. unfold summarize_papers_node.
  rewrite Hp, Hkey, Hconf.
  change (list_truthy (Some (paper :: rest))) with true.
  cbv beta iota. change (negb true) with false. cbv beta iota.
  change (default [] (Some (paper :: rest))) with (paper :: rest).
  rewrite summarize_loop_analyses, summarize_loop_requests.
  cbn [analyses requests app].
  destruct (analysed_from env 0 (paper :: rest)) as [| a l]; simpl;
    by destruct (truthy_opt (error state)).
Qed.

(** X13. When the key is set and the model is configured, the summarizer
    sends one request per parsed paper that has a text, in the order of
    the papers, each with a timeout of 180 seconds and the prompt built
    from that paper's text; a paper without a text costs no request. *)
Theorem summarizer_requests_per_paper (GEMINI_API_KEY : string) (env : SummarizeEnv)
    (state : ResearchState) (papers : list Item) :
  GEMINI_API_KEY <> "YOUR_GEMINI_API_KEY" ->
  sum_configure env = None ->
  parsed_papers state = Some papers ->
  (summarize_papers_node GEMINI_API_KEY env state).2
  = (fun p => LlmRequest (summarize_prompt (default "" (text p))) 180)
      <$> filter (fun p => PyStr.truthy (default "" (text p)) = true) papers.
Proof.
  intros Hkey Hconf Hp. destruct papers as [| paper rest].
  - unfold summarize_papers_node. rewrite Hp. simpl.
    by destruct (truthy_opt (error state)).
  - rewrite (summarize_node_loop GEMINI_API_KEY env state paper rest) by done.
    cbn [snd]. generalize (paper :: rest). intros l.
    induction l as [| p l IH]; [done |]. csimpl. rewrite IH.
    unfold request_for. rewrite filter_cons.
    destruct (decide (PyStr.truthy (default "" (text p)) = true)) as [-> | Hn]; [done |].
    apply not_true_is_false in Hn. by rewrite Hn.
Qed.

Lemma summarizer_requests_per_paper_witness :
  let papers := [parsed_item (mk_paper "a" "A" "u") "text a";
                 {| paperId := Some "b"; title := Some "B"; pdf_url := None;
                    text := Some "" |};
                 parsed_item (mk_paper "c" "C" "u") "text c"] in
  "" <> "YOUR_GEMINI_API_KEY"
  /\ sum_configure (always_answers "x") = None
  /\ parsed_papers (state_of_parsed papers None) = Some papers
  /\ (summarize_papers_node "" (always_answers "x") (state_of_parsed papers None)).2
     = [LlmRequest (summarize_prompt "text a") 180;
        LlmRequest (summarize_prompt "text c") 180].
Proof.
  intros papers.
  split; [discriminate |]. split; [reflexivity |]. split; [reflexivity |].
  rewrite (summarizer_requests_per_paper "" (always_answers "x")
             (state_of_parsed papers None) papers);
    [reflexivity | discriminate | reflexivity | reflexivity].
Defined.

Lemma analysed_from_titles env papers : forall i,
  sublist (a_title <$> analysed_from env i papers)
          ((fun p => Some (default "N/A" (title p))) <$> papers).
Proof.
  induction papers as [| paper rest IH]; intros i; csimpl; [constructor |].
  unfold analysed at 1.
  destruct (PyStr.truthy (default "" (text paper)));
    [| csimpl; apply sublist_cons, IH].
  destruct (sum_response env i); csimpl;
    [apply sublist_skip, IH | apply sublist_cons, IH ..].
Qed.

(** X14. The analyses are those of the parsed papers whose request gave a
    response with parts, in the order of the papers: their titles are a
    sublist of the titles of the parsed papers, and every parsed paper is
    either analysed or counted as a failure. *)
Theorem analyses_follow_parsed_papers (GEMINI_API_KEY : string) (env : SummarizeEnv)
    (state : ResearchState) (papers : list Item) :
  GEMINI_API_KEY <> "YOUR_GEMINI_API_KEY" ->
  sum_configure env = None ->
  parsed_papers state = Some papers ->
  let l := default [] (u_all_analyses (summarize_papers_node GEMINI_API_KEY env state).1) in
  l = analysed_from env 0 papers
  /\ sublist (a_title <$> l) ((fun p => Some (default "N/A" (title p))) <$> papers)
  /\ (length l <= length papers)%nat.
Proof.
  intros Hkey Hconf Hp l.
  assert (l = analysed_from env 0 papers) as Hl.
  { unfold l. destruct papers as [| paper rest].
    - unfold summarize_papers_node. rewrite Hp. simpl.
      by destruct (truthy_opt (error state)).
    - by rewrite (summarize_node_loop GEMINI_API_KEY env state paper rest). }
  split; [done |]. rewrite Hl.
  pose proof (analysed_from_titles env papers 0) as Hsub.
  split; [done |].
  apply sublist_length in Hsub. by rewrite !length_fmap in Hsub.
Qed.

Lemma analyses_follow_parsed_papers_witness :
  let papers := [parsed_item (mk_paper "a" "A" "u") "text a";
                 parsed_item (mk_paper "c" "C" "u") "text c"] in
  "" <> "YOUR_GEMINI_API_KEY"
  /\ sum_configure (always_answers "x") = None
  /\ parsed_papers (state_of_parsed papers None) = Some papers
  /\ (a_title <$> default [] (u_all_analyses
        (summarize_papers_node "" (always_answers "x")
           (state_of_parsed papers None)).1))
     = [Some "A"; Some "C"].
Proof.
  intros papers.
  split; [discriminate |]. split; [reflexivity |]. split; [reflexivity |].
  destruct (analyses_follow_parsed_papers "" (always_answers "x")
              (state_of_parsed papers None) papers) as (Hl & _);
    [discriminate | reflexivity | reflexivity |].
  rewrite Hl. reflexivity.
Defined.

(** ** The parsers: labels that are missing *)

(** That a label is absent from a given text, found by trying each
    position. *)
Tactic Notation "no_position" integer(n) :=
  let k := fresh "k" in
  intros k;
  do n (destruct k as [| k]; [vm_compute; reflexivity |]);
  vm_compute; reflexivity.

(** X15. A response of the language model in which neither "Methodology:"
    nor "Key Findings:" occurs is not rejected: the summary is the whole
    text without "Summary:", and the methodology and the key findings are
    both the whole text, each stripped. *)
Theorem parser_without_labels (generated_text : string) :
  absent "Methodology:" generated_text ->
  absent "Key Findings:" generated_text ->
  parse_summary generated_text
  = PyStr.strip (PyStr.replace "Summary:" "" generated_text)
  /\ parse_methodology generated_text = PyStr.strip generated_text
  /\ parse_key_findings generated_text = PyStr.strip generated_text.
Proof.
  intros Hm Hk. unfold parse_summary, parse_methodology, parse_key_findings.
  rewrite (split_no_occurrence "Methodology:" generated_text Hm).
  rewrite (split_no_occurrence "Key Findings:" generated_text Hk).
  simpl PyStr.first. simpl PyStr.last.
  by rewrite (split_no_occurrence "Methodology:" generated_text Hm).
Qed.

Lemma parser_without_labels_witness :
  absent "Methodology:" "  Summary: it works. "
  /\ absent "Key Findings:" "  Summary: it works. "
  /\ parse_summary "  Summary: it works. " = "it works."
  /\ parse_methodology "  Summary: it works. " = "Summary: it works."
  /\ parse_key_findings "  Summary: it works. " = "Summary: it works.".
Proof.
  assert (absent "Methodology:" "  Summary: it works. ") as Hm by no_position 23.
  assert (absent "Key Findings:" "  Summary: it works. ") as Hk by no_position 23.
  split; [exact Hm |]. split; [exact Hk |].
  destruct (parser_without_labels "  Summary: it works. " Hm Hk) as (H1 & H2 & H3).
  rewrite H1, H2, H3. repeat split; reflexivity.
Defined.



Lemma drop_length n : forall s,
  String.length (PyStr.drop n s) = (String.length s - n)%nat.
Proof.
  induction n as [| n IH]; intros [| c s]; simpl; try done; lia.
Qed.


(** ** Comparator agent: further properties *)

Lemma find_from_first sep : forall j s i,
  first_at sep s j -> PyStr.find_from sep s i = Some (i + j)%nat.
Proof.
  induction j as [| j IH]; intros s i [Hat Hbefore].
  - simpl in Hat. destruct s; simpl; rewrite Hat; f_equal; lia.
  - pose proof (Hbefore 0%nat ltac:(lia)) as H0. simpl in H0.
    destruct s as [| c s]; [simpl in Hat; congruence |].
    simpl. rewrite H0. rewrite (IH s (S i)); [f_equal; lia |].
    split; [done |]. intros k Hk. apply (Hbefore (S k)). lia.
Qed.

Lemma find_from_absent sep : forall s i, absent sep s -> PyStr.find_from sep s i = None.
Proof.
  induction s as [| c s IH]; intros i Habs.
  - pose proof (Habs 0%nat) as H0. simpl in *. by rewrite H0.
  - pose proof (Habs 0%nat) as H0. simpl in *. rewrite H0.
    apply IH. intros k. apply (Habs (S k)).
Qed.

Lemma find_first sep s j : first_at sep s j -> PyStr.find sep s = Z.of_nat j.
Proof. intros H. unfold PyStr.find. by rewrite (find_from_first sep j s 0 H). Qed.

Lemma find_absent sep s : absent sep s -> PyStr.find sep s = -1.
Proof. intros H. unfold PyStr.find. by rewrite find_from_absent. Qed.

Lemma first_at_bound sep s j :
  first_at sep s j -> (j + String.length sep <= String.length s \/ sep = "")%nat.
Proof.
  intros [Hat _]. destruct sep as [| a sep]; [by right |]. left.
  apply startswith_length in Hat. rewrite drop_length in Hat. simpl in *. lia.
Qed.

(** [s[a:b]] and [s[a:]] for bounds within the text. *)
Lemma slice_range (a b : nat) (s : string) :
  (a <= b <= String.length s)%nat ->
  PyStr.slice (Some (Z.of_nat a)) (Some (Z.of_nat b)) s
  = PyStr.take (b - a) (PyStr.drop a s).
Proof.
  intros Hab. unfold PyStr.slice, PyStr.adjust, PyStr.len.
  destruct (Z.of_nat a <? 0) eqn:Ha; [lia |].
  destruct (Z.of_nat b <? 0) eqn:Hb; [lia |].
  f_equal; [lia |]. f_equal. lia.
Qed.

Lemma slice_from (a : nat) (s : string) :
  (a <= String.length s)%nat ->
  PyStr.slice (Some (Z.of_nat a)) None s = PyStr.drop a s.
Proof.
  intros Ha. unfold PyStr.slice, PyStr.adjust, PyStr.len.
  destruct (Z.of_nat a <? 0) eqn:Hneg; [lia |].
  replace (Z.to_nat (Z.min (Z.of_nat a) (Z.of_nat (String.length s)))) with a by lia.
  apply take_all. rewrite drop_length. lia.
Qed.




(** X17. With two or more analyses, the two sections are cut out of the
    response at the first occurrence of each label.  With both labels,
    the overview label first, the overview is what lies between them and
    the comparison what follows the second.  With the overview label
    alone, the overview is what follows it and the comparison a fixed
    text saying it could not be parsed.  Without the overview label, the
    whole response, not stripped, is the overview and the comparison is
    "Parsing failed.", whether the comparison label occurs or not. *)
Theorem sections_cut_at_labels (n : nat) (comparison_result generated_text : string) :
  (2 <= n)%nat ->
  (forall o c,
      first_at overview_marker generated_text o ->
      first_at comparison_marker generated_text c ->
      (o + 15 <= c)%nat ->
      parse_sections n comparison_result generated_text
      = (PyStr.strip (PyStr.take (c - (o + 15)) (PyStr.drop (o + 15) generated_text)),
         PyStr.strip (PyStr.drop (c + 30) generated_text)))
  /\ (forall o,
        first_at overview_marker generated_text o ->
        absent comparison_marker generated_text ->
        parse_sections n comparison_result generated_text
        = (PyStr.strip (PyStr.drop (o + 15) generated_text),
           "Could not parse detailed comparison section."))
  /\ (absent overview_marker generated_text ->
      parse_sections n comparison_result generated_text
      = (generated_text, "Parsing failed.")).
Proof.
  intros Hn.
  assert ((n =? 1)%nat = false) as Hn1 by (apply Nat.eqb_neq; lia).
  assert ((1 <? n)%nat = true) as Hn2 by (apply Nat.ltb_lt; lia).
  split; [| split].
  - intros o c Ho Hc Hoc. unfold parse_sections.
    rewrite (find_first _ _ _ Ho), (find_first _ _ _ Hc), Hn1.
    destruct (first_at_bound _ _ _ Hc) as [Hbound | ?]; [| done].
    change (String.length comparison_marker) with 30%nat in Hbound.
    change (PyStr.len overview_marker) with (Z.of_nat 15).
    change (PyStr.len comparison_marker) with (Z.of_nat 30).
    rewrite <- !Nat2Z.inj_add.
    destruct (Z.of_nat o =? -1) eqn:E1; [lia |].
    destruct (Z.of_nat c =? -1) eqn:E2; [lia |].
    cbv beta iota. change (negb false && negb false) with true. cbv beta iota.
    rewrite slice_range by lia. by rewrite slice_from by lia.
  - intros o Ho Hc. unfold parse_sections.
    rewrite (find_first _ _ _ Ho), (find_absent _ _ Hc), Hn1, Hn2.
    destruct (first_at_bound _ _ _ Ho) as [Hbound | ?]; [| done].
    change (String.length overview_marker) with 15%nat in Hbound.
    change (PyStr.len overview_marker) with (Z.of_nat 15).
    rewrite <- !Nat2Z.inj_add.
    destruct (Z.of_nat o =? -1) eqn:E1; [lia |].
    change (-1 =? -1) with true.
    cbv beta iota. change (negb false && negb true) with false.
    change (negb false) with true. cbv beta iota.
    by rewrite slice_from by lia.
  - intros Ho. unfold parse_sections. rewrite (find_absent _ _ Ho), Hn1.
    change (-1 =? -1) with true. change (negb true) with false. by cbv beta iota.
Qed.

Lemma sections_cut_at_labels_witness :
  (2 <= 2)%nat
  /\ absent overview_marker "Detailed Comparative Analysis: B"
  /\ parse_sections 2 "d" "Detailed Comparative Analysis: B"
     = ("Detailed Comparative Analysis: B", "Parsing failed.").
Proof.
  assert (absent overview_marker "Detailed Comparative Analysis: B") as Ho
    by no_position 33.
  split; [lia |]. split; [exact Ho |].
  destruct (sections_cut_at_labels 2 "d" "Detailed Comparative Analysis: B")
    as (_ & _ & H); [lia |].
  exact (H Ho).
Defined.

Lemma compare_node_trace gk env state :
  (compare_analyses_node gk env state).2 = []
  \/ exists prompt,
       (compare_analyses_node gk env state).2 = [LlmRequest prompt 300]
       /\ list_truthy (all_analyses state) = true
       /\ gk <> "YOUR_GEMINI_API_KEY"
       /\ cmp_configure env = None.
Proof.
  unfold compare_analyses_node.
  destruct (list_truthy (all_analyses state)); cbv beta iota;
    change (negb true) with false; change (negb false) with true; cbv beta iota;
    [| left; by destruct (truthy_opt (error state))].
  destruct (String.eqb_spec gk "YOUR_GEMINI_API_KEY") as [Hk | Hk]; [by left |].
  destruct (cmp_configure env) as [e |] eqn:Hconf; [by left |].
  right. eexists.
  destruct (cmp_response env); [destruct (parse_sections _ _ _) | ..]; by cbn [snd].
Qed.

(** X18. Whatever the state, the key and the answers, the comparator
    sends at most one request to the language model, with a timeout of
    300 seconds, and none when there is no analysis, when the key is the
    placeholder or when the configuration raises. *)
Theorem comparator_sends_at_most_one_request (GEMINI_API_KEY : string)
    (env : CompareEnv) (state : ResearchState) :
  let sent := (compare_analyses_node GEMINI_API_KEY env state).2 in
  (length sent <= 1)%nat
  /\ Forall (fun e => exists prompt, e = LlmRequest prompt 300) sent
  /\ (list_truthy (all_analyses state) = false
      \/ GEMINI_API_KEY = "YOUR_GEMINI_API_KEY"
      \/ cmp_configure env <> None -> sent = []).
Proof.
  intros sent. unfold sent.
  destruct (compare_node_trace GEMINI_API_KEY env state)
    as [-> | (prompt & -> & Hl & Hk & Hc)].
  - split; [simpl; lia |]. split; [constructor | done].
  - split; [simpl; lia |]. split; [by repeat econstructor |].
    intros [? | [? | ?]]; congruence.
Qed.

(** X19. When there are analyses and the key is set, a synthesis that
    fails (the configuration raises, the request raises, is blocked or
    comes back empty) is reported in the two text fields, which are then
    never empty, and never in the error slot, which is returned as it
    was. *)
Theorem comparator_failure_goes_to_text (GEMINI_API_KEY : string) (env : CompareEnv)
    (state : ResearchState) :
  GEMINI_API_KEY <> "YOUR_GEMINI_API_KEY" ->
  list_truthy (all_analyses state) = true ->
  cmp_configure env <> None \/ (forall t, cmp_response env <> Parts t) ->
  let u := (compare_analyses_node GEMINI_API_KEY env state).1 in
  u_error u = Some (error state)
  /\ truthy_opt (u_topic_overview u) = true
  /\ truthy_opt (u_comparison_result u) = true.
Proof.
  intros Hkey%String.eqb_neq Hl Hfail. unfold compare_analyses_node.
  rewrite Hl, Hkey. cbv beta iota. change (negb true) with false. cbv beta iota.
  destruct (cmp_configure env) as [e |]; [done |].
  destruct Hfail as [? | Hfail]; [done |].
  destruct (cmp_response env) as [t | reason | | e]; try done.
  by destruct (Hfail t).
Qed.

Lemma comparator_failure_goes_to_text_witness :
  let state := state_of_analyses "t" [sample_analysis "P"; sample_analysis "Q"] None in
  "" <> "YOUR_GEMINI_API_KEY"
  /\ list_truthy (all_analyses state) = true
  /\ (forall t, cmp_response (answering (Blocked "SAFETY")) <> Parts t)
  /\ u_error (compare_analyses_node "" (answering (Blocked "SAFETY")) state).1 = Some None
  /\ u_topic_overview (compare_analyses_node "" (answering (Blocked "SAFETY")) state).1
     = Some "Gemini request blocked (SAFETY)".
Proof.
  intros state.
  split; [discriminate |]. split; [reflexivity |]. split; [discriminate |].
  split; [| reflexivity].
  apply (comparator_failure_goes_to_text "" (answering (Blocked "SAFETY")) state);
    [discriminate | reflexivity | right; discriminate].
Defined.

(** ** The run: what the stages do together *)

Lemma invoke_effects gk sk w s0 :
  let r := invoke gk sk w s0 in
  calls r
  = ((search_academic_papers_node sk (search_env w) s0).2
     ++ trace (download_and_parse_pdfs_node (download_env w) (disk w) (after_search r)).2
     ++ (summarize_papers_node gk (summarize_env w) (after_download r)).2
     ++ (compare_analyses_node gk (compare_env w) (after_summarize r)).2
     ++ (generate_report_node (report_env w) (after_compare r)).2)%list
  /\ files_left r
     = files (download_and_parse_pdfs_node (download_env w) (disk w) (after_search r)).2.
Proof.
  cbv zeta. unfold invoke.
  destruct (search_academic_papers_node _ _ _) as [u1 ev1] eqn:E1.
  destruct (download_and_parse_pdfs_node _ _ _) as [u2 st2] eqn:E2.
  destruct (summarize_papers_node _ _ _) as [u3 ev3] eqn:E3.
  destruct (compare_analyses_node _ _ _) as [u4 ev4] eqn:E4.
  destruct (generate_report_node _ _) as [u5 ev5] eqn:E5.
  cbn [after_search after_download after_summarize after_compare after_report
       calls files_left fst snd].
  by rewrite E2, E3, E4, E5.
Qed.

Lemma search_node_trace key env state :
  Forall (fun e => (exists q n, e = SemanticScholarQuery q n) \/ (exists q n, e = ArxivQuery q n))
    (search_academic_papers_node key env state).2.
Proof.
  unfold search_academic_papers_node.
  destruct (negb (truthy_opt (topic state))); [constructor |].
  destruct (semantic_scholar_phase _ _ _ _) as [found1 ev1] eqn:H1.
  destruct (arxiv_phase _ _ _ _) as [found2 ev2] eqn:H2.
  assert (Forall (fun e => (exists q n, e = SemanticScholarQuery q n)
                           \/ (exists q n, e = ArxivQuery q n)) (ev1 ++ ev2)) as H.
  { apply Forall_app. split.
    - revert H1. unfold semantic_scholar_phase.
      destruct (String.eqb _ _); [intros [= _ <-]; constructor |].
      destruct (semantic_scholar _ _ _); intros [= _ <-];
        (constructor; [left; eauto | constructor]).
    - revert H2. unfold arxiv_phase.
      destruct (_ <? _); [| intros [= _ <-]; constructor].
      destruct (arxiv _ _ _); intros [= _ <-];
        (constructor; [right; eauto | constructor]). }
  by destruct found2.
Qed.

Lemma report_node_trace env state :
  Forall (fun e => exists p, e = DocSave p) (generate_report_node env state).2.
Proof.
  unfold generate_report_node.
  destruct (_ && _); [constructor |]. destruct (_ && _); [constructor |].
  destruct (docx_outcome env); repeat constructor; eauto.
Qed.

Lemma summarize_node_trace gk env state :
  Forall (fun e => exists prompt, e = LlmRequest prompt 180)
    (summarize_papers_node gk env state).2.
Proof.
  unfold summarize_papers_node.
  destruct (negb (list_truthy (parsed_papers state)));
    [destruct (truthy_opt (error state)); constructor |].
  destruct (String.eqb gk _); [constructor |].
  destruct (sum_configure env); [constructor |]. cbn [snd].
  rewrite summarize_loop_requests. simpl.
  induction (default [] (parsed_papers state)) as [| p l IH]; [constructor |].
  csimpl. apply Forall_app. split; [| done].
  unfold request_for. destruct (PyStr.truthy _); repeat constructor. eauto.
Qed.

Lemma process_paper_http env i paper st :
  http_gets (trace (process_paper env i paper st))
  = (http_gets (trace st)
     ++ if truthy_opt (pdf_url paper) then [default "" (pdf_url paper)] else [])%list.
Proof.
  unfold process_paper, http_gets.
  destruct (truthy_opt (pdf_url paper)); simpl; [| by rewrite app_nil_r].
  destruct (item_outcome env i); unfold on_exception;
    try case_bool_decide; try destruct (PyStr.truthy _);
    simpl; rewrite ?omap_app; simpl; by rewrite ?app_nil_r.
Qed.

Lemma download_loop_http env papers : forall i st,
  Forall linked papers ->
  http_gets (trace (download_loop env i papers st))
  = (http_gets (trace st) ++ ((fun p => default "" (pdf_url p)) <$> papers))%list.
Proof.
  induction papers as [| paper rest IH]; intros i st Hl; simpl.
  - by rewrite app_nil_r.
  - inversion Hl as [| ? ? (_ & _ & Hurl) Hrest]; subst.
    rewrite IH, process_paper_http, Hurl by done. by rewrite <- app_assoc.
Qed.

Lemma download_loop_kinds env papers : forall i st,
  llm_prompts (trace (download_loop env i papers st)) = llm_prompts (trace st).
Proof.
  induction papers as [| paper rest IH]; intros i st; simpl; [done |].
  rewrite IH. unfold process_paper, llm_prompts.
  destruct (truthy_opt (pdf_url paper)); simpl; [| done].
  destruct (item_outcome env i); unfold on_exception;
    try case_bool_decide; try destruct (PyStr.truthy _);
    simpl; rewrite ?omap_app; simpl; by rewrite ?app_nil_r.
Qed.

Lemma no_http_in (evs : list Event) :
  Forall (fun e => forall url, e <> HttpGet url) evs -> http_gets evs = [].
Proof.
  induction 1 as [| e l He _ IH]; [done |]. unfold http_gets in *. simpl.
  destruct e; try done. by destruct (He url).
Qed.

Lemma no_llm_in (evs : list Event) :
  Forall (fun e => forall prompt t, e <> LlmRequest prompt t) evs -> llm_prompts evs = [].
Proof.
  induction 1 as [| e l He _ IH]; [done |]. unfold llm_prompts in *. simpl.
  destruct e; try done. by destruct (He prompt timeout).
Qed.

(** When every node returns, the download stage fetches each discovered
    paper once, in the order of discovery, and nothing else is fetched. *)
Lemma invoke_fetches_discovered (GEMINI_API_KEY SEMANTIC_SCHOLAR_API_KEY : string)
    (w : World) (tpc : string) (limit : Z) :
  let r := invoke GEMINI_API_KEY SEMANTIC_SCHOLAR_API_KEY w (inputs tpc limit) in
  http_gets (calls r)
  = (fun p => default "" (pdf_url p)) <$> default [] (papers_to_process (after_search r)).
Proof.
  intros r.
  destruct (invoke_effects GEMINI_API_KEY SEMANTIC_SCHOLAR_API_KEY w (inputs tpc limit))
    as [Hcalls _].
  destruct (invoke_steps GEMINI_API_KEY SEMANTIC_SCHOLAR_API_KEY w (inputs tpc limit))
    as (H1 & _).
  fold r in Hcalls, H1. rewrite Hcalls. unfold http_gets. rewrite !omap_app.
  fold (http_gets (search_academic_papers_node SEMANTIC_SCHOLAR_API_KEY (search_env w)
                     (inputs tpc limit)).2).
  fold (http_gets (summarize_papers_node GEMINI_API_KEY (summarize_env w)
                     (after_download r)).2).
  fold (http_gets (compare_analyses_node GEMINI_API_KEY (compare_env w)
                     (after_summarize r)).2).
  fold (http_gets (generate_report_node (report_env w) (after_compare r)).2).
  rewrite (no_http_in (search_academic_papers_node _ _ _).2).
  2: { eapply Forall_impl; [apply search_node_trace |].
       intros e [(? & ? & ->) | (? & ? & ->)] url; discriminate. }
  rewrite (no_http_in (summarize_papers_node _ _ _).2).
  2: { eapply Forall_impl; [apply summarize_node_trace |].
       intros e (? & ->) url; discriminate. }
  rewrite (no_http_in (compare_analyses_node _ _ _).2).
  2: { destruct (compare_node_trace GEMINI_API_KEY (compare_env w) (after_summarize r))
         as [-> | (? & -> & _)]; repeat constructor; discriminate. }
  rewrite (no_http_in (generate_report_node _ _).2).
  2: { eapply Forall_impl; [apply report_node_trace |].
       intros e (? & ->) url; discriminate. }
  simpl. rewrite app_nil_r.
  fold (http_gets (trace (download_and_parse_pdfs_node (download_env w) (disk w)
                            (after_search r)).2)).
  assert (Forall linked
            (default [] (u_papers_to_process
               (search_academic_papers_node SEMANTIC_SCHOLAR_API_KEY (search_env w)
                  (inputs tpc limit)).1))) as Hl.
  { destruct (PyStr.truthy tpc) eqn:Htr.
    - destruct (search_node_unfold SEMANTIC_SCHOLAR_API_KEY (search_env w)
                  (inputs tpc limit) tpc eq_refl Htr) as [-> _].
      apply search_phases_linked.
    - unfold search_academic_papers_node. simpl. rewrite Htr. simpl. constructor. }
  destruct (search_node_result SEMANTIC_SCHOLAR_API_KEY (search_env w) (inputs tpc limit))
    as (l & e & Hu & _).
  rewrite Hu in Hl, H1. simpl in Hl.
  assert (papers_to_process (after_search r) = Some l) as Hp by (by rewrite H1).
  rewrite Hp. simpl. unfold download_and_parse_pdfs_node. rewrite Hp.
  destruct l as [| p l]; simpl.
  - by destruct (truthy_opt (error (after_search r))).
  - inversion Hl as [| ? ? (_ & _ & Hurl) Hrest]; subst.
    rewrite download_loop_http, process_paper_http, Hurl by done. done.
Qed.

(** A call of the graph raises exactly when the search found a paper and
    the directory cannot be made; the exception is the one of
    [os.makedirs], and the calls made are those of the search.  Otherwise
    the run is the one in which every node returns. *)
Lemma app_invoke_cases makedirs gk sk w s0 :
  let r := invoke gk sk w s0 in
  (app_invoke makedirs gk sk w s0 = RunReturns r
   /\ (makedirs = None \/ list_truthy (papers_to_process (after_search r)) = false))
  \/ (exists type_name msg,
        makedirs = Some (type_name, msg)
        /\ list_truthy (papers_to_process (after_search r)) = true
        /\ app_invoke makedirs gk sk w s0
           = RunRaises type_name msg (search_academic_papers_node sk (search_env w) s0).2).
Proof.
  intros r. destruct (invoke_steps gk sk w s0) as (H1 & _). fold r in H1.
  unfold app_invoke, download_and_parse_pdfs_node_call.
  destruct (search_academic_papers_node sk (search_env w) s0) as [u1 ev1] eqn:E1.
  cbn [fst snd] in *. rewrite <- H1.
  destruct (list_truthy (papers_to_process (after_search r))) eqn:Hl; cbn [negb].
  - destruct makedirs as [[type_name msg] |].
    + right. by exists type_name, msg.
    + left. split; [done | by left].
  - left. split; [done | by right].
Qed.

(** X20. A call of the graph that returns has fetched each discovered
    paper once, in the order of discovery, and nothing else: no paper
    that the search returned is skipped for a missing link.  A call that
    raises has fetched nothing: it raises with the exception of
    [os.makedirs], after the search found a paper. *)
Theorem run_fetches_each_discovered_paper (makedirs : option (string * string))
    (GEMINI_API_KEY SEMANTIC_SCHOLAR_API_KEY : string)
    (w : World) (tpc : string) (limit : Z) :
  let found :=
    default [] (u_papers_to_process
                  (search_academic_papers_node SEMANTIC_SCHOLAR_API_KEY (search_env w)
                     (inputs tpc limit)).1) in
  match app_invoke makedirs GEMINI_API_KEY SEMANTIC_SCHOLAR_API_KEY w (inputs tpc limit) with
  | RunReturns r =>
      papers_to_process (after_search r) = Some found
      /\ http_gets (calls r) = (fun p => default "" (pdf_url p)) <$> found
      /\ (makedirs = None \/ found = [])
  | RunRaises type_name msg calls_made =>
      makedirs = Some (type_name, msg)
      /\ found <> []
      /\ http_gets calls_made = []
  end.
Proof.
  intros found.
  pose proof (invoke_fetches_discovered GEMINI_API_KEY SEMANTIC_SCHOLAR_API_KEY w tpc limit)
    as Hgets.
  destruct (invoke_steps GEMINI_API_KEY SEMANTIC_SCHOLAR_API_KEY w (inputs tpc limit))
    as (H1 & _).
  destruct (search_node_result SEMANTIC_SCHOLAR_API_KEY (search_env w) (inputs tpc limit))
    as (l & e & Hu & _).
  cbv zeta in Hgets, H1.
  assert (found = l) as Hfound by (unfold found; by rewrite Hu).
  assert (papers_to_process
            (after_search (invoke GEMINI_API_KEY SEMANTIC_SCHOLAR_API_KEY w
                             (inputs tpc limit))) = Some l) as Hp
    by (by rewrite H1, Hu).
  pose proof (app_invoke_cases makedirs GEMINI_API_KEY SEMANTIC_SCHOLAR_API_KEY w
                (inputs tpc limit)) as Hcases.
  cbv zeta in Hcases.
  destruct Hcases as [[-> Hwhy] | (type_name & msg & Hmk & Hl & ->)]; cbv beta iota.
  - rewrite Hfound. split; [done |]. split; [by rewrite Hgets, Hp |].
    destruct Hwhy as [-> | Hl]; [by left | right].
    rewrite Hp in Hl. by destruct l.
  - rewrite Hfound. split; [done |]. split; [rewrite Hp in Hl; by destruct l |].
    apply no_http_in. eapply Forall_impl; [apply search_node_trace |].
    intros ev [(? & ? & ->) | (? & ? & ->)] url; discriminate.
Qed.

Lemma extracted_from_no_link env papers : forall i,
  Forall (fun q => pdf_url q = None) (extracted_from env i papers).
Proof.
  induction papers as [| p l IH]; intros i; simpl; [constructor |].
  apply Forall_app. split; [| apply IH].
  unfold extracted. destruct (truthy_opt (pdf_url p)); [| constructor].
  destruct (item_outcome env i); try constructor.
  destruct (PyStr.truthy (full_text texts)); repeat constructor.
Qed.

Lemma run_before_summarize gk sk w tpc limit :
  let r := invoke gk sk w (inputs tpc limit) in
  all_analyses (after_download r) = None
  /\ report_path (after_download r) = None
  /\ Forall (fun p => pdf_url p = None) (default [] (parsed_papers (after_download r))).
Proof.
  intros r. destruct (invoke_steps gk sk w (inputs tpc limit)) as (H1 & H2 & _).
  fold r in H1, H2.
  destruct (search_node_result sk (search_env w) (inputs tpc limit)) as (l & e & Hu1 & _).
  rewrite Hu1 in H1.
  destruct (download_node_shape (download_env w) (disk w) (after_search r)) as [e2 Hu2].
  rewrite H2, Hu2. simpl. rewrite H1. simpl. split; [done |]. split; [done |].
  apply extracted_from_no_link.
Qed.

(** What the summarizer returns under [all_analyses]: nothing, or what
    each parsed paper contributes; a list that is not empty shows that the
    key is set. *)
Lemma summarize_node_analyses gk env state :
  let u := (summarize_papers_node gk env state).1 in
  (u_all_analyses u = None /\ exists msg, u_error u = Some (Some msg) /\ PyStr.truthy msg = true)
  \/ (u_all_analyses u = Some (analysed_from env 0 (default [] (parsed_papers state)))
      /\ (analysed_from env 0 (default [] (parsed_papers state)) <> [] ->
          gk <> "YOUR_GEMINI_API_KEY" /\ u_error u = Some (error state))).
Proof.
  unfold summarize_papers_node.
  destruct (parsed_papers state) as [[| paper rest] |] eqn:Hp; simpl.
  - right. by destruct (truthy_opt (error state)).
  - destruct (String.eqb_spec gk "YOUR_GEMINI_API_KEY") as [Hk | Hk].
    { left. simpl. split; [done |]. by eexists. }
    destruct (sum_configure env) as [e |].
    { left. simpl. split; [done |]. by eexists. }
    right. cbn [fst u_all_analyses u_error analyses_update].
    rewrite summarize_loop_analyses, summarize_paper_analyses. cbn [analyses app].
    change (analysed env 0 paper ++ analysed_from env 1 rest)%list
      with (analysed_from env 0 (paper :: rest)).
    split; [done |]. intros Hne. split; [done |].
    destruct (analysed_from env 0 (paper :: rest)); done.
  - right. by destruct (truthy_opt (error state)).
Qed.

Lemma analysed_from_links env papers : forall i,
  Forall (fun p => pdf_url p = None) papers ->
  Forall (fun a => a_pdf_url a = Some "N/A") (analysed_from env i papers).
Proof.
  induction papers as [| paper rest IH]; intros i H; simpl; [constructor |].
  inversion H as [| ? ? Hp Hrest]; subst.
  apply Forall_app. split; [| by apply IH].
  unfold analysed. destruct (PyStr.truthy _); [| constructor].
  destruct (sum_response env i); repeat constructor.
  simpl. by rewrite Hp.
Qed.

(** The state after the comparator in a run: analyses come with a key
    that is set and an empty error slot. *)
Lemma run_after_compare gk sk w tpc limit :
  let r := invoke gk sk w (inputs tpc limit) in
  all_analyses (after_summarize r)
  = (let u := (summarize_papers_node gk (summarize_env w) (after_download r)).1 in
     u_all_analyses u)
  /\ all_analyses (after_compare r) = all_analyses (after_summarize r)
  /\ report_path (after_compare r) = None
  /\ (list_truthy (all_analyses (after_compare r)) = true ->
      gk <> "YOUR_GEMINI_API_KEY" /\ error (after_compare r) = None)
  /\ (list_truthy (all_analyses (after_compare r)) = false ->
      truthy_opt (error (after_compare r)) = true).
Proof.
  intros r.
  destruct (invoke_steps gk sk w (inputs tpc limit)) as (_ & _ & H3 & H4 & _).
  destruct (run_before_summarize gk sk w tpc limit) as (Ha2 & Hr2 & _).
  destruct (run_invariants gk sk w tpc limit) as (_ & _ & I3).
  fold r in H3, H4, Ha2, Hr2, I3.
  set (s2 := after_download r) in *. set (s3 := after_summarize r) in *.
  set (s4 := after_compare r) in *.
  assert (all_analyses s3 = u_all_analyses (summarize_papers_node gk (summarize_env w) s2).1)
    as Ha3.
  { rewrite H3. unfold apply_update. cbn [all_analyses]. rewrite Ha2.
    by destruct (u_all_analyses _). }
  assert (report_path s3 = None) as Hr3.
  { rewrite H3. unfold apply_update. cbn [report_path]. rewrite Hr2.
    unfold summarize_papers_node.
    destruct (negb _); [by destruct (truthy_opt _) |].
    destruct (String.eqb _ _); [done |]. by destruct (sum_configure _). }
  assert (forall u, u = (compare_analyses_node gk (compare_env w) s3).1 ->
            u_all_analyses u = None /\ u_report_path u = None) as Hshape.
  { intros u ->. unfold compare_analyses_node.
    destruct (negb _); [by destruct (truthy_opt _) |].
    destruct (String.eqb _ _); [done |]. destruct (cmp_configure _); [done |].
    destruct (cmp_response _); [destruct (parse_sections _ _ _) | ..]; done. }
  destruct (Hshape _ eq_refl) as [Hua Hur].
  assert (all_analyses s4 = all_analyses s3) as Ha4.
  { rewrite H4. unfold apply_update. cbn [all_analyses]. by rewrite Hua. }
  assert (report_path s4 = None) as Hr4.
  { rewrite H4. unfold apply_update. cbn [report_path]. by rewrite Hur. }
  split; [done |]. split; [done |]. split; [done |].
  rewrite Ha4. split.
  - intros Hl. specialize (I3 Hl).
    assert (gk <> "YOUR_GEMINI_API_KEY") as Hk.
    { rewrite Ha3 in Hl.
      destruct (summarize_node_analyses gk (summarize_env w) s2)
        as [[Hnone _] | [Hsome Hkey]].
      - by rewrite Hnone in Hl.
      - rewrite Hsome in Hl. apply Hkey. intros Hnil. by rewrite Hnil in Hl. }
    split; [done |]. rewrite H4. unfold apply_update. cbn [error].
    unfold compare_analyses_node. rewrite Hl.
    apply String.eqb_neq in Hk. rewrite Hk. cbv beta iota.
    change (negb true) with false. cbv beta iota.
    destruct (cmp_configure _); [by cbn [fst u_error overwrite] |].
    destruct (cmp_response _); [destruct (parse_sections _ _ _) | ..];
      by cbn [fst u_error overwrite].
  - intros Hl. rewrite H4. unfold apply_update. cbn [error].
    unfold compare_analyses_node. rewrite Hl. cbv beta iota.
    change (negb false) with true. cbv beta iota.
    by destruct (truthy_opt (error s3)) eqn:He.
Qed.

(** When every node returns, the run ends with a report path or with an
    error, never with both and never with neither. *)
Lemma invoke_report_or_error (GEMINI_API_KEY SEMANTIC_SCHOLAR_API_KEY : string)
    (w : World) (tpc : string) (limit : Z) :
  let s := after_report (invoke GEMINI_API_KEY SEMANTIC_SCHOLAR_API_KEY w
                           (inputs tpc limit)) in
  match report_path s with
  | Some p =>
      error s = None
      /\ list_truthy (all_analyses s) = true
      /\ p = path_join (getcwd (report_env w)) OUTPUT_REPORT_NAME
  | None => truthy_opt (error s) = true
  end.
Proof.
  intros s. unfold s.
  set (r := invoke GEMINI_API_KEY SEMANTIC_SCHOLAR_API_KEY w (inputs tpc limit)).
  destruct (invoke_steps GEMINI_API_KEY SEMANTIC_SCHOLAR_API_KEY w (inputs tpc limit))
    as (_ & _ & _ & _ & H5).
  destruct (run_after_compare GEMINI_API_KEY SEMANTIC_SCHOLAR_API_KEY w tpc limit)
    as (_ & _ & _ & Hfull & Hempty).
  fold r in H5, Hfull, Hempty. rewrite H5.
  set (s4 := after_compare r) in *.
  unfold apply_update, generate_report_node. cbn [report_path error all_analyses].
  destruct (list_truthy (all_analyses s4)) eqn:Hl.
  - destruct (Hfull eq_refl) as [_ He]. rewrite He.
    cbv beta iota. change (negb true) with false. cbv beta iota.
    destruct (docx_outcome (report_env w)); by cbn.
  - pose proof (Hempty eq_refl) as He. rewrite He. by cbn.
Qed.

(** X21. A call of the graph that returns ends with a report path or
    with an error, never with both and never with neither: when a path is
    returned the error slot is empty and there are analyses, and the path
    is the working directory joined with the name of the report; when
    none is returned the error slot holds a message.  The call raises,
    and so ends with neither, exactly when the search found a paper and
    [os.makedirs] raises; the exception is that of [os.makedirs]. *)
Theorem run_ends_with_report_or_error (makedirs : option (string * string))
    (GEMINI_API_KEY SEMANTIC_SCHOLAR_API_KEY : string)
    (w : World) (tpc : string) (limit : Z) :
  let found :=
    default [] (u_papers_to_process
                  (search_academic_papers_node SEMANTIC_SCHOLAR_API_KEY (search_env w)
                     (inputs tpc limit)).1) in
  match app_invoke makedirs GEMINI_API_KEY SEMANTIC_SCHOLAR_API_KEY w (inputs tpc limit) with
  | RunReturns r =>
      (makedirs = None \/ found = [])
      /\ match report_path (after_report r) with
         | Some p =>
             error (after_report r) = None
             /\ list_truthy (all_analyses (after_report r)) = true
             /\ p = path_join (getcwd (report_env w)) OUTPUT_REPORT_NAME
         | None => truthy_opt (error (after_report r)) = true
         end
  | RunRaises type_name msg _ => makedirs = Some (type_name, msg) /\ found <> []
  end.
Proof.
  intros found.
  pose proof (invoke_report_or_error GEMINI_API_KEY SEMANTIC_SCHOLAR_API_KEY w tpc limit)
    as Hend.
  destruct (invoke_steps GEMINI_API_KEY SEMANTIC_SCHOLAR_API_KEY w (inputs tpc limit))
    as (H1 & _).
  destruct (search_node_result SEMANTIC_SCHOLAR_API_KEY (search_env w) (inputs tpc limit))
    as (l & e & Hu & _).
  cbv zeta in Hend, H1.
  assert (found = l) as Hfound by (unfold found; by rewrite Hu).
  assert (papers_to_process
            (after_search (invoke GEMINI_API_KEY SEMANTIC_SCHOLAR_API_KEY w
                             (inputs tpc limit))) = Some l) as Hp
    by (by rewrite H1, Hu).
  pose proof (app_invoke_cases makedirs GEMINI_API_KEY SEMANTIC_SCHOLAR_API_KEY w
                (inputs tpc limit)) as Hcases.
  cbv zeta in Hcases.
  destruct Hcases as [[-> Hwhy] | (type_name & msg & Hmk & Hl & ->)]; cbv beta iota.
  - split; [| exact Hend].
    destruct Hwhy as [-> | Hl]; [by left | right].
    rewrite Hfound. rewrite Hp in Hl. by destruct l.
  - split; [done |]. rewrite Hfound. rewrite Hp in Hl. by destruct l.
Qed.

(** X22. In a run whose Gemini key is the placeholder, no request is sent
    to the language model at all; and when a paper was parsed, the run
    ends without a report and with the error "Gemini API Key missing". *)
Theorem run_with_placeholder_key (SEMANTIC_SCHOLAR_API_KEY : string) (w : World)
    (tpc : string) (limit : Z) :
  let r := invoke "YOUR_GEMINI_API_KEY" SEMANTIC_SCHOLAR_API_KEY w (inputs tpc limit) in
  llm_prompts (calls r) = []
  /\ (list_truthy (parsed_papers (after_download r)) = true ->
      error (after_report r) = Some "Gemini API Key missing"
      /\ report_path (after_report r) = None).
Proof.
  intros r. set (gk := "YOUR_GEMINI_API_KEY") in *.
  destruct (invoke_effects gk SEMANTIC_SCHOLAR_API_KEY w (inputs tpc limit))
    as [Hcalls _].
  destruct (invoke_steps gk SEMANTIC_SCHOLAR_API_KEY w (inputs tpc limit))
    as (_ & _ & H3 & H4 & H5).
  destruct (run_after_compare gk SEMANTIC_SCHOLAR_API_KEY w tpc limit)
    as (Ha3 & Ha4 & Hr4 & Hfull & _).
  destruct (run_before_summarize gk SEMANTIC_SCHOLAR_API_KEY w tpc limit) as (Ha2 & _).
  fold r in Hcalls, H3, H4, H5, Ha3, Ha4, Hr4, Hfull, Ha2.
  assert (forall state, (summarize_papers_node gk (summarize_env w) state).2 = []) as Hs.
  { intros state. unfold summarize_papers_node.
    destruct (negb _); [by destruct (truthy_opt _) | done]. }
  assert ((compare_analyses_node gk (compare_env w) (after_summarize r)).2 = []) as Hc.
  { destruct (compare_node_trace gk (compare_env w) (after_summarize r))
      as [-> | (? & _ & _ & Hk & _)]; done. }
  split.
  - rewrite Hcalls, Hs, Hc. unfold llm_prompts. rewrite !omap_app.
    fold (llm_prompts (search_academic_papers_node SEMANTIC_SCHOLAR_API_KEY
                         (search_env w) (inputs tpc limit)).2).
    fold (llm_prompts (generate_report_node (report_env w) (after_compare r)).2).
    fold (llm_prompts (trace (download_and_parse_pdfs_node (download_env w) (disk w)
                                (after_search r)).2)).
    rewrite (no_llm_in (search_academic_papers_node _ _ _).2).
    2: { eapply Forall_impl; [apply search_node_trace |].
         intros e [(? & ? & ->) | (? & ? & ->)] ? ?; discriminate. }
    rewrite (no_llm_in (generate_report_node _ _).2).
    2: { eapply Forall_impl; [apply report_node_trace |].
         intros e (? & ->) ? ?; discriminate. }
    simpl. unfold download_and_parse_pdfs_node.
    destruct (negb _); [by destruct (truthy_opt _) |].
    cbn [snd]. by rewrite download_loop_kinds.
  - intros Hl.
    assert (error (after_summarize r) = Some "Gemini API Key missing"
            /\ all_analyses (after_summarize r) = None) as [He3 Hn3].
    { rewrite H3. unfold apply_update, summarize_papers_node.
      cbn [error all_analyses]. rewrite Hl, Ha2. by cbn. }
    assert (error (after_compare r) = Some "Gemini API Key missing") as He4.
    { rewrite H4, error_after_update; [done |].
      rewrite compare_node_keeps_error; [done | by rewrite He3 | by rewrite Hn3]. }
    rewrite H5. unfold apply_update, generate_report_node.
    cbn [error report_path]. rewrite Ha4, Hn3, He4. by cbn.
Qed.

(** X23. In every run, every analysis carries "N/A" as its link: the
    download stage does not copy [pdf_url] into [parsed_papers], so the
    summarizer finds none to pass on. *)
Theorem run_analyses_carry_no_link (GEMINI_API_KEY SEMANTIC_SCHOLAR_API_KEY : string)
    (w : World) (tpc : string) (limit : Z) :
  let r := invoke GEMINI_API_KEY SEMANTIC_SCHOLAR_API_KEY w (inputs tpc limit) in
  Forall (fun a => a_pdf_url a = Some "N/A") (default [] (all_analyses (after_report r))).
Proof.
  intros r.
  destruct (invoke_steps GEMINI_API_KEY SEMANTIC_SCHOLAR_API_KEY w (inputs tpc limit))
    as (_ & _ & _ & _ & H5).
  destruct (run_after_compare GEMINI_API_KEY SEMANTIC_SCHOLAR_API_KEY w tpc limit)
    as (Ha3 & Ha4 & _).
  destruct (run_before_summarize GEMINI_API_KEY SEMANTIC_SCHOLAR_API_KEY w tpc limit)
    as (_ & _ & Hlinks).
  fold r in H5, Ha3, Ha4, Hlinks.
  assert (all_analyses (after_report r) = all_analyses (after_compare r)) as Ha5.
  { rewrite H5. unfold apply_update, generate_report_node. cbn [all_analyses].
    destruct (_ && _); [done |]. destruct (_ && _); [done |].
    by destruct (docx_outcome _). }
  rewrite Ha5, Ha4, Ha3. cbv zeta.
  destruct (summarize_node_analyses GEMINI_API_KEY (summarize_env w) (after_download r))
    as [[-> _] | [-> _]]; [constructor |].
  simpl. by apply analysed_from_links.
Qed.

Lemma download_node_files env d state :
  (forall k, remove_raises env k = false) ->
  files (download_and_parse_pdfs_node env d state).2 ⊆ d.
Proof.
  intros Hrm. unfold download_and_parse_pdfs_node.
  destruct (negb _); [by destruct (truthy_opt _) |].
  cbn [snd]. etrans; [by apply download_loop_files | done].
Qed.

(** X24. When no removal raises, a run leaves no transient file behind:
    the files in the download directory after the run were all there
    before it. *)
Theorem run_leaves_no_transient_file (GEMINI_API_KEY SEMANTIC_SCHOLAR_API_KEY : string)
    (w : World) (tpc : string) (limit : Z) :
  (forall k, remove_raises (download_env w) k = false) ->
  files_left (invoke GEMINI_API_KEY SEMANTIC_SCHOLAR_API_KEY w (inputs tpc limit))
  ⊆ disk w.
Proof.
  intros Hrm.
  destruct (invoke_effects GEMINI_API_KEY SEMANTIC_SCHOLAR_API_KEY w (inputs tpc limit))
    as [_ ->].
  by apply download_node_files.
Qed.

Lemma run_leaves_no_transient_file_witness :
  (forall k, remove_raises (download_env all_works) k = false)
  /\ files_left (invoke "key" "" all_works (inputs "agents" 3)) ⊆ disk all_works
  /\ report_path (after_report (invoke "key" "" all_works (inputs "agents" 3)))
     = Some "/app/AI_Generated_Research_Report_Reverted_Enhanced.docx".
Proof.
  split; [intros k; reflexivity |].
  split; [| vm_compute; reflexivity].
  apply (run_leaves_no_transient_file "key" "" all_works "agents" 3).
  intros k. reflexivity.
Defined.

(** ** Paragraphs of the report *)

Lemma lstrip_head (s : string) :
  PyStr.lstrip s = "" \/ exists c r, PyStr.lstrip s = String c r /\ PyStr.isspace c = false.
Proof.
  induction s as [| c s IH]; simpl; [by left |].
  destruct (PyStr.isspace c) eqn:Hc; [done |]. right. eauto.
Qed.

Lemma lstrip_idem (s : string) : PyStr.lstrip (PyStr.lstrip s) = PyStr.lstrip s.
Proof.
  destruct (lstrip_head s) as [-> | (c & r & -> & Hc)]; [done |].
  simpl. by rewrite Hc.
Qed.

Lemma rstrip_idem (s : string) : PyStr.rstrip (PyStr.rstrip s) = PyStr.rstrip s.
Proof.
  induction s as [| c s IH]; [done |]. simpl.
  destruct (PyStr.rstrip s) as [| d r] eqn:Hr.
  - destruct (PyStr.isspace c) eqn:Hc; [done |]. simpl. by rewrite Hc.
  - change (PyStr.rstrip (String c (String d r)))
      with (match PyStr.rstrip (String d r) with
            | "" => if PyStr.isspace c then "" else String c ""
            | x => String c x
            end).
    by rewrite IH.
Qed.

(** Stripping the right end of a text that does not start with white
    space gives a text that does not start with white space. *)
Lemma lstrip_rstrip (s : string) :
  PyStr.lstrip (PyStr.rstrip (PyStr.lstrip s)) = PyStr.rstrip (PyStr.lstrip s).
Proof.
  destruct (lstrip_head s) as [-> | (c & r & -> & Hc)]; [done |].
  simpl. destruct (PyStr.rstrip r); rewrite ?Hc; simpl; by rewrite Hc.
Qed.

Lemma strip_idem (s : string) : PyStr.strip (PyStr.strip s) = PyStr.strip s.
Proof. unfold PyStr.strip. by rewrite lstrip_rstrip, rstrip_idem. Qed.

Lemma lstrip_strip (s : string) : PyStr.lstrip (PyStr.strip s) = PyStr.strip s.
Proof. unfold PyStr.strip. apply lstrip_rstrip. Qed.

(** A text block that is missing or empty gives the one paragraph "N/A";
    a block that holds white space only gives no paragraph at all. *)
Lemma bullets_of_a_blank_block (text_block : option string) (style : string) :
  (truthy_opt text_block = false ->
   add_text_with_bullets text_block style = [ {| p_text := "N/A"; p_style := None |} ])
  /\ (truthy_opt text_block = true ->
      PyStr.strip (default "" text_block) = "" ->
      add_text_with_bullets text_block style = []).
Proof.
  unfold add_text_with_bullets. split; intros Ht.
  - by rewrite Ht.
  - intros Hblank. by rewrite Ht, Hblank.
Qed.

Lemma add_line_clean style line :
  Forall (fun p =>
            PyStr.lstrip (p_text p) = p_text p
            /\ (p_style p = Some style
                \/ p_style p = Some "Normal" /\ PyStr.truthy (p_text p) = true
                   /\ PyStr.strip (p_text p) = p_text p
                   /\ list_marker (p_text p) = None))
    (add_line style line).
Proof.
  unfold add_line. destruct (list_marker (PyStr.strip line)) as [m |] eqn:Hm.
  - constructor; [| constructor]. simpl. unfold remove_marker. rewrite Hm.
    split; [apply lstrip_idem | by left].
  - destruct (PyStr.truthy (PyStr.strip line)) eqn:Ht; constructor; [| constructor].
    simpl. split; [apply lstrip_strip |]. right.
    split; [done |]. split; [done |]. split; [apply strip_idem | done].
Qed.

(** X25. No paragraph made from a text block starts with white space.  A
    paragraph that is not a bullet has the style "Normal", is never empty,
    has no white space at either end and does not start with a list
    marker: blank lines add nothing. *)
Theorem bullets_paragraphs_are_clean (text_block : option string) (style : string) :
  Forall (fun p =>
            PyStr.lstrip (p_text p) = p_text p
            /\ (p_style p = None /\ p_text p = "N/A"
                \/ p_style p = Some style
                \/ p_style p = Some "Normal" /\ PyStr.truthy (p_text p) = true
                   /\ PyStr.strip (p_text p) = p_text p
                   /\ list_marker (p_text p) = None))
    (add_text_with_bullets text_block style).
Proof.
  unfold add_text_with_bullets.
  destruct (negb (truthy_opt text_block)).
  - constructor; [| constructor]. split; [done | by left].
  - induction (PyStr.split nl (PyStr.strip (default "" text_block))) as [| line l IH];
      simpl; [constructor |].
    apply Forall_app. split; [| done].
    eapply Forall_impl; [apply add_line_clean |].
    intros p [Hl H]. split; [done |]. by right.
Qed.

Lemma strip_fixed (s : string) :
  PyStr.strip s = s -> PyStr.lstrip s = s /\ PyStr.rstrip s = s.
Proof.
  intros H. assert (PyStr.lstrip s = s) as Hl by (rewrite <- H; apply lstrip_strip).
  split; [done |]. unfold PyStr.strip in H. by rewrite Hl in H.
Qed.

Lemma rstrip_app_keep (a s : string) :
  PyStr.rstrip s = s -> s <> "" -> PyStr.rstrip (a ++ s) = a ++ s.
Proof.
  intros Hs Hne. induction a as [| x a IH]; [done |].
  change (String x a ++ s) with (String x (a ++ s)). cbn [PyStr.rstrip]. rewrite IH.
  destruct (a ++ s) eqn:Happ; [| done]. by destruct a.
Qed.

Lemma digit_is_no_marker (c : ascii) :
  isdigit c = true ->
  PyStr.isspace c = false /\ Ascii.eqb c "*" = false /\ Ascii.eqb c "-" = false.
Proof. destruct c as [[] [] [] [] [] [] [] []]; by vm_compute. Qed.

Lemma leading_digits_app (digits r : string) :
  digits_only digits = true -> leading_digits r = 0%nat ->
  leading_digits (digits ++ r) = String.length digits.
Proof.
  intros Hd Hr. induction digits as [| c digits IH]; [done |].
  simpl in Hd. apply andb_prop in Hd as [Hc Hd].
  change (String c digits ++ r) with (String c (digits ++ r)).
  cbn [leading_digits String.length]. rewrite Hc. by rewrite IH.
Qed.

Lemma drop_app_length (a r : string) : PyStr.drop (String.length a) (a ++ r) = r.
Proof. induction a as [| c a IH]; [done | apply IH]. Qed.

(** The marker of a numbered line: the digits, the dot and one white
    space. *)
Lemma list_marker_digits (digits : string) (e : ascii) (r : string) :
  digits <> "" -> digits_only digits = true -> PyStr.isspace e = true ->
  list_marker (digits ++ String "." (String e r)) = Some (String.length digits + 2)%nat.
Proof.
  intros Hne Hd He. unfold list_marker.
  rewrite leading_digits_app by done. rewrite drop_app_length.
  destruct digits as [| c digits]; [done |].
  change (String c digits ++ String "." (String e r))
    with (String c (digits ++ String "." (String e r))). cbv iota.
  simpl in Hd. apply andb_prop in Hd as [Hc _].
  destruct (digit_is_no_marker c Hc) as (_ & -> & ->). cbn [orb].
  cbn [String.length Nat.ltb Nat.leb]. by rewrite He.
Qed.

Lemma list_marker_digits_dot (digits : string) :
  digits_only digits = true -> list_marker (digits ++ ".") = None.
Proof.
  intros Hd. unfold list_marker.
  rewrite leading_digits_app by done. rewrite drop_app_length.
  destruct digits as [| c digits]; [done |].
  change (String c digits ++ ".") with (String c (digits ++ ".")). cbv iota.
  simpl in Hd. apply andb_prop in Hd as [Hc _].
  destruct (digit_is_no_marker c Hc) as (_ & -> & ->). done.
Qed.

(** X26. A line made of a marker, a space and a content gives the content
    as one paragraph in the style of the list, the marker removed: so for
    a star, for a dash and for a number followed by a dot.  A number and
    a dot with nothing after them stay a normal paragraph. *)
Theorem marked_line_gives_its_content (style content : string) :
  PyStr.strip content = content -> content <> "" ->
  let bullet := [ {| p_text := content; p_style := Some style |} ] in
  add_line style ("* " ++ content) = bullet
  /\ add_line style ("- " ++ content) = bullet
  /\ (forall digits,
        digits <> "" -> digits_only digits = true ->
        add_line style (digits ++ ". " ++ content) = bullet
        /\ add_line style (digits ++ ".")
           = [ {| p_text := digits ++ "."; p_style := Some "Normal" |} ]).
Proof.
  intros Hstrip Hne bullet.
  destruct (strip_fixed content Hstrip) as [Hl Hr].
  assert (forall a, PyStr.rstrip (String a (String " " content))
                    = String a (String " " content)) as Hkeep.
  { intros a. by apply (rstrip_app_keep (String a " ")). }
  assert (forall a, Ascii.eqb a "*" || Ascii.eqb a "-" = true ->
            add_line style (String a (String " " content)) = bullet) as Hmark.
  { intros a Ha.
    assert (PyStr.isspace a = false) as Hsp.
    { apply orb_prop in Ha as [->%Ascii.eqb_eq | ->%Ascii.eqb_eq]; done. }
    unfold add_line, PyStr.strip. cbn [PyStr.lstrip]. rewrite Hsp, Hkeep.
    unfold remove_marker, list_marker. rewrite Ha.
    cbn [PyStr.drop PyStr.lstrip]. change (PyStr.isspace " ") with true. cbv iota.
    by rewrite Hl. }
  split; [by apply (Hmark "*"%char) |]. split; [by apply (Hmark "-"%char) |].
  intros digits Hd Hdig.
  assert (exists c rest, digits = String c rest /\ PyStr.isspace c = false)
    as (c & rest & Hshape & Hsp).
  { destruct digits as [| c rest]; [done |]. exists c, rest. split; [done |].
    simpl in Hdig. apply andb_prop in Hdig as [Hc _].
    by destruct (digit_is_no_marker c Hc). }
  split.
  - assert (PyStr.strip (digits ++ ". " ++ content) = digits ++ ". " ++ content) as Hs.
    { unfold PyStr.strip. rewrite Hshape.
      change (String c rest ++ ". " ++ content) with (String c (rest ++ ". " ++ content)).
      cbn [PyStr.lstrip]. rewrite Hsp.
      apply (rstrip_app_keep (String c rest)); [apply Hkeep | done]. }
    unfold add_line. rewrite Hs. unfold remove_marker.
    change (digits ++ ". " ++ content) with (digits ++ String "." (String " " content)).
    rewrite list_marker_digits by done.
    rewrite <- drop_drop, drop_app_length. cbn [PyStr.drop PyStr.lstrip].
    by rewrite Hl.
  - assert (PyStr.strip (digits ++ ".") = digits ++ ".") as Hs.
    { unfold PyStr.strip. rewrite Hshape.
      change (String c rest ++ ".") with (String c (rest ++ ".")).
      cbn [PyStr.lstrip]. rewrite Hsp.
      by apply (rstrip_app_keep (String c rest)). }
    unfold add_line. rewrite Hs, list_marker_digits_dot by done.
    rewrite Hshape. done.
Qed.

Lemma marked_line_gives_its_content_witness :
  PyStr.strip "b c" = "b c"
  /\ add_line "List Bullet" "12. b c"
     = [ {| p_text := "b c"; p_style := Some "List Bullet" |} ]
  /\ add_line "List Bullet" "12."
     = [ {| p_text := "12."; p_style := Some "Normal" |} ].
Proof.
  split; [reflexivity |].
  destruct (marked_line_gives_its_content "List Bullet" "b c" eq_refl ltac:(discriminate))
    as (_ & _ & H).
  destruct (H "12" ltac:(discriminate) eq_refl) as [H1 H2].
  split; [exact H1 | exact H2].
Defined.

(** ** The API server *)

Lemma or_else_message e msg :
  msg <> "" -> exists m, or_else e msg = Some m /\ m <> "".
Proof. unfold or_else. destruct e as [[| c s] |]; simpl; eauto. Qed.

Lemma truthy_path (o : option string) :
  truthy_opt o = true <-> exists p, o = Some p /\ p <> "".
Proof.
  destruct o as [[| c s] |]; simpl; split; try done.
  - by intros (p & [= <-] & Hp).
  - intros _. by eexists.
  - by intros (p & [=] & _).
Qed.

(** X27. The background task touches the entry of its own task only, and
    leaves it settled: "completed" or "error", never "running".  An entry
    "error" has no report path and a message that is not empty.  The entry
    is "completed" exactly when the graph is loaded and returns a state
    whose report path is set, not empty and on disk; the entry then holds
    that path, and the error of the state as its message. *)
Theorem workflow_settles_task (langgraph_app : option (ResearchState -> AppOutcome))
    (path_exists : string -> bool) (task_id tpc : string) (limit : Z)
    (task_results : gmap string TaskResult) :
  let after := run_research_workflow langgraph_app path_exists task_id tpc limit
                 task_results in
  (forall other, other <> task_id -> after !! other = task_results !! other)
  /\ exists result,
       after !! task_id = Some result
       /\ (status result = "completed" \/ status result = "error")
       /\ (status result = "error" ->
           tr_report_path result = None
           /\ exists m, error_message result = Some m /\ m <> "")
       /\ (status result = "completed" ->
           exists app final_state p,
             langgraph_app = Some app
             /\ app (inputs tpc limit) = AppReturns (Some final_state)
             /\ report_path final_state = Some p /\ p <> "" /\ path_exists p = true
             /\ tr_report_path result = Some p
             /\ error_message result = error final_state)
       /\ (forall app final_state p,
             langgraph_app = Some app ->
             app (inputs tpc limit) = AppReturns (Some final_state) ->
             report_path final_state = Some p -> p <> "" -> path_exists p = true ->
             status result = "completed").
Proof.
  intros after. unfold after, run_research_workflow. split.
  - intros other Hne. destruct langgraph_app as [app |];
      [destruct (app (inputs tpc limit)) as [ty e | [fs |]];
       [| destruct (truthy_opt (report_path fs) && _) |] |];
      by rewrite ?lookup_insert_ne.
  - destruct langgraph_app as [app |].
    + destruct (app (inputs tpc limit)) as [ty e | [fs |]] eqn:Happ.
      * eexists. split; [apply lookup_insert_eq |]. cbn [status tr_report_path error_message].
        split; [by right |]. split; [| split; [done |]].
        -- intros _. split; [done |]. eexists. split; [done |]. done.
        -- intros app' fs' p [= <-]. by rewrite Happ.
      * destruct (truthy_opt (report_path fs) && path_exists (default "" (report_path fs)))
          eqn:Hok.
        -- apply andb_prop in Hok as [Ht Hex].
           apply truthy_path in Ht as (p & Hp & Hne). rewrite Hp in Hex |- *.
           eexists. split; [apply lookup_insert_eq |].
           cbn [status tr_report_path error_message].
           split; [by left |]. split; [done |]. split; [| done].
           intros _. by exists app, fs, p.
        -- eexists. split; [apply lookup_insert_eq |].
           cbn [status tr_report_path error_message].
           split; [by right |]. split; [| split; [done |]].
           ++ intros _. split; [done |]. by apply or_else_message.
           ++ intros app' fs' p [= <-]. rewrite Happ. intros [= <-] Hp Hne Hex.
              rewrite Hp in Hok. simpl in Hok. rewrite Hex in Hok.
              by destruct p.
      * eexists. split; [apply lookup_insert_eq |]. cbn [status tr_report_path error_message].
        split; [by right |]. split; [| split; [done |]].
        -- intros _. split; [done |]. by eexists.
        -- intros app' fs' p [= <-]. by rewrite Happ.
    + eexists. split; [apply lookup_insert_eq |]. cbn [status tr_report_path error_message].
      split; [by right |]. split; [| split; [done |]].
      * intros _. split; [done |]. by eexists.
      * by intros app' fs' p [=].
Qed.

Lemma str_app_assoc (a b c : string) : (a ++ b) ++ c = a ++ (b ++ c).
Proof.
  induction a as [| x a IH]; [done |].
  change (String x ((a ++ b) ++ c) = String x (a ++ (b ++ c))). by rewrite IH.
Qed.

Lemma rev_app_app (s1 s2 : string) : String.rev_app s1 s2 = String.rev s1 ++ s2.
Proof.
  unfold String.rev. revert s2. induction s1 as [| c s1 IH]; intros s2; [done |].
  cbn [String.rev_app]. rewrite (IH (String c s2)), (IH (String c "")).
  by rewrite str_app_assoc.
Qed.

Lemma rev_cons (x : ascii) (s : string) :
  String.rev (String x s) = String.rev s ++ String x "".
Proof. unfold String.rev at 1. cbn [String.rev_app]. apply rev_app_app. Qed.

(** The last character of a text that is not empty. *)
Lemma rev_last (a : string) :
  a <> "" -> exists a' c, a = a' ++ String c "" /\ String.rev a = String c (String.rev a').
Proof.
  induction a as [| x s IH]; [done |]. intros _.
  destruct s as [| y s'].
  - by exists "", x.
  - destruct IH as (a' & c & Ha & Hr); [done |].
    exists (String x a'), c. split.
    + change (String x (String y s') = String x (a' ++ String c "")). by rewrite Ha.
    + by rewrite (rev_cons x (String y s')), Hr, rev_cons.
Qed.

Lemma startswith_char (x c : ascii) (s : string) :
  PyStr.startswith (String x "") (String c s) = if ascii_dec x c then true else false.
Proof.
  unfold PyStr.startswith. simpl. destruct (ascii_dec x c); [by destruct s | done].
Qed.

Lemma split_aux_cons sep k s : exists p l, PyStr.split_aux sep k s = p :: l.
Proof.
  revert k. induction s as [| c s IH]; intros k; simpl; [by eexists _, _ |].
  destruct k as [| k]; [| apply IH].
  destruct (PyStr.startswith sep (String c s)); [by eexists _, _ |].
  destruct (IH 0%nat) as (p & l & ->). by eexists _, _.
Qed.

(** Cutting at slashes a text with a slash in it: what follows the slash
    is cut on its own. *)
Lemma split_slash_app (a b : string) :
  exists p l, PyStr.split "/" (a ++ "/" ++ b) = ((p :: l) ++ PyStr.split "/" b)%list.
Proof.
  unfold PyStr.split. induction a as [| c a IH].
  - exists "", []. change ("" ++ "/" ++ b) with (String "/" b).
    cbn [PyStr.split_aux]. rewrite startswith_char.
    by destruct (ascii_dec "/" "/").
  - destruct IH as (p & l & IH).
    change (String c a ++ "/" ++ b) with (String c (a ++ "/" ++ b)).
    cbn [PyStr.split_aux]. change (String.length "/" - 1)%nat with 0%nat.
    rewrite IH. destruct (PyStr.startswith "/" _).
    + by exists "", (p :: l).
    + by exists (String c p), l.
Qed.

Lemma last_split_app (l : list string) (b : string) :
  PyStr.last (l ++ PyStr.split "/" b)%list = PyStr.last (PyStr.split "/" b).
Proof.
  unfold PyStr.last, PyStr.split.
  destruct (split_aux_cons "/" 0 b) as (q & m & ->).
  induction l as [| p l IH]; [done |].
  change (List.last (p :: (l ++ q :: m)%list) EmptyString = List.last (q :: m) EmptyString).
  rewrite <- IH. by destruct l.
Qed.

(** The name of a file in a directory is the name it was joined with,
    when that name has no slash. *)
Lemma basename_join (dir name : string) :
  PyStr.split "/" name = [name] -> basename (path_join dir name) = name.
Proof.
  intros Hname. unfold basename, path_join.
  assert (forall a, PyStr.last (PyStr.split "/" (a ++ "/" ++ name)) = name) as Hcut.
  { intros a. destruct (split_slash_app a name) as (p & l & ->).
    by rewrite last_split_app, Hname. }
  destruct (PyStr.startswith "/" name); [by rewrite Hname |].
  destruct (PyStr.truthy dir) eqn:Hd; cbn [negb orb].
  - destruct (PyStr.startswith "/" (String.rev dir)) eqn:Hs; [| apply Hcut].
    destruct (rev_last dir) as (a' & c & -> & Hr); [by destruct dir |].
    rewrite Hr, startswith_char in Hs.
    destruct (ascii_dec "/" c) as [<- |]; [| done].
    rewrite str_app_assoc. apply Hcut.
  - destruct dir; [| done]. change ("" ++ name) with name. by rewrite Hname.
Qed.

(** The entry the background task leaves for its task. *)
Lemma workflow_entry langgraph_app path_exists task_id tpc limit task_results :
  exists result,
    run_research_workflow langgraph_app path_exists task_id tpc limit task_results
      !! task_id = Some result
    /\ ((exists app final_state p,
           langgraph_app = Some app
           /\ app (inputs tpc limit) = AppReturns (Some final_state)
           /\ report_path final_state = Some p /\ p <> "" /\ path_exists p = true
           /\ result = {| status := "completed"; tr_report_path := Some p;
                          error_message := error final_state |})
        \/ (exists m,
              m <> ""
              /\ result = {| status := "error"; tr_report_path := None;
                             error_message := Some m |}
              /\ forall app final_state,
                   langgraph_app = Some app ->
                   app (inputs tpc limit) = AppReturns (Some final_state) ->
                   truthy_opt (report_path final_state)
                   && path_exists (default "" (report_path final_state)) = false
                   /\ Some m = or_else (error final_state)
                                 "Workflow finished but report path missing or invalid.")).
Proof.
  unfold run_research_workflow. destruct langgraph_app as [app |].
  - destruct (app (inputs tpc limit)) as [ty e | [fs |]] eqn:Happ.
    + eexists. split; [apply lookup_insert_eq |]. right. eexists.
      split; [| split; [done |]]; [done |]. intros app' fs' [= <-]. by rewrite Happ.
    + destruct (truthy_opt (report_path fs) && path_exists (default "" (report_path fs)))
        eqn:Hok.
      * pose proof Hok as Hok'. apply andb_prop in Hok' as [Ht Hex].
        apply truthy_path in Ht as (p & Hp & Hne). rewrite Hp in Hex |- *.
        eexists. split; [apply lookup_insert_eq |]. left. by exists app, fs, p.
      * destruct (or_else_message (error fs)
                    "Workflow finished but report path missing or invalid.")
          as (m & Hm & Hne); [done |].
        eexists. split; [apply lookup_insert_eq |]. right. exists m.
        split; [done |]. split; [by rewrite Hm |].
        intros app' fs' [= <-]. rewrite Happ. by intros [= <-].
    + eexists. split; [apply lookup_insert_eq |]. right. eexists.
      split; [| split; [done |]]; [done |]. intros app' fs' [= <-]. by rewrite Happ.
  - eexists. split; [apply lookup_insert_eq |]. right. eexists.
    split; [| split; [done |]]; [done |]. by intros app' fs' [=].
Qed.


(** X29. Polling a task once its background task has ended, with the files
    as they were then: the poll changes nothing, and it answers with the
    report file, from a path that is on disk, or with a JSON error whose
    message is not empty; never with "not found", "running" or an
    exception. *)
Theorem poll_after_workflow (langgraph_app : option (ResearchState -> AppOutcome))
    (path_exists : string -> bool) (task_id tpc : string) (limit : Z)
    (task_results : gmap string TaskResult) :
  let after := run_research_workflow langgraph_app path_exists task_id tpc limit
                 task_results in
  let answer := get_results path_exists task_id after in
  answer.2 = after
  /\ ((exists p, p <> "" /\ path_exists p = true
                 /\ answer.1 = FileResponse p (basename p))
      \/ (exists m, m <> "" /\ answer.1 = Json 500 "error" (Some m))).
Proof.
  intros after answer. unfold answer, after, get_results.
  destruct (workflow_entry langgraph_app path_exists task_id tpc limit task_results)
    as (result & -> & [(app & fs & p & _ & _ & _ & Hne & Hex & ->)
                       | (m & Hne & -> & _)]);
    cbn [status tr_report_path error_message].
  - change (String.eqb "completed" "completed") with true. cbv iota.
    destruct p as [| c p]; [done |]. cbn -[basename]. rewrite Hex. cbn -[basename].
    split; [done |]. left. by eexists.
  - change (String.eqb "error" "completed") with false.
    change (String.eqb "error" "running") with false.
    change (String.eqb "error" "error") with true. cbv iota. cbn [fst snd].
    split; [done |]. right. by exists m.
Qed.

Lemma path_join_truthy (dir name : string) :
  name <> "" -> PyStr.truthy (path_join dir name) = true.
Proof.
  intros Hname. unfold path_join.
  assert (forall a, PyStr.truthy (a ++ name) = true) as Happ.
  { intros [| c a]; [by destruct name | done]. }
  destruct (PyStr.startswith "/" name); [by destruct name |].
  destruct (_ || _); [apply Happ |].
  destruct dir; [done | done].
Qed.

(** X30. The server over the graph.  When the call of the graph
    returns, the task ends "completed" exactly when the run returns its
    report path and that path is on disk; the entry then holds the
    working directory joined with the name of the report and no error
    message, and a poll serves the file under the name of the report,
    whatever the working directory.  Otherwise the task ends "error":
    with the error of the run when the run returned no path, and with the
    text about a missing path when the returned path is not on disk.
    When the call of the graph raises, which is when [os.makedirs]
    raises, the task ends "error" with the text about a critical error,
    which names the type and the message of the exception. *)
Theorem server_reports_the_run (makedirs : option (string * string))
    (GEMINI_API_KEY SEMANTIC_SCHOLAR_API_KEY : string)
    (w : World) (path_exists : string -> bool) (task_id tpc : string) (limit : Z)
    (task_results : gmap string TaskResult) :
  let after :=
    run_research_workflow
      (Some (graph_app makedirs GEMINI_API_KEY SEMANTIC_SCHOLAR_API_KEY w))
      path_exists task_id tpc limit task_results in
  let path := path_join (getcwd (report_env w)) OUTPUT_REPORT_NAME in
  exists result,
    after !! task_id = Some result
    /\ match app_invoke makedirs GEMINI_API_KEY SEMANTIC_SCHOLAR_API_KEY w
                (inputs tpc limit) with
       | RunReturns r =>
           let s := after_report r in
           (status result = "completed"
            /\ tr_report_path result = Some path /\ error_message result = None
            /\ report_path s = Some path /\ path_exists path = true
            /\ (get_results path_exists task_id after).1
               = FileResponse path OUTPUT_REPORT_NAME)
           \/ (status result = "error" /\ tr_report_path result = None
               /\ ((report_path s = None /\ truthy_opt (error s) = true
                    /\ error_message result = error s)
                   \/ (report_path s = Some path /\ path_exists path = false
                       /\ error_message result
                          = Some "Workflow finished but report path missing or invalid.")))
       | RunRaises type_name msg _ =>
           makedirs = Some (type_name, msg)
           /\ status result = "error" /\ tr_report_path result = None
           /\ error_message result
              = Some ("Critical error during workflow execution: "
                      ++ type_name ++ " - " ++ msg)
       end.
Proof.
  intros after path.
  pose proof (invoke_report_or_error GEMINI_API_KEY SEMANTIC_SCHOLAR_API_KEY w tpc limit)
    as Hend. cbv zeta in Hend.
  assert (PyStr.truthy path = true) as Hpath by (by apply path_join_truthy).
  assert (basename path = OUTPUT_REPORT_NAME) as Hbase by (by apply basename_join).
  unfold after, run_research_workflow, graph_app.
  pose proof (app_invoke_cases makedirs GEMINI_API_KEY SEMANTIC_SCHOLAR_API_KEY w
                (inputs tpc limit)) as Hcases.
  cbv zeta in Hcases.
  destruct Hcases as [[-> _] | (type_name & msg & Hmk & _ & ->)].
  2: { eexists. split; [apply lookup_insert_eq |]. by cbn [status tr_report_path error_message]. }
  set (s := after_report (invoke GEMINI_API_KEY SEMANTIC_SCHOLAR_API_KEY w
                            (inputs tpc limit))) in *.
  fold path in Hend. clearbody s path. cbv beta iota zeta.
  destruct (report_path s) as [p |] eqn:Hp.
  - destruct Hend as (He & _ & ->). rewrite He. cbn [truthy_opt default from_option id].
    rewrite Hpath. cbn [andb].
    destruct (path_exists path) eqn:Hex.
    + eexists. split; [apply lookup_insert_eq |]. left.
      cbn [status tr_report_path error_message].
      repeat (split; [done |]).
      unfold get_results. rewrite lookup_insert_eq.
      cbn [status tr_report_path truthy_opt default from_option id].
      change (String.eqb "completed" "completed") with true. cbv iota.
      rewrite Hpath, Hex, Hbase. done.
    + eexists. split; [apply lookup_insert_eq |]. right.
      cbn [status tr_report_path error_message].
      split; [done |]. split; [done |]. right. done.
  - cbn [truthy_opt andb].
    eexists. split; [apply lookup_insert_eq |]. right.
    cbn [status tr_report_path error_message].
    split; [done |]. split; [done |]. left.
    split; [done |]. split; [done |]. unfold or_else. by rewrite Hend.
Qed.
